(** * API code generator: normalizers and target emitters

    A shallow embedding of the documentation normalizers
    (server/parsers/swaggerParser.js, postmanParser.js, htmlParser.js)
    and of the target emitters (server/generators/nodeGenerator.js,
    goGenerator.js and the Java and PHP generators), followed by the
    properties of the specification that were checked against them.

    Conventions of the embedding.
    - A JavaScript string is a [string]; its characters stand for code
      units below 256.  [toLowerCase]/[toUpperCase] are described on
      ASCII text: they map the ASCII letters and leave every other code
      unit unchanged, whereas JavaScript also converts letters beyond
      ASCII, some of them into several code units.
    - A field that may be [undefined] (or [null]) is an [option].
    - An object that the code walks with [Object.entries]/[Object.keys]
      is an association list in the order JavaScript enumerates it:
      the names that are array indices first, in ascending numeric
      order, then the other names in the order of their insertion.
    - An object that the code only builds key by key and hands on (the
      [responses] of an endpoint) is a [gmap] of its own properties.
    - Values that are only passed through (examples, property maps,
      security requirements) are [JSON] values. *)

From stdpp Require Import base list strings gmap pretty.
From Stdlib Require Import ZArith Ascii Lia.

Open Scope string_scope.
Open Scope list_scope.

#[local] Set Warnings "-register-all".
#[local] Unset Elimination Schemes.

(** ** JavaScript values and string primitives *)

Inductive JSON : Type :=
| JNull
| JBool (b : bool)
| JNum (n : Z)
| JStr (s : string)
| JArr (l : list JSON)
| JObj (l : list (string * JSON)).

#[local] Set Elimination Schemes.

Module JS.

(** The double-quote character, which the templates use freely. *)
Definition dq : string := String (ascii_of_nat 34) EmptyString.

(** [ToBoolean] on a JSON value ([NaN] is not representable). *)
Definition truthy (v : JSON) : bool :=
  match v with
  | JNull => false
  | JBool b => b
  | JNum n => negb (Z.eqb n 0)
  | JStr s => negb (String.eqb s "")
  | JArr _ | JObj _ => true
  end.

(** [a || b] where both sides may be [undefined]. *)
Definition or_json (a b : option JSON) : option JSON :=
  match a with
  | Some v => if truthy v then Some v else b
  | None => b
  end.

(** [s || d] for a string that may be [undefined]: the empty string is
    falsy. *)
Definition or_str (s : option string) (d : string) : string :=
  match s with
  | Some v => if String.eqb v "" then d else v
  | None => d
  end.

(** [s1 || s2 || d] keeps the first truthy operand. *)
Definition truthy_str (s : option string) : bool :=
  match s with
  | Some v => negb (String.eqb v "")
  | None => false
  end.

Definition or_bool (b : option bool) (d : bool) : bool :=
  match b with
  | Some true => true
  | _ => d
  end.

Definition code (c : ascii) : nat := nat_of_ascii c.

Definition isUpper (c : ascii) : bool :=
  (65 <=? code c)%nat && (code c <=? 90)%nat.
Definition isLower (c : ascii) : bool :=
  (97 <=? code c)%nat && (code c <=? 122)%nat.
Definition isDigit (c : ascii) : bool :=
  (48 <=? code c)%nat && (code c <=? 57)%nat.

(** [[a-zA-Z0-9]] *)
Definition isAlnum (c : ascii) : bool := isUpper c || isLower c || isDigit c.

(** [\w] is [[A-Za-z0-9_]]. *)
Definition isWord (c : ascii) : bool := isAlnum c || (code c =? 95)%nat.

(** [\s] restricted to code units below 256: TAB, LF, VT, FF, CR, SPACE
    and NO-BREAK SPACE. *)
Definition isSpace (c : ascii) : bool :=
  ((9 <=? code c)%nat && (code c <=? 13)%nat)
  || (code c =? 32)%nat || (code c =? 160)%nat.

Definition lowerChar (c : ascii) : ascii :=
  if isUpper c then ascii_of_nat (code c + 32) else c.
Definition upperChar (c : ascii) : ascii :=
  if isLower c then ascii_of_nat (code c - 32) else c.

Fixpoint mapChars (f : ascii -> ascii) (s : string) : string :=
  match s with
  | EmptyString => EmptyString
  | String c r => String (f c) (mapChars f r)
  end.

Fixpoint filterChars (f : ascii -> bool) (s : string) : string :=
  match s with
  | EmptyString => EmptyString
  | String c r => if f c then String c (filterChars f r) else filterChars f r
  end.

(** The longest prefix whose characters satisfy [f], and what follows
    it. *)
Fixpoint takeWhileChars (f : ascii -> bool) (s : string) : string :=
  match s with
  | EmptyString => EmptyString
  | String c r => if f c then String c (takeWhileChars f r) else EmptyString
  end.

Fixpoint dropWhileChars (f : ascii -> bool) (s : string) : string :=
  match s with
  | EmptyString => EmptyString
  | String c r => if f c then dropWhileChars f r else s
  end.

Fixpoint allChars (f : ascii -> bool) (s : string) : bool :=
  match s with
  | EmptyString => true
  | String c r => f c && allChars f r
  end.

(** [s.slice(n)] *)
Fixpoint dropChars (n : nat) (s : string) : string :=
  match n, s with
  | O, _ => s
  | S n, String _ r => dropChars n r
  | S _, EmptyString => EmptyString
  end.

(** [s.slice(0, n)] *)
Fixpoint takeChars (n : nat) (s : string) : string :=
  match n, s with
  | O, _ => EmptyString
  | S n, String c r => String c (takeChars n r)
  | S _, EmptyString => EmptyString
  end.

(** [s.trim()] *)
Fixpoint trimEnd (s : string) : string :=
  match s with
  | EmptyString => EmptyString
  | String c r =>
      match trimEnd r with
      | EmptyString => if isSpace c then EmptyString else String c EmptyString
      | r' => String c r'
      end
  end.

Definition trim (s : string) : string := trimEnd (dropWhileChars isSpace s).

(** [s.split(c)] for a one-character separator. *)
Fixpoint splitOn (sep : ascii) (s : string) : list string :=
  match s with
  | EmptyString => [EmptyString]
  | String c r =>
      if Ascii.eqb c sep then EmptyString :: splitOn sep r
      else match splitOn sep r with
           | [] => [String c EmptyString]
           | w :: ws => String c w :: ws
           end
  end.

Definition toLowerCase : string -> string := mapChars lowerChar.
Definition toUpperCase : string -> string := mapChars upperChar.

(** [s.startsWith(p)] *)
Definition startsWith (s p : string) : bool := String.prefix p s.

(** [s.includes(sub)] *)
Fixpoint includes (s sub : string) : bool :=
  String.prefix sub s
  || match s with
     | EmptyString => false
     | String _ r => includes r sub
     end.

(** [l.join(sep)] *)
Definition join (sep : string) (l : list string) : string := String.concat sep l.

(** [s.replace(/[^a-zA-Z0-9]/g, '_')] *)
Definition replaceNonAlnum (by_ : ascii) (s : string) : string :=
  mapChars (fun c => if isAlnum c then c else by_) s.

Definition underscore : ascii := ascii_of_nat 95.
Definition hyphen : ascii := ascii_of_nat 45.

(** [s.charAt(0).toUpperCase() + s.slice(1)] *)
Definition capitalize (s : string) : string :=
  match s with
  | EmptyString => EmptyString
  | String c r => String (upperChar c) r
  end.

(** The line feed, and the separator of ['\n\n']. *)
Definition nl : string := String (ascii_of_nat 10) EmptyString.

(** [`${x}`] for a string that may be [undefined]. *)
Definition str (o : option string) : string := default "undefined" o.

(** [names.join(sep)]: [join] renders [undefined] as the empty string. *)
Definition joinNames (sep : string) (names : list (option string)) : string :=
  join sep (map (default "") names).

(** [s.replace(/[^a-z0-9]/g, '-')] *)
Definition replaceNonSlug (s : string) : string :=
  mapChars (fun c => if isLower c || isDigit c then c else hyphen) s.

(** [title.toLowerCase().replace(/[^a-z0-9]/g, '-')].  Beyond the code
    units of the embedding [toLowerCase] may change the length of a
    string; the replacement works on whatever it returns. *)
Definition slug (title : string) : string := replaceNonSlug (toLowerCase title).

(** The replacement text of [s.replace(pattern, replacement)] for a
    string pattern: [$$], [$&], [$`] and [$'] are expanded, any other
    [$] stands for itself (there are no capture groups). *)
Fixpoint expandReplacement (replacement matched before after : string) : string :=
  match replacement with
  | EmptyString => EmptyString
  | String c r =>
      if Ascii.eqb c "$" then
        match r with
        | String d r' =>
            if Ascii.eqb d "$" then String "$" (expandReplacement r' matched before after)
            else if Ascii.eqb d "&" then matched +:+ expandReplacement r' matched before after
            else if Ascii.eqb d "`" then before +:+ expandReplacement r' matched before after
            else if Ascii.eqb d "'" then after +:+ expandReplacement r' matched before after
            else String c (expandReplacement r matched before after)
        | EmptyString => String c EmptyString
        end
      else String c (expandReplacement r matched before after)
  end.

(** The text before the first occurrence of [pattern] in [s], and the
    text after it. *)
Fixpoint splitAtFirst (s pattern : string) : option (string * string) :=
  if String.prefix pattern s then Some (EmptyString, dropChars (String.length pattern) s)
  else match s with
       | EmptyString => None
       | String c r =>
           match splitAtFirst r pattern with
           | Some (before, after) => Some (String c before, after)
           | None => None
           end
       end.

(** [s.replace(pattern, replacement)] with a string pattern. *)
Definition replace (s pattern replacement : string) : string :=
  match splitAtFirst s pattern with
  | Some (before, after) =>
      before +:+ expandReplacement replacement pattern before after +:+ after
  | None => s
  end.

(** Lookup of an own property in an object given by its entries. *)
Fixpoint prop {A} (o : list (string * A)) (k : string) : option A :=
  match o with
  | [] => None
  | (k', v) :: r => if String.eqb k' k then Some v else prop r k
  end.

End JS.

(** ** The canonical model shared by normalizers and emitters *)

Record Param := mkParam {
  p_name : option string;
  p_in : option string;
  p_required : bool;
  p_type : string;
  p_description : string;
  p_example : option JSON;
  p_format : option string;
  p_enum : option (list JSON)
}.

Record SchemaSketch := mkSchemaSketch {
  sk_type : option string;
  sk_properties : JSON;
  sk_required : option (list string);
  sk_example : option JSON
}.

Record Body := mkBody {
  b_required : bool;
  b_mediaType : string;
  b_schema : SchemaSketch
}.

Record ResponseDesc := mkResponseDesc {
  r_description : string;
  r_mediaType : string;
  r_schema : option SchemaSketch
}.

Record AuthMethod := mkAuthMethod {
  am_type : string;
  am_name : option string;
  am_in : option string;
  am_description : option string
}.

Record Endpoint := mkEndpoint {
  method : string;
  path : string;
  fullUrl : string;
  summary : string;
  description : string;
  operationId : string;
  parameters : list Param;
  requestBody : option Body;
  responses : gmap string ResponseDesc;
  security : list JSON;
  tags : list string
}.

(** The object a normalizer returns and a generator reads.  Its text
    fields are strings here: a document whose title is another truthy
    value (a number, an object) is handed on as it is by the OpenAPI and
    Postman normalizers, and what the generators do with such a title
    is outside this description. *)
Record ParsedData := mkParsedData {
  baseUrl : string;
  authMethod : AuthMethod;
  endpoints : list Endpoint;
  title : string;
  version : string;
  pd_description : string
}.

(** The result of [new URL(s)], restricted to the fields read. *)
Record URL := mkURL {
  protocol : string;
  host : string;
  pathname : string
}.

(** A JavaScript computation that returns a value or throws an [Error]
    with a message. *)
Inductive Result (A : Type) : Type :=
| Ok (a : A)
| Throw (message : string).
Arguments Ok {A} a.
Arguments Throw {A} message.

Definition bindResult {A B} (r : Result A) (k : A -> Result B) : Result B :=
  match r with
  | Ok a => k a
  | Throw m => Throw m
  end.

Notation "x <- r ;; k" := (bindResult r (fun x => k))
  (at level 100, r at next level, right associativity).

(** The results of [f] on the elements of [l] in order, up to the first
    that throws. *)
Fixpoint allResults {A B} (f : A -> Result B) (l : list A) : Result (list B) :=
  match l with
  | [] => Ok []
  | a :: rest =>
      b <- f a ;;
      bs <- allResults f rest ;;
      Ok (b :: bs)
  end.

(** What a call that may throw or return [null] yields, if anything. *)
Definition returned {A} (r : Result (option A)) : option A :=
  match r with
  | Ok o => o
  | Throw _ => None
  end.

(** The elements a call produces: those of the array it returns, none
    when it throws. *)
Definition produced {A} (r : Result (list A)) : list A :=
  match r with
  | Ok l => l
  | Throw _ => []
  end.

(** [{ type: 'none' }] *)
Definition authNone : AuthMethod := mkAuthMethod "none" None None None.

(** ** server/parsers/swaggerParser.js *)

Module swaggerParser.

(** The document handed back by [SwaggerParser.parse], restricted to
    the fields the normalizer reads. *)
Record SecurityScheme := mkSecurityScheme {
  ss_type : option string;
  ss_scheme : option string;
  ss_name : option string;
  ss_in : option string;
  ss_description : option string
}.

Record Schema := mkSchema {
  s_type : option string;
  s_properties : option JSON;
  s_required : option (list string);
  s_example : option JSON;
  s_format : option string;
  s_enum : option (list JSON)
}.

Record MediaTypeObject := mkMediaTypeObject {
  mt_schema : option Schema;
  mt_example : option JSON
}.

Record RequestBodyObject := mkRequestBodyObject {
  rb_content : option (list (string * MediaTypeObject));
  rb_required : option bool
}.

Record ParameterObject := mkParameterObject {
  po_name : option string;
  po_in : option string;
  po_required : option bool;
  po_schema : option Schema;
  po_description : option string;
  po_example : option JSON
}.

Record ResponseObject := mkResponseObject {
  ro_description : option string;
  ro_content : option (list (string * MediaTypeObject))
}.

Record Operation := mkOperation {
  op_summary : option string;
  op_description : option string;
  op_operationId : option string;
  op_parameters : option (list ParameterObject);
  op_requestBody : option RequestBodyObject;
  op_responses : option (list (string * ResponseObject));
  op_security : option (list JSON);
  op_tags : option (list string)
}.

Record Info := mkInfo {
  i_title : option string;
  i_version : option string;
  i_description : option string
}.

Record Api := mkApi {
  api_servers : option (list (option string));
  api_host : option string;
  api_securitySchemes : option (list (string * SecurityScheme));
                                        (* api.components?.securitySchemes *)
  api_paths : option (list (string * list (string * Operation)));
  api_security : option (list JSON);
  api_info : option Info;
  api_securityDefinitions : option (list (string * SecurityScheme))
       (* where a Swagger 2.0 document declares its schemes; never read *)
}.

(** [api.servers?.[0]?.url] *)
Definition firstServerUrl (api : Api) : option string :=
  match api_servers api with
  | Some (u :: _) => u
  | _ => None
  end.

(** The body of the [switch] for one scheme: [Some] when a [return] is
    reached, [None] when control falls out of the [switch]. *)
Definition switchScheme (scheme : SecurityScheme) : option AuthMethod :=
  match ss_type scheme with
  | Some "http" =>
      if bool_decide (ss_scheme scheme = Some "bearer") then
        Some (mkAuthMethod "bearer" (Some "Authorization") None (ss_description scheme))
      else if bool_decide (ss_scheme scheme = Some "basic") then
        Some (mkAuthMethod "basic" (Some "Authorization") None (ss_description scheme))
      else None
  | Some "apiKey" =>
      Some (mkAuthMethod "apiKey" (ss_name scheme)
              (Some (JS.or_str (ss_in scheme) "header")) (ss_description scheme))
  | Some "oauth2" =>
      Some (mkAuthMethod "oauth2" (Some "Authorization") None (ss_description scheme))
  | _ => None
  end.

(** The [for ... of Object.entries(securitySchemes)] loop. *)
Fixpoint scanSchemes (entries : list (string * SecurityScheme)) : AuthMethod :=
  match entries with
  | [] => authNone
  | (_, scheme) :: rest =>
      match switchScheme scheme with
      | Some a => a
      | None => scanSchemes rest
      end
  end.

Definition extractAuthMethod (api : Api) : AuthMethod :=
  let securitySchemes := default [] (api_securitySchemes api) in
  scanSchemes securitySchemes.

Definition extractParameters (parameters : list ParameterObject) : list Param :=
  map (fun param =>
    mkParam
      (po_name param)
      (po_in param)
      (JS.or_bool (po_required param) false)
      (JS.or_str (po_schema param ≫= s_type) "string")
      (JS.or_str (po_description param) "")
      (JS.or_json (po_example param) (po_schema param ≫= s_example))
      (po_schema param ≫= s_format)
      (po_schema param ≫= s_enum)) parameters.

(** [Object.keys(content)[0] || 'application/json'] *)
Definition firstMediaType {A} (content : list (string * A)) : string :=
  JS.or_str (fst <$> head content) "application/json".

Definition extractRequestBody (requestBody : option RequestBodyObject) : option Body :=
  match requestBody with
  | None => None
  | Some requestBody =>
      let content := default [] (rb_content requestBody) in
      let mediaType := firstMediaType content in
      let schema := JS.prop content mediaType ≫= mt_schema in
      match schema with
      | None => None
      | Some schema =>
          Some (mkBody
                  (JS.or_bool (rb_required requestBody) false)
                  mediaType
                  (mkSchemaSketch
                     (s_type schema)
                     (default (JObj []) (s_properties schema))
                     (Some (default [] (s_required schema)))
                     (JS.prop content mediaType ≫= mt_example)))
      end
  end.

(** One iteration of the loop of [extractResponses]:
    [extracted[code] = { ... }].  On the plain object [extracted] the
    assignment of an object to the name [__proto__] replaces the
    prototype and adds no property. *)
Definition addResponse (extracted : gmap string ResponseDesc)
  (entry : string * ResponseObject) : gmap string ResponseDesc :=
  let '(code, response) := entry in
  let content := default [] (ro_content response) in
  let mediaType := firstMediaType content in
  let schema := JS.prop content mediaType ≫= mt_schema in
  if String.eqb code "__proto__" then extracted
  else
  <[code :=
      mkResponseDesc
        (JS.or_str (ro_description response) "")
        mediaType
        ((fun schema => mkSchemaSketch
            (s_type schema)
            (default (JObj []) (s_properties schema))
            None
            (JS.prop content mediaType ≫= mt_example)) <$> schema)]> extracted.

Definition extractResponses (responses : list (string * ResponseObject))
  : gmap string ResponseDesc :=
  foldl addResponse ∅ responses.

Definition httpMethods : list string :=
  ["get"; "post"; "put"; "delete"; "patch"; "head"; "options"].

(** [a || b || []] on arrays: an array is always truthy. *)
Definition or_arr {A} (a b : option (list A)) : list A :=
  match a with
  | Some l => l
  | None => default [] b
  end.

(** The body of the inner loop for one [(method, operation)] entry of
    the path item stored under [path]. *)
Definition endpointOf (api : Api) (path : string) (method : string) (operation : Operation)
  : Endpoint :=
  mkEndpoint
    (JS.toUpperCase method)
    path
    (JS.or_str (firstServerUrl api) "" +:+ path)
    (JS.or_str (op_summary operation) "")
    (JS.or_str (op_description operation) "")
    (JS.or_str (op_operationId operation)
       (method +:+ "_" +:+ JS.replaceNonAlnum JS.underscore path))
    (extractParameters (default [] (op_parameters operation)))
    (extractRequestBody (op_requestBody operation))
    (extractResponses (default [] (op_responses operation)))
    (or_arr (op_security operation) (api_security api))
    (default [] (op_tags operation)).

Definition extractEndpoints (api : Api) : list Endpoint :=
  let paths := default [] (api_paths api) in
  flat_map (fun '(path, pathItem) =>
    flat_map (fun '(method, operation) =>
      if bool_decide (method ∈ httpMethods)
      then [endpointOf api path method operation]
      else []) pathItem) paths.

(** [parseSwagger] after [SwaggerParser.parse(JSON.parse(content))]
    has produced [api]. *)
Definition parseSwagger (api : Api) : ParsedData :=
  let baseUrl :=
    if JS.truthy_str (firstServerUrl api) then JS.or_str (firstServerUrl api) ""
    else JS.or_str (api_host api) "" in
  mkParsedData
    baseUrl
    (extractAuthMethod api)
    (extractEndpoints api)
    (JS.or_str (api_info api ≫= i_title) "API")
    (JS.or_str (api_info api ≫= i_version) "1.0.0")
    (JS.or_str (api_info api ≫= i_description) "").

(** The reading of the specification: the schemes are searched once per
    kind, in the order http-bearer, http-basic, apiKey, oauth2. *)
Definition isBearer (s : SecurityScheme) : bool :=
  bool_decide (ss_type s = Some "http") && bool_decide (ss_scheme s = Some "bearer").
Definition isBasic (s : SecurityScheme) : bool :=
  bool_decide (ss_type s = Some "http") && bool_decide (ss_scheme s = Some "basic").
Definition isApiKey (s : SecurityScheme) : bool :=
  bool_decide (ss_type s = Some "apiKey").
Definition isOAuth2 (s : SecurityScheme) : bool :=
  bool_decide (ss_type s = Some "oauth2").

Definition firstOfKind (kind : SecurityScheme -> bool)
  (entries : list (string * SecurityScheme)) : option AuthMethod :=
  head (filter (fun e => kind (snd e) = true) entries) ≫= (fun e => switchScheme (snd e)).

Definition authMethodByPriority (api : Api) : AuthMethod :=
  let entries := default [] (api_securitySchemes api) in
  match firstOfKind isBearer entries with
  | Some a => a
  | None =>
    match firstOfKind isBasic entries with
    | Some a => a
    | None =>
      match firstOfKind isApiKey entries with
      | Some a => a
      | None =>
        match firstOfKind isOAuth2 entries with
        | Some a => a
        | None => authNone
        end
      end
    end
  end.

Definition recognized (s : SecurityScheme) : bool :=
  isBearer s || isBasic s || isApiKey s || isOAuth2 s.

(** The [type] tag the normalizer gives to a recognized scheme. *)
Definition kindName (s : SecurityScheme) : string :=
  if isBearer s then "bearer"
  else if isBasic s then "basic"
  else if isApiKey s then "apiKey"
  else "oauth2".

End swaggerParser.

(** ** server/parsers/postmanParser.js *)

Module postmanParser.

(** The collection produced by [JSON.parse], restricted to the fields the
    normalizer reads, in the shapes the collection format allows.  A
    description is only handed on and interpolated: one that is given as
    an object stands as the text it is rendered to. *)
Record KeyValue := mkKeyValue {
  kv_key : option string;
  kv_value : option JSON;
  kv_description : option string;
  kv_disabled : option bool;
  kv_type : option string
}.

(** The [path] of a [url] object: the collection format allows a string,
    or an array whose elements are strings or [{type, value}]
    objects. *)
Inductive PathSegment : Type :=
| SegmentString (s : string)
| SegmentObject.

Inductive UrlPath : Type :=
| PathArray (segments : list PathSegment)
| PathString (s : string).

Record UrlObject := mkUrlObject {
  u_raw : option string;
  u_path : option UrlPath;
  u_query : option (list KeyValue)
}.

Inductive Url : Type :=
| UrlString (s : string)
| UrlObj (u : UrlObject).

Record RequestBody := mkRequestBody {
  rb_mode : option string;
  rb_raw : option JSON;
  rb_language : option string;
  rb_urlencoded : option (list KeyValue);
  rb_formdata : option (list KeyValue)
}.

Record Auth := mkAuth {
  a_type : option string;
  a_apikey : option (list KeyValue)
}.

(** The [header] of a request: an array of headers, or a string. *)
Inductive HeaderList : Type :=
| HeaderArray (headers : list KeyValue)
| HeaderString (s : string).

Record Request := mkRequest {
  rq_url : option Url;
  rq_method : option string;
  rq_header : option HeaderList;
  rq_body : option RequestBody;
  rq_auth : option Auth
}.

(** The [request] of an item: an object, or a string. *)
Inductive RequestShape : Type :=
| RequestObject (request : Request)
| RequestString (s : string).

(** The [header] of a saved response: an array whose elements are
    headers or strings, or a string. *)
Inductive ResponseHeader : Type :=
| HeaderObject (header : KeyValue)
| HeaderText (s : string).

Inductive ResponseHeaders : Type :=
| ResponseHeaderArray (headers : list ResponseHeader)
| ResponseHeaderString (s : string).

Record ResponseExample := mkResponseExample {
  rx_code : option Z;
  rx_name : option string;
  rx_header : option ResponseHeaders;
  rx_body : option JSON
}.

(** An entry of an [item] array: a request, a folder, or neither.  The
    array may hold [null] entries, hence [option Item]. *)
Inductive Item : Type :=
| mkItem (name : option string) (description : option string)
         (request : option RequestShape) (item : option (list (option Item)))
         (response : option (list ResponseExample)).

Definition it_name (i : Item) : option string :=
  match i with mkItem n _ _ _ _ => n end.
Definition it_description (i : Item) : option string :=
  match i with mkItem _ d _ _ _ => d end.
Definition it_request (i : Item) : option RequestShape :=
  match i with mkItem _ _ r _ _ => r end.
Definition it_item (i : Item) : option (list (option Item)) :=
  match i with mkItem _ _ _ s _ => s end.
Definition it_response (i : Item) : option (list ResponseExample) :=
  match i with mkItem _ _ _ _ r => r end.

Record CollectionInfo := mkCollectionInfo {
  ci_name : option string;
  ci_schema : option string;
  ci_description : option string
}.

Record Collection := mkCollection {
  c_info : option CollectionInfo;
  c_variable : option (list KeyValue);
  c_auth : option Auth;
  c_item : option (list (option Item))
}.

(** A string held in a JSON value, as the code reads [v.value]. *)
Definition strOf (v : option JSON) : option string :=
  match v with
  | Some (JStr s) => Some s
  | _ => None
  end.

Definition extractBaseUrl (collection : Collection) : string :=
  let variables := default [] (c_variable collection) in
  let baseUrlVar :=
    List.find (fun v =>
      bool_decide (kv_key v = Some "baseUrl")
      || bool_decide (kv_key v = Some "BASE_URL")
      || bool_decide (kv_key v = Some "url")) variables in
  JS.or_str (baseUrlVar ≫= (fun v => strOf (kv_value v))) "".

(** [auth.apikey?.[0]?.key || 'X-API-Key'] *)
Definition apikeyName (auth : Auth) : string :=
  JS.or_str ((a_apikey auth ≫= head) ≫= kv_key) "X-API-Key".

Definition extractAuthMethod (collection : Collection) : AuthMethod :=
  match c_auth collection with
  | None => authNone
  | Some auth =>
      match a_type auth with
      | Some "bearer" =>
          mkAuthMethod "bearer" (Some "Authorization") None (Some "Bearer token authentication")
      | Some "apikey" =>
          mkAuthMethod "apiKey" (Some (apikeyName auth)) (Some "header")
            (Some "API Key authentication")
      | Some "basic" =>
          mkAuthMethod "basic" (Some "Authorization") None (Some "Basic authentication")
      | Some "oauth2" =>
          mkAuthMethod "oauth2" (Some "Authorization") None (Some "OAuth 2.0 authentication")
      | _ => authNone
      end
  end.

(** The object built by [extractHeaders] for one header. *)
Record Header := mkHeader {
  h_key : option string;
  h_value : option JSON;
  h_description : string;
  h_disabled : bool
}.

(** [request.header || []]: the empty string is falsy. *)
Definition or_headers (header : option HeaderList) : HeaderList :=
  match header with
  | None => HeaderArray []
  | Some (HeaderArray headers) => HeaderArray headers
  | Some (HeaderString s) => if String.eqb s "" then HeaderArray [] else HeaderString s
  end.

(** [headers.map(...)]: a string has no [map]. *)
Definition extractHeaders (headers : HeaderList) : Result (list Header) :=
  match headers with
  | HeaderArray headers =>
      Ok (map (fun header =>
            mkHeader (kv_key header) (kv_value header)
              (JS.or_str (kv_description header) "")
              (JS.or_bool (kv_disabled header) false)) headers)
  | HeaderString _ => Throw "headers.map is not a function"
  end.

(** The object built by [extractQueryParams] for one query entry (it has
    no [in] property yet). *)
Record QueryParam := mkQueryParam {
  q_name : option string;
  q_required : bool;
  q_type : string;
  q_description : string;
  q_example : option JSON
}.

Definition extractQueryParams (queryParams : list KeyValue) : list QueryParam :=
  map (fun param =>
    mkQueryParam (kv_key param)
      (negb (bool_decide (kv_disabled param = Some true)))
      "string"
      (JS.or_str (kv_description param) "")
      (kv_value param)) queryParams.

(** The [{ key, value }] / [{ key, value, type }] objects of an example;
    an [undefined] field is rendered as [JNull]. *)
Definition kvExample (withType : bool) (item : KeyValue) : JSON :=
  JObj ([("key", default JNull (JStr <$> kv_key item));
         ("value", default JNull (kv_value item))]
        ++ if withType then [("type", default JNull (JStr <$> kv_type item))] else []).

Definition extractRequestBody (body : option RequestBody) : option Body :=
  match body with
  | None => None
  | Some body =>
      match rb_mode body with
      | Some "raw" =>
          Some (mkBody true (JS.or_str (rb_language body) "application/json")
                  (mkSchemaSketch (Some "object") (JObj []) None (rb_raw body)))
      | Some "urlencoded" =>
          Some (mkBody true "application/x-www-form-urlencoded"
                  (mkSchemaSketch (Some "object") (JObj []) None
                     ((fun l => JArr (map (kvExample false) l)) <$> rb_urlencoded body)))
      | Some "formdata" =>
          Some (mkBody true "multipart/form-data"
                  (mkSchemaSketch (Some "object") (JObj []) None
                     ((fun l => JArr (map (kvExample true) l)) <$> rb_formdata body)))
      | _ => None
      end
  end.

Definition extractRequestAuth (auth : option Auth) : option JSON :=
  match auth with
  | None => None
  | Some auth =>
      match a_type auth with
      | Some "bearer" => Some (JObj [("type", JStr "bearer"); ("name", JStr "Authorization")])
      | Some "apikey" =>
          Some (JObj [("type", JStr "apiKey"); ("name", JStr (apikeyName auth));
                      ("in", JStr "header")])
      | Some "basic" => Some (JObj [("type", JStr "basic"); ("name", JStr "Authorization")])
      | _ => None
      end
  end.

(** [response.header?.find(h => h.key === 'Content-Type')?.value]: a
    string has no [find]; an element that is a string has no [key]. *)
Definition contentTypeOf (header : option ResponseHeaders) : Result (option string) :=
  match header with
  | None => Ok None
  | Some (ResponseHeaderArray headers) =>
      Ok (List.find (fun h =>
            match h with
            | HeaderObject h => bool_decide (kv_key h = Some "Content-Type")
            | HeaderText _ => false
            end) headers
          ≫= (fun h =>
            match h with
            | HeaderObject h => strOf (kv_value h)
            | HeaderText _ => None
            end))
  | Some (ResponseHeaderString _) => Throw "response.header?.find is not a function"
  end.

(** One call of the [forEach] callback of [extractPostmanResponses]. *)
Definition addPostmanResponse (extracted : gmap string ResponseDesc)
  (index : nat) (response : ResponseExample) : Result (gmap string ResponseDesc) :=
  let code :=
    match rx_code response with
    | Some n => if Z.eqb n 0 then "200" else pretty n
    | None => "200"
    end in
  contentType <- contentTypeOf (rx_header response) ;;
  Ok (<[code :=
      mkResponseDesc
        (JS.or_str (rx_name response) ("Response " +:+ pretty (index + 1)%nat))
        (JS.or_str contentType "application/json")
        (Some (mkSchemaSketch (Some "object") (JObj []) None (rx_body response)))]> extracted).

Fixpoint forEachResponse (extracted : gmap string ResponseDesc) (index : nat)
  (responses : list ResponseExample) : Result (gmap string ResponseDesc) :=
  match responses with
  | [] => Ok extracted
  | response :: rest =>
      extracted <- addPostmanResponse extracted index response ;;
      forEachResponse extracted (S index) rest
  end.

Definition extractPostmanResponses (responses : list ResponseExample)
  : Result (gmap string ResponseDesc) :=
  forEachResponse ∅ 0 responses.

Definition generateOperationId (method path : string) (name : option string) : string :=
  let cleanPath := JS.replaceNonAlnum JS.underscore path in
  let cleanName :=
    if JS.truthy_str name then JS.replaceNonAlnum JS.underscore (default "" name) else "" in
  if negb (String.eqb cleanName "") then JS.toLowerCase method +:+ "_" +:+ cleanName
  else JS.toLowerCase method +:+ "_" +:+ cleanPath.

(** The query entries and headers turned into parameters of the
    endpoint. *)
Definition queryParameter (param : QueryParam) : Param :=
  mkParam (q_name param) (Some "query") (q_required param) (q_type param)
    (q_description param) (q_example param) None None.

Definition keepHeader (h : Header) : bool :=
  JS.truthy_str (h_key h)
  && negb (JS.includes (JS.toLowerCase (default "" (h_key h))) "authorization").

Definition headerParameter (header : Header) : Param :=
  mkParam (h_key header) (Some "header") false "string"
    (JS.or_str (Some (h_description header)) "") (h_value header) None None.

Section WithURL.

(** [new URL(s)]: [None] when the constructor throws. *)
Variable newURL : string -> option URL.

(** [`${segment}`] for an element of a path array. *)
Definition segmentText (segment : PathSegment) : string :=
  match segment with
  | SegmentString s => s
  | SegmentObject => "[object Object]"
  end.

(** [url.path?.join('/') || '']: a string has no [join]. *)
Definition joinPath (path : option UrlPath) : Result string :=
  match path with
  | None => Ok ""
  | Some (PathArray segments) =>
      Ok (JS.or_str (Some (JS.join "/" (map segmentText segments))) "")
  | Some (PathString _) => Throw "url.path?.join is not a function"
  end.

(** The first statements of [extractEndpointFromRequest]: [Ok None]
    where the code returns [null], otherwise [fullUrl], [path] and the
    value of [url.query || []]. *)
Definition locate (url : Url) : Result (option (string * string * list KeyValue)) :=
  match url with
  | UrlString s =>
      if String.eqb s "" then Ok None
      else
        Ok (Some (s,
                  match newURL s with
                  | Some urlObj => pathname urlObj
                  | None => s
                  end,
                  []))
  | UrlObj u =>
      if JS.truthy_str (u_raw u) then
        path <- joinPath (u_path u) ;;
        Ok (Some (default "" (u_raw u), path, default [] (u_query u)))
      else Ok None
  end.

Definition extractEndpointFromRequest (item : Item) (parentPath : string)
  : Result (option Endpoint) :=
  match it_request item with
  | None => Ok None
  | Some (RequestString _) => Ok None          (* a string has no [url] *)
  | Some (RequestObject request) =>
      match rq_url request with
      | None => Ok None
      | Some url =>
          located <- locate url ;;
          match located with
          | None => Ok None
          | Some (fullUrl, path, query) =>
              let method := JS.toUpperCase (JS.or_str (rq_method request) "GET") in
              headers <- extractHeaders (or_headers (rq_header request)) ;;
              let queryParams := extractQueryParams query in
              let body := extractRequestBody (rq_body request) in
              let auth := extractRequestAuth (rq_auth request) in
              responses <- extractPostmanResponses (default [] (it_response item)) ;;
              Ok (Some (mkEndpoint
                      method
                      (if JS.startsWith path "/" then path else "/" +:+ path)
                      fullUrl
                      (JS.or_str (it_name item) "")
                      (JS.or_str (it_description item) "")
                      (generateOperationId method path (it_name item))
                      (map queryParameter queryParams
                       ++ map headerParameter (List.filter keepHeader headers))
                      body
                      responses
                      (match auth with Some a => [a] | None => [] end)
                      (if String.eqb parentPath "" then [] else [parentPath])))
          end
      end
  end.

(** [if (item.request)]: an object is truthy, a string unless empty. *)
Definition hasRequest (request : option RequestShape) : bool :=
  match request with
  | None => false
  | Some (RequestObject _) => true
  | Some (RequestString s) => negb (String.eqb s "")
  end.

(** The body of the [for] loop of [processItems] for one non-null
    [item]; [endpoints] is the array the closure pushes to. *)
Fixpoint processItem (parentPath : string) (item : Item) (endpoints : list Endpoint)
  {struct item} : Result (list Endpoint) :=
  match item with
  | mkItem name _ request sub _ =>
      if hasRequest request then
        match extractEndpointFromRequest item parentPath with
        | Ok (Some endpoint) => Ok (endpoints ++ [endpoint])
        | Ok None => Ok endpoints
        | Throw message => Throw message
        end
      else
        match sub with
        | Some items =>
            let folderPath :=
              if String.eqb parentPath "" then JS.or_str name "unnamed"
              else parentPath +:+ "/" +:+ JS.or_str name "unnamed" in
            (fix loop (items : list (option Item)) (endpoints : list Endpoint) :=
               match items with
               | [] => Ok endpoints
               | None :: rest => loop rest endpoints
               | Some item :: rest =>
                   match processItem folderPath item endpoints with
                   | Ok endpoints => loop rest endpoints
                   | Throw message => Throw message
                   end
               end) items endpoints
        | None => Ok endpoints
        end
  end.

Fixpoint processItems (items : list (option Item)) (parentPath : string)
  (endpoints : list Endpoint) : Result (list Endpoint) :=
  match items with
  | [] => Ok endpoints
  | None :: rest => processItems rest parentPath endpoints
  | Some item :: rest =>
      endpoints <- processItem parentPath item endpoints ;;
      processItems rest parentPath endpoints
  end.

Definition extractEndpoints (collection : Collection) : Result (list Endpoint) :=
  match c_item collection with
  | None => Ok []
  | Some items => processItems items "" []
  end.

(** [parsePostman] after [JSON.parse(content)] has produced
    [collection]: whatever is thrown inside the [try] is thrown again
    with a prefixed message. *)
Definition parsePostman (collection : Collection) : Result ParsedData :=
  match
    (let baseUrl := extractBaseUrl collection in
     let authMethod := extractAuthMethod collection in
     endpoints <- extractEndpoints collection ;;
     Ok (mkParsedData baseUrl authMethod endpoints
           (JS.or_str (c_info collection ≫= ci_name) "Postman Collection")
           (JS.or_str (c_info collection ≫= ci_schema) "1.0.0")
           (JS.or_str (c_info collection ≫= ci_description) "")))
  with
  | Ok parsed => Ok parsed
  | Throw message => Throw ("Failed to parse Postman Collection: " +:+ message)
  end.

End WithURL.

(** The folder path [processItems] hands down when it enters the folder
    [name] from [parentPath]. *)
Definition folderPathOf (parentPath : string) (name : option string) : string :=
  if String.eqb parentPath "" then JS.or_str name "unnamed"
  else parentPath +:+ "/" +:+ JS.or_str name "unnamed".

(** The leaf requests of an item tree in document order, each with the
    path of the folders above it: an item with a (truthy) [request] is a
    leaf, an item without one is entered when it has an [item] array. *)
Fixpoint leavesOfItem (parentPath : string) (item : Item) : list (Item * string) :=
  match item with
  | mkItem name _ request sub _ =>
      if hasRequest request then [(item, parentPath)]
      else
        match sub with
        | Some items =>
            flat_map (fun o =>
              match o with
              | Some i => leavesOfItem (folderPathOf parentPath name) i
              | None => []
              end) items
        | None => []
        end
  end.

Definition leafRequests (items : list (option Item)) (parentPath : string)
  : list (Item * string) :=
  flat_map (fun o =>
    match o with
    | Some i => leavesOfItem parentPath i
    | None => []
    end) items.

(** The endpoint a leaf request contributes, if any. *)
Definition endpointOfLeaf (newURL : string -> option URL) (leaf : Item * string)
  : Result (option Endpoint) :=
  extractEndpointFromRequest newURL leaf.1 leaf.2.

End postmanParser.

(** ** server/parsers/htmlParser.js *)

Module htmlParser.

(** What the normalizer asks of the document loaded by cheerio.  An
    element is given by the three things read from it; the document by
    the answer to each selector the code uses. *)
Record Element := mkElement {
  el_text : string;                 (* element.text() *)
  el_siblings : list string;        (* sibling.text?.() || '' for each sibling *)
  el_parent : option string         (* parent.text() when parent.length > 0 *)
}.

Record Document := mkDocument {
  d_firstContaining : string -> option string;  (* $('*:contains("p")').first().text() *)
  d_codeBlocks : list string;                   (* texts of $('code, pre') *)
  d_allText : string;                           (* $('*').text() *)
  d_select : string -> list Element;            (* $(selector) *)
  d_title : string;                             (* $('title').text() *)
  d_h1 : string;                                (* $('h1').first().text() *)
  d_metaDescription : option string;            (* $('meta[name="description"]').attr('content') *)
  d_firstP : string                             (* $('p').first().text() *)
}.

(** *** The regular expressions *)

Definition notSpace (c : ascii) : bool := negb (JS.isSpace c).

(** Case-insensitive test that [s] begins with the lower-case word [w];
    on success the matched text and the rest. *)
Definition prefixCI (w s : string) : option (string * string) :=
  let n := String.length w in
  if String.eqb (JS.toLowerCase (JS.takeChars n s)) w
  then Some (JS.takeChars n s, JS.dropChars n s)
  else None.

Fixpoint firstPrefixCI (ws : list string) (s : string) : option (string * string) :=
  match ws with
  | [] => None
  | w :: rest =>
      match prefixCI w s with
      | Some r => Some r
      | None => firstPrefixCI rest s
      end
  end.

(** [(GET|POST|PUT|DELETE|PATCH|HEAD|OPTIONS)] with the [i] flag, at the
    start of [s]. *)
Definition methodAt (s : string) : option (string * string) :=
  firstPrefixCI ["get"; "post"; "put"; "delete"; "patch"; "head"; "options"] s.

(** The leftmost position at which [at_] succeeds. *)
Fixpoint leftmost {A} (at_ : string -> option A) (s : string) : option A :=
  match at_ s with
  | Some r => Some r
  | None =>
      match s with
      | EmptyString => None
      | String _ r => leftmost at_ r
      end
  end.

(** [/(https?:\/\/[^\s]+)/i] at the start of [s]: group 1. *)
Definition urlAt (s : string) : option string :=
  match firstPrefixCI ["https://"; "http://"] s with
  | Some (scheme, rest) =>
      let run := JS.takeWhileChars notSpace rest in
      if String.eqb run "" then None else Some (scheme +:+ run)
  | None => None
  end.

Definition matchUrl (text : string) : option string := leftmost urlAt text.

(** [/(GET|...)\s+([^\s]+)/i] at the start of [s]: groups 1 and 2. *)
Definition methodPathAt (s : string) : option (string * string) :=
  match methodAt s with
  | Some (m, r1) =>
      let r2 := JS.dropWhileChars JS.isSpace r1 in
      let run := JS.takeWhileChars notSpace r2 in
      if String.eqb r1 r2 then None
      else if String.eqb run "" then None
      else Some (m, run)
  | None => None
  end.

(** [/([^\s]+)\s+(GET|...)/i] at the start of [s]: groups 1 and 2. *)
Definition pathMethodAt (s : string) : option (string * string) :=
  let run := JS.takeWhileChars notSpace s in
  let r1 := JS.dropWhileChars notSpace s in
  let r2 := JS.dropWhileChars JS.isSpace r1 in
  if String.eqb run "" then None
  else if String.eqb r1 r2 then None
  else match methodAt r2 with
       | Some (m, _) => Some (run, m)
       | None => None
       end.

(** [/(GET|...)\s*:\s*([^\s]+)/i] at the start of [s]: groups 1 and 2. *)
Definition methodColonPathAt (s : string) : option (string * string) :=
  match methodAt s with
  | Some (m, r1) =>
      match JS.dropWhileChars JS.isSpace r1 with
      | String c r2 =>
          if Ascii.eqb c ":" then
            let run := JS.takeWhileChars notSpace (JS.dropWhileChars JS.isSpace r2) in
            if String.eqb run "" then None else Some (m, run)
          else None
      | EmptyString => None
      end
  | None => None
  end.

Definition methodPatterns : list (string -> option (string * string)) :=
  [leftmost methodPathAt; leftmost pathMethodAt; leftmost methodColonPathAt].

(** The first of the three patterns that matches [text], with its
    groups 1 and 2. *)
Fixpoint firstPattern (patterns : list (string -> option (string * string)))
  (text : string) : option (string * string) :=
  match patterns with
  | [] => None
  | pattern :: rest =>
      match pattern text with
      | Some m => Some m
      | None => firstPattern rest text
      end
  end.

(** [path.replace(/[^\w\/\-{}]/g, '')] *)
Definition isPathChar (c : ascii) : bool :=
  JS.isWord c || bool_decide (JS.code c ∈ [47; 45; 123; 125]%nat).

Definition cleanPath (p : string) : string := JS.filterChars isPathChar p.

(** All matches of a global regular expression, as [exec] yields them:
    [at_] gives group 1 and the length of the match at the start of the
    string; after a match the scan resumes behind it. *)
Fixpoint execAll (at_ : string -> option (string * nat)) (skip : nat) (s : string)
  : list string :=
  match s with
  | EmptyString => []
  | String _ r =>
      match skip with
      | S k => execAll at_ k r
      | O =>
          match at_ s with
          | Some (g, len) => g :: execAll at_ (len - 1) r
          | None => execAll at_ 0 r
          end
      end
  end.

(** [/{(\w+)}/] *)
Definition bracedAt (s : string) : option (string * nat) :=
  match s with
  | String c r =>
      if Ascii.eqb c "{" then
        let w := JS.takeWhileChars JS.isWord r in
        match JS.dropWhileChars JS.isWord r with
        | String c' _ =>
            if Ascii.eqb c' "}" && negb (String.eqb w "")
            then Some (w, String.length w + 2)
            else None
        | EmptyString => None
        end
      else None
  | EmptyString => None
  end.

(** [/[?&](\w+)=/] *)
Definition queryAt (s : string) : option (string * nat) :=
  match s with
  | String c r =>
      if Ascii.eqb c "?" || Ascii.eqb c "&" then
        let w := JS.takeWhileChars JS.isWord r in
        match JS.dropWhileChars JS.isWord r with
        | String c' _ =>
            if Ascii.eqb c' "=" && negb (String.eqb w "")
            then Some (w, String.length w + 2)
            else None
        | EmptyString => None
        end
      else None
  | EmptyString => None
  end.

(** [/(\w+):\s*([^\s,]+)/] *)
Definition notSpaceComma (c : ascii) : bool := notSpace c && negb (Ascii.eqb c ",").

Definition keyValueAt (s : string) : option (string * nat) :=
  let w := JS.takeWhileChars JS.isWord s in
  match JS.dropWhileChars JS.isWord s with
  | String c r =>
      if Ascii.eqb c ":" && negb (String.eqb w "") then
        let spaces := JS.takeWhileChars JS.isSpace r in
        let value := JS.takeWhileChars notSpaceComma (JS.dropWhileChars JS.isSpace r) in
        if String.eqb value "" then None
        else Some (w, String.length w + 1 + String.length spaces + String.length value)
      else None
  | EmptyString => None
  end.

(** *** The functions of the module *)

Definition baseUrlPatterns : list string :=
  ["base url"; "base url:"; "api base"; "endpoint base"; "server url"; "host url"].

Definition extractAuthMethod (doc : Document) : AuthMethod :=
  let authText := JS.toLowerCase (d_allText doc) in
  if JS.includes authText "bearer token" || JS.includes authText "bearer" then
    mkAuthMethod "bearer" (Some "Authorization") None (Some "Bearer token authentication")
  else if JS.includes authText "api key" || JS.includes authText "apikey" then
    mkAuthMethod "apiKey" (Some "X-API-Key") (Some "header") (Some "API Key authentication")
  else if JS.includes authText "basic auth" || JS.includes authText "basic authentication" then
    mkAuthMethod "basic" (Some "Authorization") None (Some "Basic authentication")
  else if JS.includes authText "oauth" || JS.includes authText "oauth2" then
    mkAuthMethod "oauth2" (Some "Authorization") None (Some "OAuth 2.0 authentication")
  else authNone.

(** [line.match(/^(GET|POST|PUT|DELETE|PATCH|HEAD|OPTIONS)/i)] *)
Definition startsWithMethod (line : string) : bool :=
  match methodAt line with Some _ => true | None => false end.

Definition descriptiveLength (text : string) : bool :=
  (10 <? String.length text)%nat && (String.length text <? 200)%nat.

Definition extractDescriptionFromContext (element : Element) : string :=
  match List.find descriptiveLength (el_siblings element) with
  | Some text => JS.trim text
  | None =>
      match el_parent element with
      | Some text =>
          let lines :=
            List.filter (fun line => (0 <? String.length line)%nat)
              (map JS.trim (JS.splitOn (ascii_of_nat 10) text)) in
          match List.find (fun line => descriptiveLength line && negb (startsWithMethod line))
                  lines with
          | Some line => line
          | None => ""
          end
      | None => ""
      end
  end.

Definition inferMethodFromContext (text : string) : string :=
  let context := JS.toLowerCase text in
  if JS.includes context "get" || JS.includes context "retrieve" || JS.includes context "fetch"
  then "GET"
  else if JS.includes context "post" || JS.includes context "create" || JS.includes context "add"
  then "POST"
  else if JS.includes context "put" || JS.includes context "update" || JS.includes context "modify"
  then "PUT"
  else if JS.includes context "delete" || JS.includes context "remove"
  then "DELETE"
  else if JS.includes context "patch"
  then "PATCH"
  else "GET".

(** The inner [while] loop for one pattern: each found name is pushed
    unless a parameter of that name is already there. *)
Fixpoint pushParameters (location : string) (names : list string) (parameters : list Param)
  : list Param :=
  match names with
  | [] => parameters
  | paramName :: rest =>
      pushParameters location rest
        (if existsb (fun p => bool_decide (p_name p = Some paramName)) parameters
         then parameters
         else parameters
              ++ [mkParam (Some paramName) (Some location) false "string" "" (Some (JStr ""))
                    None None])
  end.

Definition extractParametersFromText (text : string) : list Param :=
  let parameters := pushParameters "path" (execAll bracedAt 0 text) [] in
  let parameters := pushParameters "query" (execAll queryAt 0 text) parameters in
  pushParameters "query" (execAll keyValueAt 0 text) parameters.

Definition generateOperationId (method path : string) : string :=
  let cleanPath := JS.replaceNonAlnum JS.underscore path in
  JS.toLowerCase method +:+ "_" +:+ cleanPath.

Section WithURL.

(** [new URL(s)]: [None] when the constructor throws. *)
Variable newURL : string -> option URL.

(** The loop over [patterns] of [extractBaseUrl]: [Some] when it
    returns. *)
Fixpoint baseUrlFromPatterns (doc : Document) (patterns : list string) : option string :=
  match patterns with
  | [] => None
  | pattern :: rest =>
      match d_firstContaining doc pattern ≫= matchUrl with
      | Some m => Some m
      | None => baseUrlFromPatterns doc rest
      end
  end.

(** The loop over the code blocks of [extractBaseUrl]; the constructor
    [URL] is called unguarded. *)
Fixpoint baseUrlFromCodeBlocks (codeBlocks : list string) : Result string :=
  match codeBlocks with
  | [] => Ok ""
  | text :: rest =>
      match matchUrl text with
      | Some urlMatch =>
          match newURL urlMatch with
          | Some url => Ok (protocol url +:+ "//" +:+ host url)
          | None => Throw "Invalid URL"
          end
      | None => baseUrlFromCodeBlocks rest
      end
  end.

Definition extractBaseUrl (doc : Document) : Result string :=
  match baseUrlFromPatterns doc baseUrlPatterns with
  | Some m => Ok m
  | None => baseUrlFromCodeBlocks (d_codeBlocks doc)
  end.

Definition parseEndpointFromText (text : string) (element : Element) : option Endpoint :=
  match firstPattern methodPatterns text with
  | Some (g1, g2) =>
      let method := JS.toUpperCase g1 in
      let path := cleanPath g2 in
      let path := if JS.startsWith path "/" then path else "/" +:+ path in
      let description := extractDescriptionFromContext element in
      Some (mkEndpoint method path path
              (JS.or_str (Some description) (method +:+ " " +:+ path))
              (JS.or_str (Some description) "")
              (generateOperationId method path)
              (extractParametersFromText text)
              None ∅ [] [])
  | None =>
      match matchUrl text with
      | Some urlMatch =>
          match newURL urlMatch with
          | Some url =>
              let path := pathname url in
              let method := inferMethodFromContext text in
              Some (mkEndpoint method path urlMatch
                      (method +:+ " " +:+ path)
                      (JS.or_str (Some (extractDescriptionFromContext element)) "")
                      (generateOperationId method path)
                      (extractParametersFromText text)
                      None ∅ [] [])
          | None => None
          end
      | None => None
      end
  end.

Definition endpointSelectors : list string :=
  ["h1, h2, h3, h4, h5, h6";
   "code";
   "pre";
   ".endpoint, .api-endpoint, .route";
   "[class*=" +:+ JS.dq +:+ "endpoint" +:+ JS.dq +:+ "], [class*=" +:+ JS.dq +:+ "api"
     +:+ JS.dq +:+ "], [class*=" +:+ JS.dq +:+ "route" +:+ JS.dq +:+ "]"].

(** The first pair of loops of [extractEndpoints]: every candidate
    element of every selector, in order. *)
Definition candidateEndpoints (doc : Document) : list Endpoint :=
  flat_map (fun selector =>
    omap (fun element => parseEndpointFromText (JS.trim (el_text element)) element)
      (d_select doc selector)) endpointSelectors.

Definition endpointKey (endpoint : Endpoint) : string :=
  method endpoint +:+ ":" +:+ path endpoint.

(** The second loop of [extractEndpoints]: [seen] is the [Set] of keys,
    [uniqueEndpoints] the array pushed to. *)
Fixpoint removeDuplicates (endpoints : list Endpoint) (seen : gset string)
  (uniqueEndpoints : list Endpoint) : list Endpoint :=
  match endpoints with
  | [] => uniqueEndpoints
  | endpoint :: rest =>
      let key := endpointKey endpoint in
      if bool_decide (key ∈ seen) then removeDuplicates rest seen uniqueEndpoints
      else removeDuplicates rest ({[key]} ∪ seen) (uniqueEndpoints ++ [endpoint])
  end.

Definition extractEndpoints (doc : Document) : list Endpoint :=
  removeDuplicates (candidateEndpoints doc) ∅ [].

Definition extractTitle (doc : Document) : string :=
  JS.trim (if String.eqb (d_title doc) "" then d_h1 doc else d_title doc).

Definition extractDescription (doc : Document) : string :=
  if JS.truthy_str (d_metaDescription doc) then default "" (d_metaDescription doc)
  else if (20 <? String.length (d_firstP doc))%nat then JS.trim (d_firstP doc)
  else "".

(** [parseHtmlDocs] after [cheerio.load(content)] has produced [doc]:
    whatever is thrown inside the [try] is thrown again with a prefixed
    message. *)
Definition parseHtmlDocs (doc : Document) : Result ParsedData :=
  match
    (baseUrl <- extractBaseUrl doc ;;
     let authMethod := extractAuthMethod doc in
     let endpoints := extractEndpoints doc in
     Ok (mkParsedData baseUrl authMethod endpoints
           (JS.or_str (Some (extractTitle doc)) "HTML API Documentation")
           "1.0.0"
           (JS.or_str (Some (extractDescription doc)) "")))
  with
  | Ok parsed => Ok parsed
  | Throw message => Throw ("Failed to parse HTML documentation: " +:+ message)
  end.

End WithURL.

(** The endpoints the second loop of [extractEndpoints] keeps from
    [endpoints] when the keys in [seen] are taken already. *)
Fixpoint keptFrom (endpoints : list Endpoint) (seen : gset string) : list Endpoint :=
  match endpoints with
  | [] => []
  | endpoint :: rest =>
      if bool_decide (endpointKey endpoint ∈ seen) then keptFrom rest seen
      else endpoint :: keptFrom rest ({[endpointKey endpoint]} ∪ seen)
  end.

(** The pair the specification deduplicates by. *)
Definition methodAndPath (e : Endpoint) : string * string := (method e, path e).

End htmlParser.

(** ** What the four emitters share *)

Module Emit.

(** [parameters.filter(p => p.in === 'path')] *)
Definition pathParams (endpoint : Endpoint) : list Param :=
  List.filter (fun p => bool_decide (p_in p = Some "path")) (parameters endpoint).

(** [parameters.filter(p => p.in === 'query')] *)
Definition queryParams (endpoint : Endpoint) : list Param :=
  List.filter (fun p => bool_decide (p_in p = Some "query")) (parameters endpoint).

(** [requestBody && method !== 'GET' && method !== 'DELETE'] *)
Definition hasBody (endpoint : Endpoint) : bool :=
  bool_decide (is_Some (requestBody endpoint))
  && negb (String.eqb (method endpoint) "GET")
  && negb (String.eqb (method endpoint) "DELETE").

(** [summary || description || `${method} ${path}`] *)
Definition headline (endpoint : Endpoint) : string :=
  if negb (String.eqb (summary endpoint) "") then summary endpoint
  else if negb (String.eqb (description endpoint) "") then description endpoint
  else method endpoint +:+ " " +:+ path endpoint.

(** [authMethod.type === 'none' ? 'No authentication required'
                                : `${authMethod.type.toUpperCase()} Authentication`] *)
Definition authBanner (authMethod : AuthMethod) : string :=
  if String.eqb (am_type authMethod) "none" then "No authentication required"
  else JS.toUpperCase (am_type authMethod) +:+ " Authentication".

(** [params.length > 0 || queryParams.length > 0 || hasBody] *)
Definition takesArguments (endpoint : Endpoint) : bool :=
  (0 <? length (pathParams endpoint))%nat
  || (0 <? length (queryParams endpoint))%nat
  || hasBody endpoint.

(** The number of parameters the specification expects a generated
    method to declare. *)
Definition expectedArity (endpoint : Endpoint) : nat :=
  length (pathParams endpoint) + length (queryParams endpoint)
  + (if hasBody endpoint then 1 else 0).

End Emit.

(** ** The object store of a generator call

    A generator allocates the object [generatedCode], assigns its
    properties one by one and returns a reference to it.  An object is
    the list of its own properties in insertion order; the store holds
    the objects allocated so far. *)

Module Heap.

Definition Obj : Type := list (string * string).
Definition Store : Type := list Obj.
Definition Ref : Type := nat.

(** A computation in the store that returns or throws. *)
Definition M (A : Type) : Type := Store -> Result A * Store.

Definition ret {A} (a : A) : M A := fun σ => (Ok a, σ).

Definition throw {A} (message : string) : M A := fun σ => (Throw message, σ).

Definition bind {A B} (c : M A) (k : A -> M B) : M B :=
  fun σ =>
    match c σ with
    | (Ok a, σ') => k a σ'
    | (Throw message, σ') => (Throw message, σ')
    end.

(** [{}] *)
Definition alloc : M Ref := fun σ => (Ok (length σ), σ ++ [[]]).

Definition hasKey (key : string) (o : Obj) : bool :=
  existsb (fun kv => String.eqb kv.1 key) o.

(** [o[key] = value]: an existing property keeps its place. *)
Definition assign (key value : string) (o : Obj) : Obj :=
  if hasKey key o
  then map (fun kv => if String.eqb kv.1 key then (key, value) else kv) o
  else o ++ [(key, value)].

(** [ref[key] = value] *)
Definition set (ref : Ref) (key value : string) : M unit :=
  fun σ => (Ok tt, alter (assign key value) ref σ).

(** A value that was computed by a function that may throw. *)
Definition lift {A} (r : Result A) : M A :=
  fun σ => (r, σ).

(** What the caller of a generator observes: the properties of the
    returned object, or the error. *)
Definition outcome (r : Result Ref * Store) : Result (option Obj) :=
  match r with
  | (Ok ref, σ) => Ok (σ !! ref)
  | (Throw message, _) => Throw message
  end.

End Heap.

Declare Scope heap_scope.
Delimit Scope heap_scope with heap.
Notation "x <- c ;; k" := (Heap.bind c (fun x => k))
  (at level 100, c at next level, right associativity) : heap_scope.
Notation "c ;; k" := (Heap.bind c (fun _ => k))
  (at level 100, right associativity) : heap_scope.

Module nodeText.

(** nodeGenerator.js, template of [generatePackageJson] at line 46, part 2. *)
Definition generatePackageJson_0_2 : string :=
  JS.dq +:+ ",
  " +:+ JS.dq +:+ "main" +:+ JS.dq +:+ ": " +:+ JS.dq +:+ "src/ApiClient.js" +:+ JS.dq +:+ ",
  " +:+ JS.dq +:+ "scripts" +:+ JS.dq +:+ ": {
    " +:+ JS.dq +:+ "start" +:+ JS.dq +:+ ": " +:+ JS.dq +:+ "node examples/basic-usage.js" +:+ JS.dq +:+ ",
    " +:+ JS.dq +:+ "test" +:+ JS.dq +:+ ": " +:+ JS.dq +:+ "jest" +:+ JS.dq +:+ ",
    " +:+ JS.dq +:+ "test:watch" +:+ JS.dq +:+ ": " +:+ JS.dq +:+ "jest --watch" +:+ JS.dq +:+ "
  },
  " +:+ JS.dq +:+ "dependencies" +:+ JS.dq +:+ ": {
    " +:+ JS.dq +:+ "axios" +:+ JS.dq +:+ ": " +:+ JS.dq +:+ "^1.6.0" +:+ JS.dq +:+ ",
    " +:+ JS.dq +:+ "dotenv" +:+ JS.dq +:+ ": " +:+ JS.dq +:+ "^16.3.1" +:+ JS.dq +:+ "
  },
  " +:+ JS.dq +:+ "devDependencies" +:+ JS.dq +:+ ": {
    " +:+ JS.dq +:+ "jest" +:+ JS.dq +:+ ": " +:+ JS.dq +:+ "^29.7.0" +:+ JS.dq +:+ "
  }
}".

(** nodeGenerator.js, template of [generateApiClient] at line 72, part 0. *)
Definition generateApiClient_0_0 : string :=
  "const axios = require('axios');
const AuthHandler = require('./auth/AuthHandler');
const RequestHandler = require('./utils/RequestHandler');
const ErrorHandler = require('./utils/ErrorHandler');
const Config = require('./config/Config');

/**
 * ".

(** nodeGenerator.js, template of [generateApiClient] at line 72, part 2. *)
Definition generateApiClient_0_2 : string :=
  "
 */
class ApiClient {
  constructor(config = {}) {
    this.config = new Config(config);
    this.authHandler = new AuthHandler(this.config);
    this.requestHandler = new RequestHandler(this.config);
    this.errorHandler = new ErrorHandler();
    
    // Initialize axios instance
    this.client = axios.create({
      baseURL: this.config.baseUrl,
      timeout: this.config.timeout,
      headers: {
        'Content-Type': 'application/json',
        'User-Agent': '".

(** nodeGenerator.js, template of [generateApiClient] at line 72, part 3. *)
Definition generateApiClient_0_3 : string :=
  "-Integration/1.0.0'
      }
    });
  }

".

(** nodeGenerator.js, template of [generateApiClient] at line 72, part 4. *)
Definition generateApiClient_0_4 : string :=
  "

  /**
   * Test connection to the API
   * @returns {Promise<boolean>} Connection status
   */
  async testConnection() {
    try {
      await this.client.get('/');
      return true;
    } catch (error) {
      return false;
    }
  }
}

module.exports = ApiClient;".

(** nodeGenerator.js, template of [generateAuthHandler] at line 189, part 0. *)
Definition generateAuthHandler_0_0 : string :=
  "/**
 * Authentication Handler
 * Handles different types of authentication for API requests
 */
class AuthHandler {
  constructor(config) {
    this.config = config;
  }

  /**
   * Get authentication headers based on configured auth method
   * @returns {Promise<Object>} Authentication headers
   */
  async getAuthHeaders() {
    const authType = this.config.authType;
    
    switch (authType) {
      case 'bearer':
        return this.getBearerHeaders();
      case 'apiKey':
        return this.getApiKeyHeaders();
      case 'basic':
        return this.getBasicHeaders();
      case 'oauth2':
        return this.getOAuth2Headers();
      default:
        return {};
    }
  }

  /**
   * Get Bearer token headers
   * @returns {Object} Bearer token headers
   */
  getBearerHeaders() {
    const token = this.config.apiKey || this.config.bearerToken;
    if (!token) {
      throw new Error('Bearer token is required but not provided');
    }
    return {
      'Authorization': `Bearer ${token}`
    };
  }

  /**
   * Get API Key headers
   * @returns {Object} API Key headers
   */
  getApiKeyHeaders() {
    const apiKey = this.config.apiKey;
    if (!apiKey) {
      throw new Error('API Key is required but not provided');
    }
    
    const headerName = this.config.authHeaderName || 'X-API-Key';
    return {
      [headerName]: apiKey
    };
  }

  /**
   * Get Basic authentication headers
   * @returns {Object} Basic auth headers
   */
  getBasicHeaders() {
    const username = this.config.username;
    const password = this.config.password;
    
    if (!username || !password) {
      throw new Error('Username and password are required for Basic authentication');
    }
    
    const credentials = Buffer.from(`${username}:${password}`).toString('base64');
    return {
      'Authorization': `Basic ${credentials}`
    };
  }

  /**
   * Get OAuth2 headers
   * @returns {Object} OAuth2 headers
   */
  getOAuth2Headers() {
    const accessToken = this.config.accessToken;
    if (!accessToken) {
      throw new Error('OAuth2 access token is required but not provided');
    }
    return {
      'Authorization': `Bearer ${accessToken}`
    };
  }
}

module.exports = AuthHandler;".

(** nodeGenerator.js, template of [generateRequestHandler] at line 289, part 0. *)
Definition generateRequestHandler_0_0 : string :=
  "/**
 * Request Handler
 * Handles HTTP requests with retry logic and proper error handling
 */
class RequestHandler {
  constructor(config) {
    this.config = config;
  }

  /**
   * Make HTTP request with retry logic
   * @param {Object} config - Axios request config
   * @returns {Promise<Object>} Response data
   */
  async makeRequest(config) {
    const maxRetries = this.config.maxRetries || 3;
    let lastError;

    for (let attempt = 1; attempt <= maxRetries; attempt++) {
      try {
        const response = await this.config.client(config);
        return response.data;
      } catch (error) {
        lastError = error;
        
        // Don't retry on client errors (4xx) except 429 (rate limit)
        if (error.response && error.response.status >= 400 && error.response.status < 500 && error.response.status !== 429) {
          throw error;
        }
        
        // Don't retry on server errors (5xx) if it's the last attempt
        if (attempt === maxRetries) {
          throw error;
        }
        
        // Wait before retrying (exponential backoff)
        const delay = Math.min(1000 * Math.pow(2, attempt - 1), 10000);
        await this.sleep(delay);
      }
    }

    throw lastError;
  }

  /**
   * Sleep for specified milliseconds
   * @param {number} ms - Milliseconds to sleep
   * @returns {Promise<void>}
   */
  sleep(ms) {
    return new Promise(resolve => setTimeout(resolve, ms));
  }
}

module.exports = RequestHandler;".

(** nodeGenerator.js, template of [generateErrorHandler] at line 350, part 0. *)
Definition generateErrorHandler_0_0 : string :=
  "/**
 * Error Handler
 * Handles and formats API errors consistently
 */
class ErrorHandler {
  /**
   * Handle API errors and throw formatted exceptions
   * @param {Error} error - Axios error
   * @throws {ApiError} Formatted API error
   */
  handleError(error) {
    if (error.response) {
      // Server responded with error status
      const { status, statusText, data } = error.response;
      throw new ApiError(
        status,
        statusText,
        data,
        error.request,
        error.config
      );
    } else if (error.request) {
      // Request was made but no response received
      throw new ApiError(
        0,
        'No response received',
        null,
        error.request,
        error.config
      );
    } else {
      // Something else happened
      throw new ApiError(
        0,
        error.message,
        null,
        null,
        error.config
      );
    }
  }
}

/**
 * Custom API Error class
 */
class ApiError extends Error {
  constructor(status, message, data, request, config) {
    super(message);
    this.name = 'ApiError';
    this.status = status;
    this.data = data;
    this.request = request;
    this.config = config;
    this.timestamp = new Date().toISOString();
  }
}

module.exports = ErrorHandler;
module.exports.ApiError = ApiError;".

(** nodeGenerator.js, template of [generateConfig] at line 416, part 0. *)
Definition generateConfig_0_0 : string :=
  "require('dotenv').config();

/**
 * Configuration Manager
 * Manages API client configuration with environment variable support
 */
class Config {
  constructor(config = {}) {
    this.config = {
      baseUrl: config.baseUrl || process.env.API_BASE_URL || '',
      timeout: config.timeout || parseInt(process.env.API_TIMEOUT) || 30000,
      maxRetries: config.maxRetries || parseInt(process.env.API_MAX_RETRIES) || 3,
      
      // Authentication
      authType: config.authType || process.env.API_AUTH_TYPE || 'none',
      apiKey: config.apiKey || process.env.API_KEY,
      bearerToken: config.bearerToken || process.env.API_BEARER_TOKEN,
      username: config.username || process.env.API_USERNAME,
      password: config.password || process.env.API_PASSWORD,
      accessToken: config.accessToken || process.env.API_ACCESS_TOKEN,
      authHeaderName: config.authHeaderName || process.env.API_AUTH_HEADER_NAME
    };
  }

  // Getters for common properties
  get baseUrl() { return this.config.baseUrl; }
  get timeout() { return this.config.timeout; }
  get maxRetries() { return this.config.maxRetries; }
  get authType() { return this.config.authType; }
  get apiKey() { return this.config.apiKey; }
  get bearerToken() { return this.config.bearerToken; }
  get username() { return this.config.username; }
  get password() { return this.config.password; }
  get accessToken() { return this.config.accessToken; }
  get authHeaderName() { return this.config.authHeaderName; }
}

module.exports = Config;".

(** nodeGenerator.js, template of [generateEndpointTest] at line 491, part 3. *)
Definition generateEndpointTest_0_3 : string :=
  "', async () => {
      const mockResponse = { data: { success: true } };
      client.requestHandler.makeRequest = jest.fn().mockResolvedValue(mockResponse);
      
      const result = await client.".

(** nodeGenerator.js, template of [generateEndpointTest] at line 491, part 6. *)
Definition generateEndpointTest_0_6 : string :=
  "'
        })
      );
      expect(result).toEqual(mockResponse);
    });
  });".

(** nodeGenerator.js, template of [generateTests] at line 462, part 1. *)
Definition generateTests_0_1 : string :=
  " API Client', () => {
  let client;

  beforeEach(() => {
    client = new ApiClient({
      baseUrl: 'https://api.example.com',
      apiKey: 'test-api-key'
    });
  });

  describe('Configuration', () => {
    test('should initialize with correct configuration', () => {
      expect(client.config.baseUrl).toBe('https://api.example.com');
      expect(client.config.apiKey).toBe('test-api-key');
    });
  });

".

(** nodeGenerator.js, template of [generateExampleUsage] at line 515, part 1. *)
Definition generateExampleUsage_0_1 : string :=
  " API Client
 */
async function main() {
  try {
    // Initialize the API client
    const client = new ApiClient({
      baseUrl: process.env.API_BASE_URL || 'https://api.example.com',
      apiKey: process.env.API_KEY,
      timeout: 30000
    });

    console.log('🚀 ".

(** nodeGenerator.js, template of [generateExampleUsage] at line 515, part 2. *)
Definition generateExampleUsage_0_2 : string :=
  " API Client initialized');

    // Test connection
    const isConnected = await client.testConnection();
    console.log('🔗 Connection test:', isConnected ? '✅ Success' : '❌ Failed');

".

(** nodeGenerator.js, template of [generateExampleUsage] at line 515, part 3. *)
Definition generateExampleUsage_0_3 : string :=
  "

    console.log('\n🎉 Example completed successfully!');

  } catch (error) {
    console.error('💥 Example failed:', error.message);
    process.exit(1);
  }
}

// Run the example
if (require.main === module) {
  main();
}

module.exports = { main };".

(** nodeGenerator.js, template of [generateEnvExample] at line 565, part 1. *)
Definition generateEnvExample_0_1 : string :=
  "

# API Configuration
API_BASE_URL=https://api.example.com
API_TIMEOUT=30000
API_MAX_RETRIES=3

".

End nodeText.

(** ** server/generators/nodeGenerator.js *)

Module nodeGenerator.

Definition generatePackageJson (title : string) : string :=
  "{
  " +:+ JS.dq +:+ "name" +:+ JS.dq +:+ ": " +:+ JS.dq
  +:+ JS.slug title
  +:+ "-integration" +:+ JS.dq +:+ ",
  " +:+ JS.dq +:+ "version" +:+ JS.dq +:+ ": " +:+ JS.dq +:+ "1.0.0" +:+ JS.dq +:+ ",
  " +:+ JS.dq +:+ "description" +:+ JS.dq +:+ ": " +:+ JS.dq +:+ "Auto-generated integration client for "
  +:+ title
  +:+ nodeText.generatePackageJson_0_2.

Definition generateEndpointMethod (endpoint : Endpoint) : string :=
  let params := Emit.pathParams endpoint in
  let queryParams := Emit.queryParams endpoint in
  let hasBody := Emit.hasBody endpoint in
  let methodSignature :=
    "  /**
   * "
    +:+ Emit.headline endpoint
    +:+ "
   * @param {Object} options - Request options
   * @returns {Promise<Object>} API response
   */
  async "
    +:+ operationId endpoint
    +:+ "(options = {}) {" in
  let methodSignature :=
    if (0 <? length params)%nat then
      methodSignature
      +:+ "
    const { "
      +:+ JS.joinNames ", " (map p_name params)
      +:+ ", ...restOptions } = options;"
    else methodSignature in
  let methodSignature :=
    if (0 <? length queryParams)%nat then
      methodSignature
      +:+ "
    const { "
      +:+ JS.joinNames ", " (map p_name queryParams)
      +:+ ", ...requestOptions } = restOptions || options;"
    else if (0 <? length params)%nat then
      methodSignature
      +:+ "
    const requestOptions = restOptions;"
    else methodSignature in
  let urlBuilding :=
    fold_left (fun urlBuilding param =>
      urlBuilding
      +:+ "
    url = url.replace('{"
      +:+ JS.str (p_name param)
      +:+ "}', "
      +:+ JS.str (p_name param)
      +:+ ");")
      params
      ("    let url = '"
       +:+ path endpoint
       +:+ "';") in
  let queryBuilding :=
    if (0 <? length queryParams)%nat then
      fold_left (fun queryBuilding param =>
        queryBuilding
        +:+ "
    if ("
        +:+ JS.str (p_name param)
        +:+ " !== undefined) queryParams."
        +:+ JS.str (p_name param)
        +:+ " = "
        +:+ JS.str (p_name param)
        +:+ ";")
        queryParams
        ("
    const queryParams = {};")
    else "" in
  let requestConfig :=
    "
    const config = {
      method: '"
    +:+ method endpoint
    +:+ "',
      url,
      "
    +:+ (if (0 <? length queryParams)%nat then "params: queryParams," else "")
    +:+ "
      ...requestOptions
    };" in
  let requestConfig :=
    if hasBody then
      requestConfig
      +:+ "
    
    if (options.body) {
      config.data = options.body;
    }"
    else requestConfig in
  methodSignature
  +:+ "
"
  +:+ urlBuilding
  +:+ queryBuilding
  +:+ requestConfig
  +:+ "

    return this.requestHandler.makeRequest(config);
  }".

(** [endpoints.map(endpoint => generateEndpointMethod(endpoint))] *)
Definition endpointMethods (parsedData : ParsedData) : list string :=
  map generateEndpointMethod (endpoints parsedData).

Definition generateApiClient (parsedData : ParsedData) : string :=
  nodeText.generateApiClient_0_0
  +:+ title parsedData
  +:+ " API Client
 * Auto-generated integration client for "
  +:+ title parsedData
  +:+ nodeText.generateApiClient_0_2
  +:+ title parsedData
  +:+ nodeText.generateApiClient_0_3
  +:+ JS.join (JS.nl +:+ JS.nl) (endpointMethods parsedData)
  +:+ nodeText.generateApiClient_0_4.

Definition generateAuthHandler (authMethod : AuthMethod) : string :=
  nodeText.generateAuthHandler_0_0.

Definition generateRequestHandler : string :=
  nodeText.generateRequestHandler_0_0.

Definition generateErrorHandler : string :=
  nodeText.generateErrorHandler_0_0.

Definition generateConfig : string :=
  nodeText.generateConfig_0_0.

Definition generateEndpointTest (endpoint : Endpoint) : string :=
  "  describe('"
  +:+ operationId endpoint
  +:+ "', () => {
    test('should make "
  +:+ method endpoint
  +:+ " request to "
  +:+ path endpoint
  +:+ nodeText.generateEndpointTest_0_3
  +:+ operationId endpoint
  +:+ "();
      
      expect(client.requestHandler.makeRequest).toHaveBeenCalledWith(
        expect.objectContaining({
          method: '"
  +:+ method endpoint
  +:+ "',
          url: '"
  +:+ path endpoint
  +:+ nodeText.generateEndpointTest_0_6.

Definition generateTests (parsedData : ParsedData) : string :=
  "const ApiClient = require('../src/ApiClient');

describe('"
  +:+ title parsedData
  +:+ nodeText.generateTests_0_1
  +:+ JS.join (JS.nl +:+ JS.nl) (map generateEndpointTest (endpoints parsedData))
  +:+ "
});".

(** The arrow function mapped over [endpoints.slice(0, 2)] in
    [generateExampleUsage]. *)
Definition exampleCall (endpoint : Endpoint) : string :=
  "    // Example: "
  +:+ method endpoint
  +:+ " "
  +:+ path endpoint
  +:+ "
    try {
      console.log('\n📡 Testing "
  +:+ operationId endpoint
  +:+ "...');
      const "
  +:+ operationId endpoint
  +:+ "Result = await client."
  +:+ operationId endpoint
  +:+ "();
      console.log('✅ "
  +:+ operationId endpoint
  +:+ " result:', JSON.stringify("
  +:+ operationId endpoint
  +:+ "Result, null, 2));
    } catch (error) {
      console.error('❌ "
  +:+ operationId endpoint
  +:+ " failed:', error.message);
    }".

Definition generateExampleUsage (parsedData : ParsedData) : string :=
  "require('dotenv').config();
const ApiClient = require('../src/ApiClient');

/**
 * Example usage of "
  +:+ title parsedData
  +:+ nodeText.generateExampleUsage_0_1
  +:+ title parsedData
  +:+ nodeText.generateExampleUsage_0_2
  +:+ JS.join (JS.nl +:+ JS.nl) (map exampleCall (firstn 2 (endpoints parsedData)))
  +:+ nodeText.generateExampleUsage_0_3.

Definition generateEnvExample (authMethod : AuthMethod) : string :=
  let envContent :=
    "# "
    +:+ Emit.authBanner authMethod
    +:+ nodeText.generateEnvExample_0_1 in
  match am_type authMethod with
  | "bearer" =>
      envContent
      +:+ "# Bearer Token Authentication
API_AUTH_TYPE=bearer
API_BEARER_TOKEN=your-bearer-token-here
"
  | "apiKey" =>
      envContent
      +:+ "# API Key Authentication
API_AUTH_TYPE=apiKey
API_KEY=your-api-key-here
API_AUTH_HEADER_NAME=X-API-Key
"
  | "basic" =>
      envContent
      +:+ "# Basic Authentication
API_AUTH_TYPE=basic
API_USERNAME=your-username
API_PASSWORD=your-password
"
  | "oauth2" =>
      envContent
      +:+ "# OAuth 2.0 Authentication
API_AUTH_TYPE=oauth2
API_ACCESS_TOKEN=your-access-token-here
"
  | _ => envContent
  end.

Definition generateNodeCode (parsedData : ParsedData) (fileName : string) : Heap.M Heap.Ref :=
  (generatedCode <- Heap.alloc ;;
   Heap.set generatedCode "package.json"
     (generatePackageJson (title parsedData)) ;;
   Heap.set generatedCode "src/ApiClient.js"
     (generateApiClient parsedData) ;;
   Heap.set generatedCode "src/auth/AuthHandler.js"
     (generateAuthHandler (authMethod parsedData)) ;;
   Heap.set generatedCode "src/utils/RequestHandler.js"
     (generateRequestHandler) ;;
   Heap.set generatedCode "src/utils/ErrorHandler.js"
     (generateErrorHandler) ;;
   Heap.set generatedCode "src/config/Config.js"
     (generateConfig) ;;
   Heap.set generatedCode "tests/ApiClient.test.js"
     (generateTests parsedData) ;;
   Heap.set generatedCode "examples/basic-usage.js"
     (generateExampleUsage parsedData) ;;
   Heap.set generatedCode ".env.example"
     (generateEnvExample (authMethod parsedData)) ;;
   Heap.ret generatedCode)%heap.

(** The properties [generateNodeCode] assigns, in order. *)
Definition artifacts (parsedData : ParsedData) : list (string * string) :=
  [
   ("package.json", generatePackageJson (title parsedData));
   ("src/ApiClient.js", generateApiClient parsedData);
   ("src/auth/AuthHandler.js", generateAuthHandler (authMethod parsedData));
   ("src/utils/RequestHandler.js", generateRequestHandler);
   ("src/utils/ErrorHandler.js", generateErrorHandler);
   ("src/config/Config.js", generateConfig);
   ("tests/ApiClient.test.js", generateTests parsedData);
   ("examples/basic-usage.js", generateExampleUsage parsedData);
   (".env.example", generateEnvExample (authMethod parsedData))].

End nodeGenerator.

Module goText.

(** goGenerator.js, template of [generateGoMod] at line 49, part 1. *)
Definition generateGoMod_0_1 : string :=
  "-integration

go 1.19

require (
	github.com/joho/godotenv v1.4.0
)

require (
	github.com/stretchr/testify v1.8.1 // indirect
	golang.org/x/net v0.5.0 // indirect
)".

(** goGenerator.js, template of [generateApiClient] at line 69, part 0. *)
Definition generateApiClient_0_0 : string :=
  "package main

import (
	" +:+ JS.dq +:+ "bytes" +:+ JS.dq +:+ "
	" +:+ JS.dq +:+ "encoding/json" +:+ JS.dq +:+ "
	" +:+ JS.dq +:+ "fmt" +:+ JS.dq +:+ "
	" +:+ JS.dq +:+ "io" +:+ JS.dq +:+ "
	" +:+ JS.dq +:+ "net/http" +:+ JS.dq +:+ "
	" +:+ JS.dq +:+ "time" +:+ JS.dq +:+ "
)

// ApiClient represents the ".

(** goGenerator.js, template of [generateApiClient] at line 69, part 1. *)
Definition generateApiClient_0_1 : string :=
  " API client
type ApiClient struct {
	config       *Config
	authHandler  *AuthHandler
	requestHandler *RequestHandler
	httpClient   *http.Client
}

// NewApiClient creates a new API client instance
func NewApiClient(config *Config) *ApiClient {
	if config == nil {
		config = NewConfig()
	}

	client := &ApiClient{
		config:       config,
		authHandler:  NewAuthHandler(config),
		requestHandler: NewRequestHandler(config),
		httpClient: &http.Client{
			Timeout: time.Duration(config.Timeout) * time.Millisecond,
		},
	}

	return client
}

".

(** goGenerator.js, template of [generateApiClient] at line 69, part 2. *)
Definition generateApiClient_0_2 : string :=
  "

// TestConnection tests the connection to the API
func (c *ApiClient) TestConnection() bool {
	resp, err := c.requestHandler.MakeRequest(c.httpClient, " +:+ JS.dq +:+ "GET" +:+ JS.dq +:+ ", " +:+ JS.dq +:+ "/" +:+ JS.dq +:+ ", nil, c.authHandler.GetAuthHeaders())
	if err != nil {
		return false
	}
	return resp.StatusCode == 200
}

// GetConfig returns the current configuration
func (c *ApiClient) GetConfig() *Config {
	return c.config
}".

(** goGenerator.js, template of [generateAuthHandler] at line 210, part 0. *)
Definition generateAuthHandler_0_0 : string :=
  "package main

import (
	" +:+ JS.dq +:+ "encoding/base64" +:+ JS.dq +:+ "
	" +:+ JS.dq +:+ "fmt" +:+ JS.dq +:+ "
)

// AuthHandler handles authentication for API requests
type AuthHandler struct {
	config *Config
}

// NewAuthHandler creates a new authentication handler
func NewAuthHandler(config *Config) *AuthHandler {
	return &AuthHandler{
		config: config,
	}
}

// GetAuthHeaders returns authentication headers based on configured auth method
func (a *AuthHandler) GetAuthHeaders() map[string]string {
	headers := make(map[string]string)

	switch a.config.AuthType {
	case " +:+ JS.dq +:+ "bearer" +:+ JS.dq +:+ ":
		return a.getBearerHeaders()
	case " +:+ JS.dq +:+ "apiKey" +:+ JS.dq +:+ ":
		return a.getApiKeyHeaders()
	case " +:+ JS.dq +:+ "basic" +:+ JS.dq +:+ ":
		return a.getBasicHeaders()
	case " +:+ JS.dq +:+ "oauth2" +:+ JS.dq +:+ ":
		return a.getOAuth2Headers()
	default:
		return headers
	}
}

// getBearerHeaders returns Bearer token headers
func (a *AuthHandler) getBearerHeaders() map[string]string {
	headers := make(map[string]string)
	token := a.config.ApiKey
	if token == " +:+ JS.dq +:+ JS.dq +:+ " {
		token = a.config.BearerToken
	}

	if token == " +:+ JS.dq +:+ JS.dq +:+ " {
		panic(" +:+ JS.dq +:+ "Bearer token is required but not provided" +:+ JS.dq +:+ ")
	}

	headers[" +:+ JS.dq +:+ "Authorization" +:+ JS.dq +:+ "] = " +:+ JS.dq +:+ "Bearer " +:+ JS.dq +:+ " + token
	return headers
}

// getApiKeyHeaders returns API Key headers
func (a *AuthHandler) getApiKeyHeaders() map[string]string {
	headers := make(map[string]string)
	apiKey := a.config.ApiKey

	if apiKey == " +:+ JS.dq +:+ JS.dq +:+ " {
		panic(" +:+ JS.dq +:+ "API Key is required but not provided" +:+ JS.dq +:+ ")
	}

	headerName := a.config.AuthHeaderName
	if headerName == " +:+ JS.dq +:+ JS.dq +:+ " {
		headerName = " +:+ JS.dq +:+ "X-API-Key" +:+ JS.dq +:+ "
	}

	headers[headerName] = apiKey
	return headers
}

// getBasicHeaders returns Basic authentication headers
func (a *AuthHandler) getBasicHeaders() map[string]string {
	headers := make(map[string]string)
	username := a.config.Username
	password := a.config.Password

	if username == " +:+ JS.dq +:+ JS.dq +:+ " || password == " +:+ JS.dq +:+ JS.dq +:+ " {
		panic(" +:+ JS.dq +:+ "Username and password are required for Basic authentication" +:+ JS.dq +:+ ")
	}

	credentials := username + " +:+ JS.dq +:+ ":" +:+ JS.dq +:+ " + password
	encodedCredentials := base64.StdEncoding.EncodeToString([]byte(credentials))
	headers[" +:+ JS.dq +:+ "Authorization" +:+ JS.dq +:+ "] = " +:+ JS.dq +:+ "Basic " +:+ JS.dq +:+ " + encodedCredentials
	return headers
}

// getOAuth2Headers returns OAuth2 headers
func (a *AuthHandler) getOAuth2Headers() map[string]string {
	headers := make(map[string]string)
	accessToken := a.config.AccessToken

	if accessToken == " +:+ JS.dq +:+ JS.dq +:+ " {
		panic(" +:+ JS.dq +:+ "OAuth2 access token is required but not provided" +:+ JS.dq +:+ ")
	}

	headers[" +:+ JS.dq +:+ "Authorization" +:+ JS.dq +:+ "] = " +:+ JS.dq +:+ "Bearer " +:+ JS.dq +:+ " + accessToken
	return headers
}".

(** goGenerator.js, template of [generateRequestHandler] at line 315, part 0. *)
Definition generateRequestHandler_0_0 : string :=
  "package main

import (
	" +:+ JS.dq +:+ "bytes" +:+ JS.dq +:+ "
	" +:+ JS.dq +:+ "fmt" +:+ JS.dq +:+ "
	" +:+ JS.dq +:+ "io" +:+ JS.dq +:+ "
	" +:+ JS.dq +:+ "net/http" +:+ JS.dq +:+ "
	" +:+ JS.dq +:+ "strings" +:+ JS.dq +:+ "
	" +:+ JS.dq +:+ "time" +:+ JS.dq +:+ "
)

// RequestHandler handles HTTP requests with retry logic
type RequestHandler struct {
	config *Config
}

// NewRequestHandler creates a new request handler
func NewRequestHandler(config *Config) *RequestHandler {
	return &RequestHandler{
		config: config,
	}
}

// MakeRequest makes an HTTP request with retry logic
func (r *RequestHandler) MakeRequest(client *http.Client, method, url string, body []byte, headers map[string]string) (" +:+ "*ApiResponse, error) {
	maxRetries := r.config.MaxRetries
	var lastError error

	for attempt := 1; attempt <= maxRetries; attempt++ {
		resp, err := r.executeRequest(client, method, url, body, headers)
		if err == nil {
			return resp, nil
		}

		lastError = err

		// Don't retry on client errors (4xx) except 429 (rate limit)
		if apiErr, ok := err.(" +:+ "*ApiError); ok {
			if apiErr.StatusCode >= 400 && apiErr.StatusCode < 500 && apiErr.StatusCode != 429 {
				return nil, err
			}
		}

		// Don't retry on server errors (5xx) if it's the last attempt
		if attempt == maxRetries {
			return nil, err
		}

		// Wait before retrying (exponential backoff)
		delay := time.Duration(min(1000*int64(1<<(attempt-1)), 10000)) * time.Millisecond
		time.Sleep(delay)
	}

	return nil, lastError
}

// executeRequest executes a single HTTP request
func (r *RequestHandler) executeRequest(client *http.Client, method, url string, body []byte, headers map[string]string) (" +:+ "*ApiResponse, error) {
	fullURL := r.config.BaseURL + url

	var req *http.Request
	var err error

	if body != nil && method != " +:+ JS.dq +:+ "GET" +:+ JS.dq +:+ " && method != " +:+ JS.dq +:+ "DELETE" +:+ JS.dq +:+ " {
		req, err = http.NewRequest(method, fullURL, bytes.NewBuffer(body))
	} else {
		req, err = http.NewRequest(method, fullURL, nil)
	}

	if err != nil {
		return nil, fmt.Errorf(" +:+ JS.dq +:+ "failed to create request: %w" +:+ JS.dq +:+ ", err)
	}

	// Add default headers
	req.Header.Set(" +:+ JS.dq +:+ "Content-Type" +:+ JS.dq +:+ ", " +:+ JS.dq +:+ "application/json" +:+ JS.dq +:+ ")

	// Add custom headers
	for key, value := range headers {
		req.Header.Set(key, value)
	}

	resp, err := client.Do(req)
	if err != nil {
		return nil, fmt.Errorf(" +:+ JS.dq +:+ "request failed: %w" +:+ JS.dq +:+ ", err)
	}
	defer resp.Body.Close()

	respBody, err := io.ReadAll(resp.Body)
	if err != nil {
		return nil, fmt.Errorf(" +:+ JS.dq +:+ "failed to read response body: %w" +:+ JS.dq +:+ ", err)
	}

	if !isSuccessStatus(resp.StatusCode) {
		return nil, &ApiError{
			StatusCode: resp.StatusCode,
			Message:    resp.Status,
			Body:       string(respBody),
		}
	}

	return &ApiResponse{
		StatusCode:    resp.StatusCode,
		StatusMessage: resp.Status,
		Body:          string(respBody),
	}, nil
}

// isSuccessStatus checks if the status code indicates success
func isSuccessStatus(statusCode int) bool {
	return statusCode >= 200 && statusCode < 300
}

// min returns the minimum of two int64 values
func min(a, b int64) int64 {
	if a < b {
		return a
	}
	return b
}

// buildQueryString builds a query string from a map
func buildQueryString(params map[string]string) string {
	var pairs []string
	for key, value := range params {
		pairs = append(pairs, key+" +:+ JS.dq +:+ "=" +:+ JS.dq +:+ "+value)
	}
	return strings.Join(pairs, " +:+ JS.dq +:+ "&" +:+ JS.dq +:+ ")
}".

(** goGenerator.js, template of [generateErrorHandler] at line 449, part 0. *)
Definition generateErrorHandler_0_0 : string :=
  "package main

import " +:+ JS.dq +:+ "fmt" +:+ JS.dq +:+ "

// ApiError represents an API error
type ApiError struct {
	StatusCode int
	Message    string
	Body       string
}

// Error implements the error interface
func (e *ApiError) Error() string {
	return fmt.Sprintf(" +:+ JS.dq +:+ "API Error %d: %s - %s" +:+ JS.dq +:+ ", e.StatusCode, e.Message, e.Body)
}

// GetStatusCode returns the HTTP status code
func (e *ApiError) GetStatusCode() int {
	return e.StatusCode
}

// GetBody returns the response body
func (e *ApiError) GetBody() string {
	return e.Body
}".

(** goGenerator.js, template of [generateConfig] at line 480, part 0. *)
Definition generateConfig_0_0 : string :=
  "package main

import (
	" +:+ JS.dq +:+ "os" +:+ JS.dq +:+ "
	" +:+ JS.dq +:+ "strconv" +:+ JS.dq +:+ "

	" +:+ JS.dq +:+ "github.com/joho/godotenv" +:+ JS.dq +:+ "
)

// Config represents the API client configuration
type Config struct {
	BaseURL        string
	Timeout        int
	MaxRetries     int
	AuthType       string
	ApiKey         string
	BearerToken    string
	Username       string
	Password       string
	AccessToken    string
	AuthHeaderName string
}

// NewConfig creates a new configuration instance
func NewConfig() *Config {
	// Load environment variables
	godotenv.Load()

	config := &Config{
		BaseURL:        getEnv(" +:+ JS.dq +:+ "API_BASE_URL" +:+ JS.dq +:+ ", " +:+ JS.dq +:+ JS.dq +:+ "),
		Timeout:        getEnvAsInt(" +:+ JS.dq +:+ "API_TIMEOUT" +:+ JS.dq +:+ ", 30000),
		MaxRetries:     getEnvAsInt(" +:+ JS.dq +:+ "API_MAX_RETRIES" +:+ JS.dq +:+ ", 3),
		AuthType:       getEnv(" +:+ JS.dq +:+ "API_AUTH_TYPE" +:+ JS.dq +:+ ", " +:+ JS.dq +:+ "none" +:+ JS.dq +:+ "),
		ApiKey:         getEnv(" +:+ JS.dq +:+ "API_KEY" +:+ JS.dq +:+ ", " +:+ JS.dq +:+ JS.dq +:+ "),
		BearerToken:    getEnv(" +:+ JS.dq +:+ "API_BEARER_TOKEN" +:+ JS.dq +:+ ", " +:+ JS.dq +:+ JS.dq +:+ "),
		Username:       getEnv(" +:+ JS.dq +:+ "API_USERNAME" +:+ JS.dq +:+ ", " +:+ JS.dq +:+ JS.dq +:+ "),
		Password:       getEnv(" +:+ JS.dq +:+ "API_PASSWORD" +:+ JS.dq +:+ ", " +:+ JS.dq +:+ JS.dq +:+ "),
		AccessToken:    getEnv(" +:+ JS.dq +:+ "API_ACCESS_TOKEN" +:+ JS.dq +:+ ", " +:+ JS.dq +:+ JS.dq +:+ "),
		AuthHeaderName: getEnv(" +:+ JS.dq +:+ "API_AUTH_HEADER_NAME" +:+ JS.dq +:+ ", " +:+ JS.dq +:+ JS.dq +:+ "),
	}

	// Set defaults
	if config.Timeout <= 0 {
		config.Timeout = 30000
	}
	if config.MaxRetries <= 0 {
		config.MaxRetries = 3
	}
	if config.AuthType == " +:+ JS.dq +:+ JS.dq +:+ " {
		config.AuthType = " +:+ JS.dq +:+ "none" +:+ JS.dq +:+ "
	}

	return config
}

// getEnv gets an environment variable with a default value
func getEnv(key, defaultValue string) string {
	if value := os.Getenv(key); value != " +:+ JS.dq +:+ JS.dq +:+ " {
		return value
	}
	return defaultValue
}

// getEnvAsInt gets an environment variable as an integer with a default value
func getEnvAsInt(key string, defaultValue int) int {
	if value := os.Getenv(key); value != " +:+ JS.dq +:+ JS.dq +:+ " {
		if intValue, err := strconv.Atoi(value); err == nil {
			return intValue
		}
	}
	return defaultValue
}".

(** goGenerator.js, template of [generateModels] at line 558, part 0. *)
Definition generateModels_0_0 : string :=
  "package main

import (
	" +:+ JS.dq +:+ "encoding/json" +:+ JS.dq +:+ "
	" +:+ JS.dq +:+ "fmt" +:+ JS.dq +:+ "
)

// ApiResponse represents an API response
type ApiResponse struct {
	StatusCode    int    `json:" +:+ JS.dq +:+ "statusCode" +:+ JS.dq +:+ "`
	StatusMessage string `json:" +:+ JS.dq +:+ "statusMessage" +:+ JS.dq +:+ "`
	Body          string `json:" +:+ JS.dq +:+ "body" +:+ JS.dq +:+ "`
}

// GetJsonBody returns the response body as a map
func (r *ApiResponse) GetJsonBody() (map[string]interface{}, error) {
	var result map[string]interface{}
	err := json.Unmarshal([]byte(r.Body), &result)
	return result, err
}

// String implements the Stringer interface
func (r *ApiResponse) String() string {
	return fmt.Sprintf(" +:+ JS.dq +:+ "ApiResponse{StatusCode=%d, StatusMessage=" +:+ JS.dq +:+ "%s" +:+ JS.dq +:+ ", Body=" +:+ JS.dq +:+ "%s" +:+ JS.dq +:+ "}" +:+ JS.dq +:+ ", 
		r.StatusCode, r.StatusMessage, r.Body)
}".

(** goGenerator.js, template of [generateEndpointTest] at line 650, part 1. *)
Definition generateEndpointTest_0_1 : string :=
  "(t *testing.T) {
	client := NewApiClient(nil)
	if client == nil {
		t.Error(" +:+ JS.dq +:+ "Expected client to be created" +:+ JS.dq +:+ ")
	}
	// Add more specific tests based on the endpoint requirements
}".

(** goGenerator.js, template of [generateTests] at line 592, part 0. *)
Definition generateTests_0_0 : string :=
  "package main

import (
	" +:+ JS.dq +:+ "testing" +:+ JS.dq +:+ "
)

func TestNewApiClient(t *testing.T) {
	client := NewApiClient(nil)
	if client == nil {
		t.Error(" +:+ JS.dq +:+ "Expected client to be created" +:+ JS.dq +:+ ")
	}

	config := client.GetConfig()
	if config == nil {
		t.Error(" +:+ JS.dq +:+ "Expected config to be set" +:+ JS.dq +:+ ")
	}

	if config.AuthType != " +:+ JS.dq +:+ "none" +:+ JS.dq +:+ " {
		t.Errorf(" +:+ JS.dq +:+ "Expected auth type to be 'none', got '%s'" +:+ JS.dq +:+ ", config.AuthType)
	}
}

func TestConfig(t *testing.T) {
	config := NewConfig()
	if config == nil {
		t.Error(" +:+ JS.dq +:+ "Expected config to be created" +:+ JS.dq +:+ ")
	}

	if config.Timeout <= 0 {
		t.Error(" +:+ JS.dq +:+ "Expected timeout to be positive" +:+ JS.dq +:+ ")
	}

	if config.MaxRetries <= 0 {
		t.Error(" +:+ JS.dq +:+ "Expected max retries to be positive" +:+ JS.dq +:+ ")
	}
}

".

(** goGenerator.js, template of [generateTests] at line 592, part 1. *)
Definition generateTests_0_1 : string :=
  "

func TestErrorHandling(t *testing.T) {
	// Test error handling with invalid configuration
	config := &Config{
		BaseURL: " +:+ JS.dq +:+ "invalid-url" +:+ JS.dq +:+ ",
	}
	client := NewApiClient(config)
	
	if client.TestConnection() {
		t.Error(" +:+ JS.dq +:+ "Expected connection test to fail with invalid URL" +:+ JS.dq +:+ ")
	}
}".

(** goGenerator.js, template of [generateExampleUsage] at line 665, part 0. *)
Definition generateExampleUsage_0_0 : string :=
  "package main

import (
	" +:+ JS.dq +:+ "fmt" +:+ JS.dq +:+ "
	" +:+ JS.dq +:+ "log" +:+ JS.dq +:+ "
)

func main() {
	// Initialize the API client
	client := NewApiClient(nil)
	
	fmt.Println(" +:+ JS.dq +:+ "üöÄ ".

(** goGenerator.js, template of [generateExampleUsage] at line 665, part 1. *)
Definition generateExampleUsage_0_1 : string :=
  " API Client initialized" +:+ JS.dq +:+ ")
	
	// Test connection
	isConnected := client.TestConnection()
	if isConnected {
		fmt.Println(" +:+ JS.dq +:+ "üîó Connection test: ‚úÖ Success" +:+ JS.dq +:+ ")
	} else {
		fmt.Println(" +:+ JS.dq +:+ "üîó Connection test: ‚ùå Failed" +:+ JS.dq +:+ ")
		fmt.Println(" +:+ JS.dq +:+ "‚ùå Cannot connect to API. Please check your configuration." +:+ JS.dq +:+ ")
		return
	}

".

(** goGenerator.js, template of [generateEnvExample] at line 705, part 1. *)
Definition generateEnvExample_0_1 : string :=
  "

# API Configuration
API_BASE_URL=https://api.example.com
API_TIMEOUT=30000
API_MAX_RETRIES=3

".

End goText.

(** ** server/generators/goGenerator.js *)

Module goGenerator.

Definition generateGoMod (title : string) : string :=
  "module "
  +:+ JS.slug title
  +:+ goText.generateGoMod_0_1.

(** The array [parameters] of [generateMethodParameters] when it is
    joined. *)
Definition methodParameterList (params queryParams : list Param) (hasBody : bool)
  : list string :=
  let parameters := [] in
  let parameters :=
    parameters ++ map (fun param => JS.str (p_name param)
      +:+ " string") params in
  let parameters :=
    parameters ++ map (fun param => JS.str (p_name param)
      +:+ " string") queryParams in
  if hasBody then parameters ++ ["body interface{}"] else parameters.

Definition generateMethodParameters (params queryParams : list Param) (hasBody : bool)
  : string :=
  JS.join ", " (methodParameterList params queryParams hasBody).

Definition generateEndpointMethod (endpoint : Endpoint) : string :=
  let params := Emit.pathParams endpoint in
  let queryParams := Emit.queryParams endpoint in
  let hasBody := Emit.hasBody endpoint in
  let methodSignature :=
    "// "
    +:+ operationId endpoint
    +:+ " "
    +:+ Emit.headline endpoint
    +:+ "
// "
    +:+ description endpoint
    +:+ "
func (c *ApiClient) "
    +:+ JS.capitalize (operationId endpoint)
    +:+ "()" in
  let methodSignature :=
    if (0 <? length params)%nat || (0 <? length queryParams)%nat || hasBody then
      methodSignature
      +:+ "("
      +:+ generateMethodParameters params queryParams hasBody
      +:+ ")"
    else methodSignature in
  let methodSignature :=
    methodSignature
    +:+ " (" +:+ "*ApiResponse, error) {" in
  let urlBuilding :=
    fold_left (fun urlBuilding param =>
      urlBuilding
      +:+ "
	url = strings.ReplaceAll(url, " +:+ JS.dq +:+ "{"
      +:+ JS.str (p_name param)
      +:+ "}" +:+ JS.dq +:+ ", "
      +:+ JS.str (p_name param)
      +:+ ")")
      params
      ("	url := " +:+ JS.dq
       +:+ path endpoint
       +:+ JS.dq) in
  let queryBuilding :=
    if (0 <? length queryParams)%nat then
      fold_left (fun queryBuilding param =>
        queryBuilding
        +:+ "
	if "
        +:+ JS.str (p_name param)
        +:+ " != " +:+ JS.dq +:+ JS.dq +:+ " {"
        +:+ "
		queryParams[" +:+ JS.dq
        +:+ JS.str (p_name param)
        +:+ JS.dq +:+ "] = "
        +:+ JS.str (p_name param)
        +:+ "
	}")
        queryParams
        ("
	queryParams := make(map[string]string)")
      +:+ "
	if len(queryParams) > 0 {"
      +:+ "
		url += " +:+ JS.dq +:+ "?" +:+ JS.dq +:+ " + buildQueryString(queryParams)"
      +:+ "
	}"
    else "" in
  let bodyBuilding :=
    if hasBody then
      "
	var requestBody []byte"
      +:+ "
	var err error"
      +:+ "
	if body != nil {"
      +:+ "
		requestBody, err = json.Marshal(body)"
      +:+ "
		if err != nil {"
      +:+ "
			return nil, fmt.Errorf(" +:+ JS.dq +:+ "failed to marshal request body: %w" +:+ JS.dq +:+ ", err)"
      +:+ "
		}"
      +:+ "
	}"
    else "" in
  methodSignature
  +:+ "
"
  +:+ urlBuilding
  +:+ queryBuilding
  +:+ bodyBuilding
  +:+ "

	return c.requestHandler.MakeRequest(c.httpClient, " +:+ JS.dq
  +:+ method endpoint
  +:+ JS.dq +:+ ", url, requestBody, c.authHandler.GetAuthHeaders())
}".

(** [endpoints.map(endpoint => generateEndpointMethod(endpoint))] *)
Definition endpointMethods (parsedData : ParsedData) : list string :=
  map generateEndpointMethod (endpoints parsedData).

Definition generateApiClient (parsedData : ParsedData) : string :=
  goText.generateApiClient_0_0
  +:+ title parsedData
  +:+ goText.generateApiClient_0_1
  +:+ JS.join (JS.nl +:+ JS.nl) (endpointMethods parsedData)
  +:+ goText.generateApiClient_0_2.

Definition generateAuthHandler (authMethod : AuthMethod) : string :=
  goText.generateAuthHandler_0_0.

Definition generateRequestHandler : string :=
  goText.generateRequestHandler_0_0.

Definition generateErrorHandler : string :=
  goText.generateErrorHandler_0_0.

Definition generateConfig : string :=
  goText.generateConfig_0_0.

Definition generateModels : string :=
  goText.generateModels_0_0.

Definition generateEndpointTest (endpoint : Endpoint) : string :=
  "func Test"
  +:+ JS.capitalize (operationId endpoint)
  +:+ goText.generateEndpointTest_0_1.

Definition generateTests (parsedData : ParsedData) : string :=
  goText.generateTests_0_0
  +:+ JS.join (JS.nl +:+ JS.nl) (map generateEndpointTest (endpoints parsedData))
  +:+ goText.generateTests_0_1.

(** In the arrow function mapped over [endpoints.slice(0, 2)] the
    method name is built from [endpoint.operationId.charAt(0)] and
    [operationId.slice(1)], and no [operationId] is in scope in
    [generateExampleUsage]: the first call of the arrow function throws a
    [ReferenceError]. *)
Definition exampleCall (endpoint : Endpoint) : Result string :=
  Throw "operationId is not defined".

(** [array.map(f)] for a callback that may throw. *)
Fixpoint mapResult {A B} (f : A -> Result B) (l : list A) : Result (list B) :=
  match l with
  | [] => Ok []
  | a :: rest =>
      b <- f a ;;
      bs <- mapResult f rest ;;
      Ok (b :: bs)
  end.

Definition generateExampleUsage (parsedData : ParsedData) : Result string :=
  texts <- mapResult exampleCall (firstn 2 (endpoints parsedData)) ;;
  let calls := JS.join (JS.nl +:+ JS.nl) texts in
  Ok (goText.generateExampleUsage_0_0
      +:+ title parsedData
      +:+ goText.generateExampleUsage_0_1
      +:+ calls
      +:+ "

	fmt.Println(" +:+ JS.dq +:+ "\nüéâ Example completed successfully!" +:+ JS.dq +:+ ")
}").

Definition generateEnvExample (authMethod : AuthMethod) : string :=
  let envContent :=
    "# "
    +:+ Emit.authBanner authMethod
    +:+ goText.generateEnvExample_0_1 in
  match am_type authMethod with
  | "bearer" =>
      envContent
      +:+ "# Bearer Token Authentication
API_AUTH_TYPE=bearer
API_BEARER_TOKEN=your-bearer-token-here
"
  | "apiKey" =>
      envContent
      +:+ "# API Key Authentication
API_AUTH_TYPE=apiKey
API_KEY=your-api-key-here
API_AUTH_HEADER_NAME=X-API-Key
"
  | "basic" =>
      envContent
      +:+ "# Basic Authentication
API_AUTH_TYPE=basic
API_USERNAME=your-username
API_PASSWORD=your-password
"
  | "oauth2" =>
      envContent
      +:+ "# OAuth 2.0 Authentication
API_AUTH_TYPE=oauth2
API_ACCESS_TOKEN=your-access-token-here
"
  | _ => envContent
  end.

Definition generateGoCode (parsedData : ParsedData) (fileName : string) : Heap.M Heap.Ref :=
  (generatedCode <- Heap.alloc ;;
   Heap.set generatedCode "go.mod"
     (generateGoMod (title parsedData)) ;;
   Heap.set generatedCode "client.go"
     (generateApiClient parsedData) ;;
   Heap.set generatedCode "auth.go"
     (generateAuthHandler (authMethod parsedData)) ;;
   Heap.set generatedCode "request.go"
     (generateRequestHandler) ;;
   Heap.set generatedCode "errors.go"
     (generateErrorHandler) ;;
   Heap.set generatedCode "config.go"
     (generateConfig) ;;
   Heap.set generatedCode "models.go"
     (generateModels) ;;
   Heap.set generatedCode "client_test.go"
     (generateTests parsedData) ;;
   text <- Heap.lift (generateExampleUsage parsedData) ;;
   Heap.set generatedCode "example/main.go" text ;;
   Heap.set generatedCode ".env.example"
     (generateEnvExample (authMethod parsedData)) ;;
   Heap.ret generatedCode)%heap.

End goGenerator.

Module javaText.

(** The Java generator, template of [generatePomXml] at line 49, part 0. *)
Definition generatePomXml_0_0 : string :=
  "<?xml version=" +:+ JS.dq +:+ "1.0" +:+ JS.dq +:+ " encoding=" +:+ JS.dq +:+ "UTF-8" +:+ JS.dq +:+ "?>
<project xmlns=" +:+ JS.dq +:+ "http://maven.apache.org/POM/4.0.0" +:+ JS.dq +:+ "
         xmlns:xsi=" +:+ JS.dq +:+ "http://www.w3.org/2001/XMLSchema-instance" +:+ JS.dq +:+ "
         xsi:schemaLocation=" +:+ JS.dq +:+ "http://maven.apache.org/POM/4.0.0 
         http://maven.apache.org/xsd/maven-4.0.0.xsd" +:+ JS.dq +:+ ">
    <modelVersion>4.0.0</modelVersion>

    <groupId>com.example</groupId>
    <artifactId>".

(** The Java generator, template of [generatePomXml] at line 49, part 3. *)
Definition generatePomXml_0_3 : string :=
  "</description>

    <properties>
        <maven.compiler.source>11</maven.compiler.source>
        <maven.compiler.target>11</maven.compiler.target>
        <project.build.sourceEncoding>UTF-8</project.build.sourceEncoding>
    </properties>

    <dependencies>
        <!-- HTTP Client -->
        <dependency>
            <groupId>com.squareup.okhttp3</groupId>
            <artifactId>okhttp</artifactId>
            <version>4.9.3</version>
        </dependency>

        <!-- JSON Processing -->
        <dependency>
            <groupId>com.fasterxml.jackson.core</groupId>
            <artifactId>jackson-databind</artifactId>
            <version>2.13.0</version>
        </dependency>

        <!-- Logging -->
        <dependency>
            <groupId>org.slf4j</groupId>
            <artifactId>slf4j-api</artifactId>
            <version>1.7.32</version>
        </dependency>

        <!-- Testing -->
        <dependency>
            <groupId>org.junit.jupiter</groupId>
            <artifactId>junit-jupiter</artifactId>
            <version>5.8.2</version>
            <scope>test</scope>
        </dependency>

        <dependency>
            <groupId>org.mockito</groupId>
            <artifactId>mockito-core</artifactId>
            <version>4.2.0</version>
            <scope>test</scope>
        </dependency>
    </dependencies>

    <build>
        <plugins>
            <plugin>
                <groupId>org.apache.maven.plugins</groupId>
                <artifactId>maven-compiler-plugin</artifactId>
                <version>3.8.1</version>
                <configuration>
                    <source>11</source>
                    <target>11</target>
                </configuration>
            </plugin>

            <plugin>
                <groupId>org.apache.maven.plugins</groupId>
                <artifactId>maven-surefire-plugin</artifactId>
                <version>2.22.2</version>
            </plugin>
        </plugins>
    </build>
</project>".

(** The Java generator, template of [generateApiClient] at line 136, part 0. *)
Definition generateApiClient_0_0 : string :=
  "package com.example;

import com.example.auth.AuthHandler;
import com.example.config.Config;
import com.example.models.ApiResponse;
import com.example.utils.RequestHandler;
import com.example.utils.ErrorHandler;
import com.fasterxml.jackson.databind.ObjectMapper;
import okhttp3.OkHttpClient;
import java.util.concurrent.TimeUnit;

/**
 * ".

(** The Java generator, template of [generateApiClient] at line 136, part 2. *)
Definition generateApiClient_0_2 : string :=
  "
 */
public class ApiClient {
    private final Config config;
    private final AuthHandler authHandler;
    private final RequestHandler requestHandler;
    private final ErrorHandler errorHandler;
    private final OkHttpClient httpClient;
    private final ObjectMapper objectMapper;

    public ApiClient() {
        this(new Config());
    }

    public ApiClient(Config config) {
        this.config = config;
        this.authHandler = new AuthHandler(config);
        this.requestHandler = new RequestHandler(config);
        this.errorHandler = new ErrorHandler();
        this.objectMapper = new ObjectMapper();
        
        this.httpClient = new OkHttpClient.Builder()
            .connectTimeout(config.getTimeout(), TimeUnit.MILLISECONDS)
            .readTimeout(config.getTimeout(), TimeUnit.MILLISECONDS)
            .writeTimeout(config.getTimeout(), TimeUnit.MILLISECONDS)
            .build();
    }

".

(** The Java generator, template of [generateApiClient] at line 136, part 3. *)
Definition generateApiClient_0_3 : string :=
  "

    /**
     * Test connection to the API
     * @return boolean Connection status
     */
    public boolean testConnection() {
        try {
            ApiResponse response = requestHandler.makeRequest(httpClient, " +:+ JS.dq +:+ "GET" +:+ JS.dq +:+ ", " +:+ JS.dq +:+ "/" +:+ JS.dq +:+ ", null, null);
            return response.getStatusCode() == 200;
        } catch (Exception e) {
            return false;
        }
    }

    /**
     * Get client configuration
     * @return Config Current configuration
     */
    public Config getConfig() {
        return config;
    }

    /**
     * Close HTTP client resources
     */
    public void close() {
        if (httpClient != null) {
            httpClient.dispatcher().executorService().shutdown();
            httpClient.connectionPool().evictAll();
        }
    }
}".

(** The Java generator, template of [generateAuthHandler] at line 301, part 0. *)
Definition generateAuthHandler_0_0 : string :=
  "package com.example.auth;

import com.example.config.Config;
import java.util.HashMap;
import java.util.Map;
import java.util.Base64;

/**
 * Authentication Handler
 * Handles different types of authentication for API requests
 */
public class AuthHandler {
    private final Config config;

    public AuthHandler(Config config) {
        this.config = config;
    }

    /**
     * Get authentication headers based on configured auth method
     * @return Map<String, String> Authentication headers
     */
    public Map<String, String> getAuthHeaders() {
        String authType = config.getAuthType();
        
        switch (authType) {
            case " +:+ JS.dq +:+ "bearer" +:+ JS.dq +:+ ":
                return getBearerHeaders();
            case " +:+ JS.dq +:+ "apiKey" +:+ JS.dq +:+ ":
                return getApiKeyHeaders();
            case " +:+ JS.dq +:+ "basic" +:+ JS.dq +:+ ":
                return getBasicHeaders();
            case " +:+ JS.dq +:+ "oauth2" +:+ JS.dq +:+ ":
                return getOAuth2Headers();
            default:
                return new HashMap<>();
        }
    }

    /**
     * Get Bearer token headers
     * @return Map<String, String> Bearer token headers
     */
    private Map<String, String> getBearerHeaders() {
        Map<String, String> headers = new HashMap<>();
        String token = config.getApiKey() != null ? config.getApiKey() : config.getBearerToken();
        
        if (token == null || token.isEmpty()) {
            throw new RuntimeException(" +:+ JS.dq +:+ "Bearer token is required but not provided" +:+ JS.dq +:+ ");
        }
        
        headers.put(" +:+ JS.dq +:+ "Authorization" +:+ JS.dq +:+ ", " +:+ JS.dq +:+ "Bearer " +:+ JS.dq +:+ " + token);
        return headers;
    }

    /**
     * Get API Key headers
     * @return Map<String, String> API Key headers
     */
    private Map<String, String> getApiKeyHeaders() {
        Map<String, String> headers = new HashMap<>();
        String apiKey = config.getApiKey();
        
        if (apiKey == null || apiKey.isEmpty()) {
            throw new RuntimeException(" +:+ JS.dq +:+ "API Key is required but not provided" +:+ JS.dq +:+ ");
        }
        
        String headerName = config.getAuthHeaderName() != null ? config.getAuthHeaderName() : " +:+ JS.dq +:+ "X-API-Key" +:+ JS.dq +:+ ";
        headers.put(headerName, apiKey);
        return headers;
    }

    /**
     * Get Basic authentication headers
     * @return Map<String, String> Basic auth headers
     */
    private Map<String, String> getBasicHeaders() {
        Map<String, String> headers = new HashMap<>();
        String username = config.getUsername();
        String password = config.getPassword();
        
        if (username == null || password == null || username.isEmpty() || password.isEmpty()) {
            throw new RuntimeException(" +:+ JS.dq +:+ "Username and password are required for Basic authentication" +:+ JS.dq +:+ ");
        }
        
        String credentials = username + " +:+ JS.dq +:+ ":" +:+ JS.dq +:+ " + password;
        String encodedCredentials = Base64.getEncoder().encodeToString(credentials.getBytes());
        headers.put(" +:+ JS.dq +:+ "Authorization" +:+ JS.dq +:+ ", " +:+ JS.dq +:+ "Basic " +:+ JS.dq +:+ " + encodedCredentials);
        return headers;
    }

    /**
     * Get OAuth2 headers
     * @return Map<String, String> OAuth2 headers
     */
    private Map<String, String> getOAuth2Headers() {
        Map<String, String> headers = new HashMap<>();
        String accessToken = config.getAccessToken();
        
        if (accessToken == null || accessToken.isEmpty()) {
            throw new RuntimeException(" +:+ JS.dq +:+ "OAuth2 access token is required but not provided" +:+ JS.dq +:+ ");
        }
        
        headers.put(" +:+ JS.dq +:+ "Authorization" +:+ JS.dq +:+ ", " +:+ JS.dq +:+ "Bearer " +:+ JS.dq +:+ " + accessToken);
        return headers;
    }
}".

(** The Java generator, template of [generateRequestHandler] at line 414, part 0. *)
Definition generateRequestHandler_0_0 : string :=
  "package com.example.utils;

import com.example.config.Config;
import com.example.models.ApiResponse;
import okhttp3.*;
import java.io.IOException;
import java.util.Map;
import java.util.concurrent.TimeUnit;

/**
 * Request Handler
 * Handles HTTP requests with retry logic and proper error handling
 */
public class RequestHandler {
    private final Config config;

    public RequestHandler(Config config) {
        this.config = config;
    }

    /**
     * Make HTTP request with retry logic
     * @param client OkHttpClient instance
     * @param method HTTP method
     * @param url Request URL
     * @param body Request body
     * @param headers Request headers
     * @return ApiResponse Response data
     * @throws Exception if request fails
     */
    public ApiResponse makeRequest(OkHttpClient client, String method, String url, 
                                 String body, Map<String, String> headers) throws Exception {
        int maxRetries = config.getMaxRetries();
        Exception lastException = null;

        for (int attempt = 1; attempt <= maxRetries; attempt++) {
            try {
                return executeRequest(client, method, url, body, headers);
            } catch (Exception e) {
                lastException = e;
                
                // Don't retry on client errors (4xx) except 429 (rate limit)
                if (e instanceof ApiException) {
                    ApiException apiException = (ApiException) e;
                    if (apiException.getStatusCode() >= 400 && apiException.getStatusCode() < 500 
                        && apiException.getStatusCode() != 429) {
                        throw e;
                    }
                }
                
                // Don't retry on server errors (5xx) if it's the last attempt
                if (attempt == maxRetries) {
                    throw e;
                }
                
                // Wait before retrying (exponential backoff)
                long delay = Math.min(1000L * (long) Math.pow(2, attempt - 1), 10000L);
                Thread.sleep(delay);
            }
        }

        throw lastException;
    }

    /**
     * Execute single HTTP request
     * @param client OkHttpClient instance
     * @param method HTTP method
     * @param url Request URL
     * @param body Request body
     * @param headers Request headers
     * @return ApiResponse Response data
     * @throws Exception if request fails
     */
    private ApiResponse executeRequest(OkHttpClient client, String method, String url, 
                                     String body, Map<String, String> headers) throws Exception {
        Request.Builder requestBuilder = new Request.Builder()
            .url(config.getBaseUrl() + url);

        // Add headers
        if (headers != null) {
            for (Map.Entry<String, String> entry : headers.entrySet()) {
                requestBuilder.addHeader(entry.getKey(), entry.getValue());
            }
        }

        // Add request body
        if (body != null && !method.equals(" +:+ JS.dq +:+ "GET" +:+ JS.dq +:+ ") && !method.equals(" +:+ JS.dq +:+ "DELETE" +:+ JS.dq +:+ ")) {
            RequestBody requestBody = RequestBody.create(body, MediaType.get(" +:+ JS.dq +:+ "application/json" +:+ JS.dq +:+ "));
            requestBuilder.method(method, requestBody);
        } else {
            requestBuilder.method(method, null);
        }

        Request request = requestBuilder.build();

        try (Response response = client.newCall(request).execute()) {
            String responseBody = response.body() != null ? response.body().string() : " +:+ JS.dq +:+ JS.dq +:+ ";
            
            if (!response.isSuccessful()) {
                throw new ApiException(response.code(), response.message(), responseBody);
            }
            
            return new ApiResponse(response.code(), response.message(), responseBody);
        } catch (IOException e) {
            throw new RuntimeException(" +:+ JS.dq +:+ "Request failed: " +:+ JS.dq +:+ " + e.getMessage(), e);
        }
    }
}".

(** The Java generator, template of [generateErrorHandler] at line 529, part 0. *)
Definition generateErrorHandler_0_0 : string :=
  "package com.example.utils;

/**
 * Error Handler
 * Handles and formats API errors consistently
 */
public class ErrorHandler {
    
    /**
     * Custom API Exception
     */
    public static class ApiException extends RuntimeException {
        private final int statusCode;
        private final String responseBody;

        public ApiException(int statusCode, String message, String responseBody) {
            super(message);
            this.statusCode = statusCode;
            this.responseBody = responseBody;
        }

        public int getStatusCode() {
            return statusCode;
        }

        public String getResponseBody() {
            return responseBody;
        }

        @Override
        public String toString() {
            return String.format(" +:+ JS.dq +:+ "ApiException{statusCode=%d, message='%s', responseBody='%s'}" +:+ JS.dq +:+ ", 
                               statusCode, getMessage(), responseBody);
        }
    }
}".

(** The Java generator, template of [generateConfig] at line 571, part 0. *)
Definition generateConfig_0_0 : string :=
  "package com.example.config;

import java.io.IOException;
import java.io.InputStream;
import java.util.Properties;

/**
 * Configuration Manager
 * Manages API client configuration with properties file support
 */
public class Config {
    private String baseUrl;
    private int timeout;
    private int maxRetries;
    private String authType;
    private String apiKey;
    private String bearerToken;
    private String username;
    private String password;
    private String accessToken;
    private String authHeaderName;

    public Config() {
        loadProperties();
        setDefaults();
    }

    /**
     * Load configuration from properties file
     */
    private void loadProperties() {
        Properties props = new Properties();
        try (InputStream input = getClass().getClassLoader().getResourceAsStream(" +:+ JS.dq +:+ "application.properties" +:+ JS.dq +:+ ")) {
            if (input != null) {
                props.load(input);
                
                this.baseUrl = props.getProperty(" +:+ JS.dq +:+ "api.baseUrl" +:+ JS.dq +:+ ", " +:+ JS.dq +:+ JS.dq +:+ ");
                this.timeout = Integer.parseInt(props.getProperty(" +:+ JS.dq +:+ "api.timeout" +:+ JS.dq +:+ ", " +:+ JS.dq +:+ "30000" +:+ JS.dq +:+ "));
                this.maxRetries = Integer.parseInt(props.getProperty(" +:+ JS.dq +:+ "api.maxRetries" +:+ JS.dq +:+ ", " +:+ JS.dq +:+ "3" +:+ JS.dq +:+ "));
                this.authType = props.getProperty(" +:+ JS.dq +:+ "api.authType" +:+ JS.dq +:+ ", " +:+ JS.dq +:+ "none" +:+ JS.dq +:+ ");
                this.apiKey = props.getProperty(" +:+ JS.dq +:+ "api.apiKey" +:+ JS.dq +:+ ");
                this.bearerToken = props.getProperty(" +:+ JS.dq +:+ "api.bearerToken" +:+ JS.dq +:+ ");
                this.username = props.getProperty(" +:+ JS.dq +:+ "api.username" +:+ JS.dq +:+ ");
                this.password = props.getProperty(" +:+ JS.dq +:+ "api.password" +:+ JS.dq +:+ ");
                this.accessToken = props.getProperty(" +:+ JS.dq +:+ "api.accessToken" +:+ JS.dq +:+ ");
                this.authHeaderName = props.getProperty(" +:+ JS.dq +:+ "api.authHeaderName" +:+ JS.dq +:+ ");
            }
        } catch (IOException e) {
            // Use defaults if properties file not found
        }
    }

    /**
     * Set default values
     */
    private void setDefaults() {
        if (this.timeout <= 0) this.timeout = 30000;
        if (this.maxRetries <= 0) this.maxRetries = 3;
        if (this.authType == null) this.authType = " +:+ JS.dq +:+ "none" +:+ JS.dq +:+ ";
    }

    // Getters
    public String getBaseUrl() { return baseUrl; }
    public int getTimeout() { return timeout; }
    public int getMaxRetries() { return maxRetries; }
    public String getAuthType() { return authType; }
    public String getApiKey() { return apiKey; }
    public String getBearerToken() { return bearerToken; }
    public String getUsername() { return username; }
    public String getPassword() { return password; }
    public String getAccessToken() { return accessToken; }
    public String getAuthHeaderName() { return authHeaderName; }

    // Setters
    public void setBaseUrl(String baseUrl) { this.baseUrl = baseUrl; }
    public void setTimeout(int timeout) { this.timeout = timeout; }
    public void setMaxRetries(int maxRetries) { this.maxRetries = maxRetries; }
    public void setAuthType(String authType) { this.authType = authType; }
    public void setApiKey(String apiKey) { this.apiKey = apiKey; }
    public void setBearerToken(String bearerToken) { this.bearerToken = bearerToken; }
    public void setUsername(String username) { this.username = username; }
    public void setPassword(String password) { this.password = password; }
    public void setAccessToken(String accessToken) { this.accessToken = accessToken; }
    public void setAuthHeaderName(String authHeaderName) { this.authHeaderName = authHeaderName; }
}".

(** The Java generator, template of [generateApiResponse] at line 662, part 0. *)
Definition generateApiResponse_0_0 : string :=
  "package com.example.models;

/**
 * API Response Model
 * Represents a standard API response
 */
public class ApiResponse {
    private final int statusCode;
    private final String statusMessage;
    private final String body;

    public ApiResponse(int statusCode, String statusMessage, String body) {
        this.statusCode = statusCode;
        this.statusMessage = statusMessage;
        this.body = body;
    }

    public int getStatusCode() {
        return statusCode;
    }

    public String getStatusMessage() {
        return statusMessage;
    }

    public String getBody() {
        return body;
    }

    @Override
    public String toString() {
        return String.format(" +:+ JS.dq +:+ "ApiResponse{statusCode=%d, statusMessage='%s', body='%s'}" +:+ JS.dq +:+ ", 
                           statusCode, statusMessage, body);
    }
}".

(** The Java generator, template of [generateEndpointTest] at line 753, part 1. *)
Definition generateEndpointTest_0_1 : string :=
  "() {
        // This is a basic test structure
        // In a real implementation, you would mock the HTTP client
        assertNotNull(apiClient);
        // Add more specific tests based on the endpoint requirements
    }".

(** The Java generator, template of [generateTests] at line 705, part 0. *)
Definition generateTests_0_0 : string :=
  "package com.example;

import com.example.models.ApiResponse;
import org.junit.jupiter.api.BeforeEach;
import org.junit.jupiter.api.Test;
import org.junit.jupiter.api.extension.ExtendWith;
import org.mockito.Mock;
import org.mockito.junit.jupiter.MockitoExtension;
import static org.junit.jupiter.api.Assertions.*;
import static org.mockito.Mockito.*;

@ExtendWith(MockitoExtension.class)
class ApiClientTest {
    
    private ApiClient apiClient;
    
    @BeforeEach
    void setUp() {
        apiClient = new ApiClient();
    }

    @Test
    void testConfiguration() {
        Config config = apiClient.getConfig();
        assertNotNull(config);
        assertEquals(" +:+ JS.dq +:+ "none" +:+ JS.dq +:+ ", config.getAuthType());
    }

".

(** The Java generator, template of [generateTests] at line 705, part 1. *)
Definition generateTests_0_1 : string :=
  "

    @Test
    void testErrorHandling() {
        // Test error handling with invalid configuration
        Config config = new Config();
        config.setBaseUrl(" +:+ JS.dq +:+ "invalid-url" +:+ JS.dq +:+ ");
        ApiClient client = new ApiClient(config);
        
        assertFalse(client.testConnection());
    }
}".

(** The Java generator, template of [generateExampleUsage] at line 768, part 0. *)
Definition generateExampleUsage_0_0 : string :=
  "package com.example;

import com.example.models.ApiResponse;

/**
 * Example usage of ".

(** The Java generator, template of [generateExampleUsage] at line 768, part 1. *)
Definition generateExampleUsage_0_1 : string :=
  " API Client
 */
public class ExampleUsage {
    
    public static void main(String[] args) {
        try {
            // Initialize the API client
            ApiClient client = new ApiClient();
            
            System.out.println(" +:+ JS.dq +:+ "üöÄ ".

(** The Java generator, template of [generateExampleUsage] at line 768, part 2. *)
Definition generateExampleUsage_0_2 : string :=
  " API Client initialized" +:+ JS.dq +:+ ");
            
            // Test connection
            boolean isConnected = client.testConnection();
            System.out.println(" +:+ JS.dq +:+ "üîó Connection test: " +:+ JS.dq +:+ " + (isConnected ? " +:+ JS.dq +:+ "‚úÖ Success" +:+ JS.dq +:+ " : " +:+ JS.dq +:+ "‚ùå Failed" +:+ JS.dq +:+ "));
            
            if (!isConnected) {
                System.err.println(" +:+ JS.dq +:+ "‚ùå Cannot connect to API. Please check your configuration." +:+ JS.dq +:+ ");
                return;
            }

".

(** The Java generator, template of [generateExampleUsage] at line 768, part 3. *)
Definition generateExampleUsage_0_3 : string :=
  "

            System.out.println(" +:+ JS.dq +:+ "\nüéâ Example completed successfully!" +:+ JS.dq +:+ ");
            
            // Clean up resources
            client.close();
            
        } catch (Exception e) {
            System.err.println(" +:+ JS.dq +:+ "üí• Example failed: " +:+ JS.dq +:+ " + e.getMessage());
            e.printStackTrace();
            System.exit(1);
        }
    }
}".

(** The Java generator, template of [generateApplicationProperties] at line 820, part 1. *)
Definition generateApplicationProperties_0_1 : string :=
  "

# API Configuration
api.baseUrl=https://api.example.com
api.timeout=30000
api.maxRetries=3

".

End javaText.

(** ** The Java generator *)

Module javaGenerator.

Definition generatePomXml (title : string) : string :=
  javaText.generatePomXml_0_0
  +:+ JS.slug title
  +:+ "-integration</artifactId>
    <version>1.0.0</version>
    <packaging>jar</packaging>

    <name>"
  +:+ title
  +:+ " API Integration</name>
    <description>Auto-generated integration client for "
  +:+ title
  +:+ javaText.generatePomXml_0_3.

(** The array [parameters] of [generateMethodParameters] when it is
    joined. *)
Definition methodParameterList (params queryParams : list Param) (hasBody : bool)
  : list string :=
  let parameters := [] in
  let parameters :=
    parameters ++ map (fun param => "String "
      +:+ JS.str (p_name param)) params in
  let parameters :=
    parameters ++ map (fun param => "String "
      +:+ JS.str (p_name param)) queryParams in
  if hasBody then parameters ++ ["Object body"] else parameters.

Definition generateMethodParameters (params queryParams : list Param) (hasBody : bool)
  : string :=
  JS.join ", " (methodParameterList params queryParams hasBody).

Definition generateEndpointMethod (endpoint : Endpoint) : string :=
  let params := Emit.pathParams endpoint in
  let queryParams := Emit.queryParams endpoint in
  let hasBody := Emit.hasBody endpoint in
  let methodSignature :=
    "    /**
     * "
    +:+ Emit.headline endpoint
    +:+ "
     * "
    +:+ (if negb (String.eqb (description endpoint) "") then
       "
     * "
       +:+ description endpoint
     else "")
    +:+ "
     * @return ApiResponse API response
     * @throws Exception if request fails
     */
    public ApiResponse "
    +:+ operationId endpoint
    +:+ "() throws Exception {" in
  let methodSignature :=
    if (0 <? length params)%nat || (0 <? length queryParams)%nat || hasBody then
      JS.replace methodSignature "()"
        ("("
         +:+ generateMethodParameters params queryParams hasBody
         +:+ ")")
    else methodSignature in
  let urlBuilding :=
    fold_left (fun urlBuilding param =>
      urlBuilding
      +:+ "
        url = url.replace(" +:+ JS.dq +:+ "{"
      +:+ JS.str (p_name param)
      +:+ "}" +:+ JS.dq +:+ ", "
      +:+ JS.str (p_name param)
      +:+ ");")
      params
      ("        String url = " +:+ JS.dq
       +:+ path endpoint
       +:+ JS.dq +:+ ";") in
  let queryBuilding :=
    if (0 <? length queryParams)%nat then
      fold_left (fun queryBuilding '(index, param) =>
        (if (index =? 0)%nat then
           queryBuilding
           +:+ "
        if ("
           +:+ JS.str (p_name param)
           +:+ " != null) {"
         else
           queryBuilding
           +:+ "
        } else if ("
           +:+ JS.str (p_name param)
           +:+ " != null) {")
        +:+ "
            queryString.append(" +:+ JS.dq
        +:+ JS.str (p_name param)
        +:+ "=" +:+ JS.dq +:+ ").append("
        +:+ JS.str (p_name param)
        +:+ ");")
        (imap (fun index param => (index, param)) queryParams)
        ("
        StringBuilder queryString = new StringBuilder();")
      +:+ "
        }"
      +:+ "
        if (queryString.length() > 0) {"
      +:+ "
            url += " +:+ JS.dq +:+ "?" +:+ JS.dq +:+ " + queryString.toString();"
      +:+ "
        }"
    else "" in
  let bodyBuilding :=
    if hasBody then
      "
        String requestBody = null;"
      +:+ "
        if (body != null) {"
      +:+ "
            requestBody = objectMapper.writeValueAsString(body);"
      +:+ "
        }"
    else "" in
  methodSignature
  +:+ "
"
  +:+ urlBuilding
  +:+ queryBuilding
  +:+ bodyBuilding
  +:+ "

        return requestHandler.makeRequest(httpClient, " +:+ JS.dq
  +:+ method endpoint
  +:+ JS.dq +:+ ", url, requestBody, authHandler.getAuthHeaders());
    }".

(** [endpoints.map(endpoint => generateEndpointMethod(endpoint))] *)
Definition endpointMethods (parsedData : ParsedData) : list string :=
  map generateEndpointMethod (endpoints parsedData).

Definition generateApiClient (parsedData : ParsedData) : string :=
  javaText.generateApiClient_0_0
  +:+ title parsedData
  +:+ " API Client
 * Auto-generated integration client for "
  +:+ title parsedData
  +:+ javaText.generateApiClient_0_2
  +:+ JS.join (JS.nl +:+ JS.nl) (endpointMethods parsedData)
  +:+ javaText.generateApiClient_0_3.

Definition generateAuthHandler (authMethod : AuthMethod) : string :=
  javaText.generateAuthHandler_0_0.

Definition generateRequestHandler : string :=
  javaText.generateRequestHandler_0_0.

Definition generateErrorHandler : string :=
  javaText.generateErrorHandler_0_0.

Definition generateConfig : string :=
  javaText.generateConfig_0_0.

Definition generateApiResponse : string :=
  javaText.generateApiResponse_0_0.

Definition generateEndpointTest (endpoint : Endpoint) : string :=
  "    @Test
    void test"
  +:+ JS.capitalize (operationId endpoint)
  +:+ javaText.generateEndpointTest_0_1.

Definition generateTests (parsedData : ParsedData) : string :=
  javaText.generateTests_0_0
  +:+ JS.join (JS.nl +:+ JS.nl) (map generateEndpointTest (endpoints parsedData))
  +:+ javaText.generateTests_0_1.

(** The arrow function mapped over [endpoints.slice(0, 2)] in
    [generateExampleUsage]. *)
Definition exampleCall (endpoint : Endpoint) : string :=
  "            // Example: "
  +:+ method endpoint
  +:+ " "
  +:+ path endpoint
  +:+ "
            try {
                System.out.println(" +:+ JS.dq +:+ "\nüì° Testing "
  +:+ operationId endpoint
  +:+ "..." +:+ JS.dq +:+ ");
                ApiResponse "
  +:+ operationId endpoint
  +:+ "Result = client."
  +:+ operationId endpoint
  +:+ "();
                System.out.println(" +:+ JS.dq +:+ "‚úÖ "
  +:+ operationId endpoint
  +:+ " result: " +:+ JS.dq +:+ " + "
  +:+ operationId endpoint
  +:+ "Result);
            } catch (Exception e) {
                System.err.println(" +:+ JS.dq +:+ "‚ùå "
  +:+ operationId endpoint
  +:+ " failed: " +:+ JS.dq +:+ " + e.getMessage());
            }".

Definition generateExampleUsage (parsedData : ParsedData) : string :=
  javaText.generateExampleUsage_0_0
  +:+ title parsedData
  +:+ javaText.generateExampleUsage_0_1
  +:+ title parsedData
  +:+ javaText.generateExampleUsage_0_2
  +:+ JS.join (JS.nl +:+ JS.nl) (map exampleCall (firstn 2 (endpoints parsedData)))
  +:+ javaText.generateExampleUsage_0_3.

Definition generateApplicationProperties (authMethod : AuthMethod) : string :=
  let properties :=
    "# "
    +:+ Emit.authBanner authMethod
    +:+ javaText.generateApplicationProperties_0_1 in
  match am_type authMethod with
  | "bearer" =>
      properties
      +:+ "# Bearer Token Authentication
api.authType=bearer
api.bearerToken=your-bearer-token-here
"
  | "apiKey" =>
      properties
      +:+ "# API Key Authentication
api.authType=apiKey
api.apiKey=your-api-key-here
api.authHeaderName=X-API-Key
"
  | "basic" =>
      properties
      +:+ "# Basic Authentication
api.authType=basic
api.username=your-username
api.password=your-password
"
  | "oauth2" =>
      properties
      +:+ "# OAuth 2.0 Authentication
api.authType=oauth2
api.accessToken=your-access-token-here
"
  | _ => properties
  end.

Definition generateJavaCode (parsedData : ParsedData) (fileName : string) : Heap.M Heap.Ref :=
  (generatedCode <- Heap.alloc ;;
   Heap.set generatedCode "pom.xml"
     (generatePomXml (title parsedData)) ;;
   Heap.set generatedCode "src/main/java/com/example/ApiClient.java"
     (generateApiClient parsedData) ;;
   Heap.set generatedCode "src/main/java/com/example/auth/AuthHandler.java"
     (generateAuthHandler (authMethod parsedData)) ;;
   Heap.set generatedCode "src/main/java/com/example/utils/RequestHandler.java"
     (generateRequestHandler) ;;
   Heap.set generatedCode "src/main/java/com/example/utils/ErrorHandler.java"
     (generateErrorHandler) ;;
   Heap.set generatedCode "src/main/java/com/example/config/Config.java"
     (generateConfig) ;;
   Heap.set generatedCode "src/main/java/com/example/models/ApiResponse.java"
     (generateApiResponse) ;;
   Heap.set generatedCode "src/test/java/com/example/ApiClientTest.java"
     (generateTests parsedData) ;;
   Heap.set generatedCode "src/main/java/com/example/ExampleUsage.java"
     (generateExampleUsage parsedData) ;;
   Heap.set generatedCode "src/main/resources/application.properties"
     (generateApplicationProperties (authMethod parsedData)) ;;
   Heap.ret generatedCode)%heap.

(** The properties [generateJavaCode] assigns, in order. *)
Definition artifacts (parsedData : ParsedData) : list (string * string) :=
  [
   ("pom.xml", generatePomXml (title parsedData));
   ("src/main/java/com/example/ApiClient.java", generateApiClient parsedData);
   ("src/main/java/com/example/auth/AuthHandler.java", generateAuthHandler (authMethod parsedData));
   ("src/main/java/com/example/utils/RequestHandler.java", generateRequestHandler);
   ("src/main/java/com/example/utils/ErrorHandler.java", generateErrorHandler);
   ("src/main/java/com/example/config/Config.java", generateConfig);
   ("src/main/java/com/example/models/ApiResponse.java", generateApiResponse);
   ("src/test/java/com/example/ApiClientTest.java", generateTests parsedData);
   ("src/main/java/com/example/ExampleUsage.java", generateExampleUsage parsedData);
   ("src/main/resources/application.properties", generateApplicationProperties (authMethod parsedData))].

End javaGenerator.

Module phpText.

(** The PHP generator, template of [generateComposerJson] at line 49, part 2. *)
Definition generateComposerJson_0_2 : string :=
  JS.dq +:+ ",
    " +:+ JS.dq +:+ "type" +:+ JS.dq +:+ ": " +:+ JS.dq +:+ "library" +:+ JS.dq +:+ ",
    " +:+ JS.dq +:+ "license" +:+ JS.dq +:+ ": " +:+ JS.dq +:+ "MIT" +:+ JS.dq +:+ ",
    " +:+ JS.dq +:+ "authors" +:+ JS.dq +:+ ": [
        {
            " +:+ JS.dq +:+ "name" +:+ JS.dq +:+ ": " +:+ JS.dq +:+ "API Code Generator" +:+ JS.dq +:+ ",
            " +:+ JS.dq +:+ "email" +:+ JS.dq +:+ ": " +:+ JS.dq +:+ "generator@example.com" +:+ JS.dq +:+ "
        }
    ],
    " +:+ JS.dq +:+ "require" +:+ JS.dq +:+ ": {
        " +:+ JS.dq +:+ "php" +:+ JS.dq +:+ ": " +:+ JS.dq +:+ ">=7.4" +:+ JS.dq +:+ ",
        " +:+ JS.dq +:+ "guzzlehttp/guzzle" +:+ JS.dq +:+ ": " +:+ JS.dq +:+ "^7.0" +:+ JS.dq +:+ ",
        " +:+ JS.dq +:+ "vlucas/phpdotenv" +:+ JS.dq +:+ ": " +:+ JS.dq +:+ "^5.0" +:+ JS.dq +:+ "
    },
    " +:+ JS.dq +:+ "require-dev" +:+ JS.dq +:+ ": {
        " +:+ JS.dq +:+ "phpunit/phpunit" +:+ JS.dq +:+ ": " +:+ JS.dq +:+ "^9.0" +:+ JS.dq +:+ ",
        " +:+ JS.dq +:+ "mockery/mockery" +:+ JS.dq +:+ ": " +:+ JS.dq +:+ "^1.0" +:+ JS.dq +:+ "
    },
    " +:+ JS.dq +:+ "autoload" +:+ JS.dq +:+ ": {
        " +:+ JS.dq +:+ "psr-4" +:+ JS.dq +:+ ": {
            " +:+ JS.dq +:+ "Example\\" +:+ JS.dq +:+ ": " +:+ JS.dq +:+ "src/" +:+ JS.dq +:+ "
        }
    },
    " +:+ JS.dq +:+ "autoload-dev" +:+ JS.dq +:+ ": {
        " +:+ JS.dq +:+ "psr-4" +:+ JS.dq +:+ ": {
            " +:+ JS.dq +:+ "Tests\\" +:+ JS.dq +:+ ": " +:+ JS.dq +:+ "tests/" +:+ JS.dq +:+ "
        }
    },
    " +:+ JS.dq +:+ "scripts" +:+ JS.dq +:+ ": {
        " +:+ JS.dq +:+ "test" +:+ JS.dq +:+ ": " +:+ JS.dq +:+ "phpunit" +:+ JS.dq +:+ ",
        " +:+ JS.dq +:+ "test:coverage" +:+ JS.dq +:+ ": " +:+ JS.dq +:+ "phpunit --coverage-html coverage" +:+ JS.dq +:+ "
    }
}".

(** The PHP generator, template of [generateEndpointMethod] at line 219, part 5. *)
Definition generateEndpointMethod_18_5 : string :=
  "',
            $url,
            $requestBody,
            $this->authHandler->getAuthHeaders()
        );
    }".

(** The PHP generator, template of [generateApiClient] at line 92, part 0. *)
Definition generateApiClient_0_0 : string :=
  "<?php

namespace Example;

use Example\Auth\AuthHandler;
use Example\Config\Config;
use Example\Models\ApiResponse;
use Example\Utils\RequestHandler;
use Example\Utils\ErrorHandler;
use GuzzleHttp\Client;
use GuzzleHttp\Exception\GuzzleException;

/**
 * ".

(** The PHP generator, template of [generateApiClient] at line 92, part 2. *)
Definition generateApiClient_0_2 : string :=
  "
 */
class ApiClient
{
    private Config $config;
    private AuthHandler $authHandler;
    private RequestHandler $requestHandler;
    private ErrorHandler $errorHandler;
    private Client $httpClient;

    public function __construct(array $config = [])
    {
        $this->config = new Config($config);
        $this->authHandler = new AuthHandler($this->config);
        $this->requestHandler = new RequestHandler($this->config);
        $this->errorHandler = new ErrorHandler();
        
        $this->httpClient = new Client([
            'base_uri' => $this->config->getBaseUrl(),
            'timeout' => $this->config->getTimeout(),
            'headers' => [
                'Content-Type' => 'application/json',
                'User-Agent' => '".

(** The PHP generator, template of [generateApiClient] at line 92, part 3. *)
Definition generateApiClient_0_3 : string :=
  "-Integration/1.0.0'
            ]
        ]);
    }

".

(** The PHP generator, template of [generateApiClient] at line 92, part 4. *)
Definition generateApiClient_0_4 : string :=
  "

    /**
     * Test connection to the API
     * @return bool Connection status
     */
    public function testConnection(): bool
    {
        try {
            $response = $this->requestHandler->makeRequest(
                $this->httpClient,
                'GET',
                '/',
                null,
                $this->authHandler->getAuthHeaders()
            );
            return $response->getStatusCode() === 200;
        } catch (\Exception $e) {
            return false;
        }
    }

    /**
     * Get client configuration
     * @return Config Current configuration
     */
    public function getConfig(): Config
    {
        return $this->config;
    }
}".

(** The PHP generator, template of [generateAuthHandler] at line 260, part 0. *)
Definition generateAuthHandler_0_0 : string :=
  "<?php

namespace Example\Auth;

use Example\Config\Config;

/**
 * Authentication Handler
 * Handles different types of authentication for API requests
 */
class AuthHandler
{
    private Config $config;

    public function __construct(Config $config)
    {
        $this->config = $config;
    }

    /**
     * Get authentication headers based on configured auth method
     * @return array Authentication headers
     */
    public function getAuthHeaders(): array
    {
        $authType = $this->config->getAuthType();
        
        switch ($authType) {
            case 'bearer':
                return $this->getBearerHeaders();
            case 'apiKey':
                return $this->getApiKeyHeaders();
            case 'basic':
                return $this->getBasicHeaders();
            case 'oauth2':
                return $this->getOAuth2Headers();
            default:
                return [];
        }
    }

    /**
     * Get Bearer token headers
     * @return array Bearer token headers
     */
    private function getBearerHeaders(): array
    {
        $token = $this->config->getApiKey() ?: $this->config->getBearerToken();
        
        if (empty($token)) {
            throw new \RuntimeException('Bearer token is required but not provided');
        }
        
        return [
            'Authorization' => 'Bearer ' . $token
        ];
    }

    /**
     * Get API Key headers
     * @return array API Key headers
     */
    private function getApiKeyHeaders(): array
    {
        $apiKey = $this->config->getApiKey();
        
        if (empty($apiKey)) {
            throw new \RuntimeException('API Key is required but not provided');
        }
        
        $headerName = $this->config->getAuthHeaderName() ?: 'X-API-Key';
        return [
            $headerName => $apiKey
        ];
    }

    /**
     * Get Basic authentication headers
     * @return array Basic auth headers
     */
    private function getBasicHeaders(): array
    {
        $username = $this->config->getUsername();
        $password = $this->config->getPassword();
        
        if (empty($username) || empty($password)) {
            throw new \RuntimeException('Username and password are required for Basic authentication');
        }
        
        $credentials = base64_encode($username . ':' . $password);
        return [
            'Authorization' => 'Basic ' . $credentials
        ];
    }

    /**
     * Get OAuth2 headers
     * @return array OAuth2 headers
     */
    private function getOAuth2Headers(): array
    {
        $accessToken = $this->config->getAccessToken();
        
        if (empty($accessToken)) {
            throw new \RuntimeException('OAuth2 access token is required but not provided');
        }
        
        return [
            'Authorization' => 'Bearer ' . $accessToken
        ];
    }
}".

(** The PHP generator, template of [generateRequestHandler] at line 378, part 0. *)
Definition generateRequestHandler_0_0 : string :=
  "<?php

namespace Example\Utils;

use Example\Config\Config;
use Example\Models\ApiResponse;
use GuzzleHttp\Client;
use GuzzleHttp\Exception\GuzzleException;

/**
 * Request Handler
 * Handles HTTP requests with retry logic and proper error handling
 */
class RequestHandler
{
    private Config $config;

    public function __construct(Config $config)
    {
        $this->config = $config;
    }

    /**
     * Make HTTP request with retry logic
     * @param Client $client Guzzle HTTP client
     * @param string $method HTTP method
     * @param string $url Request URL
     * @param string|null $body Request body
     * @param array $headers Request headers
     * @return ApiResponse Response data
     * @throws \Exception if request fails
     */
    public function makeRequest(Client $client, string $method, string $url, 
                              ?string $body, array $headers): ApiResponse
    {
        $maxRetries = $this->config->getMaxRetries();
        $lastException = null;

        for ($attempt = 1; $attempt <= $maxRetries; $attempt++) {
            try {
                return $this->executeRequest($client, $method, $url, $body, $headers);
            } catch (\Exception $e) {
                $lastException = $e;
                
                // Don't retry on client errors (4xx) except 429 (rate limit)
                if ($e instanceof ApiException) {
                    $apiException = $e;
                    if ($apiException->getStatusCode() >= 400 && $apiException->getStatusCode() < 500 
                        && $apiException->getStatusCode() !== 429) {
                        throw $e;
                    }
                }
                
                // Don't retry on server errors (5xx) if it's the last attempt
                if ($attempt === $maxRetries) {
                    throw $e;
                }
                
                // Wait before retrying (exponential backoff)
                $delay = min(1000 * pow(2, $attempt - 1), 10000);
                usleep($delay * 1000);
            }
        }

        throw $lastException;
    }

    /**
     * Execute single HTTP request
     * @param Client $client Guzzle HTTP client
     * @param string $method HTTP method
     * @param string $url Request URL
     * @param string|null $body Request body
     * @param array $headers Request headers
     * @return ApiResponse Response data
     * @throws \Exception if request fails
     */
    private function executeRequest(Client $client, string $method, string $url, 
                                  ?string $body, array $headers): ApiResponse
    {
        $options = [
            'headers' => array_merge([
                'Content-Type' => 'application/json'
            ], $headers)
        ];

        if ($body !== null && !in_array($method, ['GET', 'DELETE'])) {
            $options['body'] = $body;
        }

        try {
            $response = $client->request($method, $url, $options);
            $responseBody = $response->getBody()->getContents();
            
            return new ApiResponse(
                $response->getStatusCode(),
                $response->getReasonPhrase(),
                $responseBody
            );
        } catch (GuzzleException $e) {
            if ($e->hasResponse()) {
                $response = $e->getResponse();
                throw new ApiException(
                    $response->getStatusCode(),
                    $response->getReasonPhrase(),
                    $response->getBody()->getContents()
                );
            }
            throw new \RuntimeException('Request failed: ' . $e->getMessage(), 0, $e);
        }
    }
}".

(** The PHP generator, template of [generateErrorHandler] at line 496, part 0. *)
Definition generateErrorHandler_0_0 : string :=
  "<?php

namespace Example\Utils;

/**
 * Error Handler
 * Handles and formats API errors consistently
 */
class ErrorHandler
{
    /**
     * Custom API Exception
     */
    public static class ApiException extends \RuntimeException
    {
        private int $statusCode;
        private string $responseBody;

        public function __construct(int $statusCode, string $message, string $responseBody)
        {
            parent::__construct($message);
            $this->statusCode = $statusCode;
            $this->responseBody = $responseBody;
        }

        public function getStatusCode(): int
        {
            return $this->statusCode;
        }

        public function getResponseBody(): string
        {
            return $this->responseBody;
        }

        public function __toString(): string
        {
            return sprintf(
                'ApiException{statusCode=%d, message=" +:+ JS.dq +:+ "%s" +:+ JS.dq +:+ ", responseBody=" +:+ JS.dq +:+ "%s" +:+ JS.dq +:+ "}',
                $this->statusCode,
                $this->getMessage(),
                $this->responseBody
            );
        }
    }
}".

(** The PHP generator, template of [generateConfig] at line 548, part 0. *)
Definition generateConfig_0_0 : string :=
  "<?php

namespace Example\Config;

use Dotenv\Dotenv;

/**
 * Configuration Manager
 * Manages API client configuration with environment variable support
 */
class Config
{
    private string $baseUrl;
    private int $timeout;
    private int $maxRetries;
    private string $authType;
    private ?string $apiKey;
    private ?string $bearerToken;
    private ?string $username;
    private ?string $password;
    private ?string $accessToken;
    private ?string $authHeaderName;

    public function __construct(array $config = [])
    {
        $this->loadEnvironmentVariables();
        $this->loadConfig($config);
        $this->setDefaults();
    }

    /**
     * Load environment variables
     */
    private function loadEnvironmentVariables(): void
    {
        if (file_exists('.env')) {
            $dotenv = Dotenv::createImmutable('.');
            $dotenv->load();
        }
    }

    /**
     * Load configuration from array
     */
    private function loadConfig(array $config): void
    {
        $this->baseUrl = $config['baseUrl'] ?? $_ENV['API_BASE_URL'] ?? '';
        $this->timeout = (int) ($config['timeout'] ?? $_ENV['API_TIMEOUT'] ?? 30000);
        $this->maxRetries = (int) ($config['maxRetries'] ?? $_ENV['API_MAX_RETRIES'] ?? 3);
        $this->authType = $config['authType'] ?? $_ENV['API_AUTH_TYPE'] ?? 'none';
        $this->apiKey = $config['apiKey'] ?? $_ENV['API_KEY'] ?? null;
        $this->bearerToken = $config['bearerToken'] ?? $_ENV['API_BEARER_TOKEN'] ?? null;
        $this->username = $config['username'] ?? $_ENV['API_USERNAME'] ?? null;
        $this->password = $config['password'] ?? $_ENV['API_PASSWORD'] ?? null;
        $this->accessToken = $config['accessToken'] ?? $_ENV['API_ACCESS_TOKEN'] ?? null;
        $this->authHeaderName = $config['authHeaderName'] ?? $_ENV['API_AUTH_HEADER_NAME'] ?? null;
    }

    /**
     * Set default values
     */
    private function setDefaults(): void
    {
        if ($this->timeout <= 0) $this->timeout = 30000;
        if ($this->maxRetries <= 0) $this->maxRetries = 3;
        if (empty($this->authType)) $this->authType = 'none';
    }

    // Getters
    public function getBaseUrl(): string { return $this->baseUrl; }
    public function getTimeout(): int { return $this->timeout; }
    public function getMaxRetries(): int { return $this->maxRetries; }
    public function getAuthType(): string { return $this->authType; }
    public function getApiKey(): ?string { return $this->apiKey; }
    public function getBearerToken(): ?string { return $this->bearerToken; }
    public function getUsername(): ?string { return $this->username; }
    public function getPassword(): ?string { return $this->password; }
    public function getAccessToken(): ?string { return $this->accessToken; }
    public function getAuthHeaderName(): ?string { return $this->authHeaderName; }

    // Setters
    public function setBaseUrl(string $baseUrl): void { $this->baseUrl = $baseUrl; }
    public function setTimeout(int $timeout): void { $this->timeout = $timeout; }
    public function setMaxRetries(int $maxRetries): void { $this->maxRetries = $maxRetries; }
    public function setAuthType(string $authType): void { $this->authType = $authType; }
    public function setApiKey(?string $apiKey): void { $this->apiKey = $apiKey; }
    public function setBearerToken(?string $bearerToken): void { $this->bearerToken = $bearerToken; }
    public function setUsername(?string $username): void { $this->username = $username; }
    public function setPassword(?string $password): void { $this->password = $password; }
    public function setAccessToken(?string $accessToken): void { $this->accessToken = $accessToken; }
    public function setAuthHeaderName(?string $authHeaderName): void { $this->authHeaderName = $authHeaderName; }
}".

(** The PHP generator, template of [generateApiResponse] at line 646, part 0. *)
Definition generateApiResponse_0_0 : string :=
  "<?php

namespace Example\Models;

/**
 * API Response Model
 * Represents a standard API response
 */
class ApiResponse
{
    private int $statusCode;
    private string $statusMessage;
    private string $body;

    public function __construct(int $statusCode, string $statusMessage, string $body)
    {
        $this->statusCode = $statusCode;
        $this->statusMessage = $statusMessage;
        $this->body = $body;
    }

    public function getStatusCode(): int
    {
        return $this->statusCode;
    }

    public function getStatusMessage(): string
    {
        return $this->statusMessage;
    }

    public function getBody(): string
    {
        return $this->body;
    }

    public function getJsonBody(): array
    {
        return json_decode($this->body, true) ?? [];
    }

    public function __toString(): string
    {
        return sprintf(
            'ApiResponse{statusCode=%d, statusMessage=" +:+ JS.dq +:+ "%s" +:+ JS.dq +:+ ", body=" +:+ JS.dq +:+ "%s" +:+ JS.dq +:+ "}',
            $this->statusCode,
            $this->statusMessage,
            $this->body
        );
    }
}".

(** The PHP generator, template of [generateEndpointTest] at line 755, part 1. *)
Definition generateEndpointTest_0_1 : string :=
  "()
    {
        // This is a basic test structure
        // In a real implementation, you would mock the HTTP client
        $this->assertInstanceOf(ApiClient::class, $this->apiClient);
        // Add more specific tests based on the endpoint requirements
    }".

(** The PHP generator, template of [generateTests] at line 705, part 0. *)
Definition generateTests_0_0 : string :=
  "<?php

namespace Tests;

use Example\ApiClient;
use Example\Config\Config;
use Example\Models\ApiResponse;
use PHPUnit\Framework\TestCase;
use Mockery;

class ApiClientTest extends TestCase
{
    private ApiClient $apiClient;
    
    protected function setUp(): void
    {
        $this->apiClient = new ApiClient();
    }

    protected function tearDown(): void
    {
        Mockery::close();
    }

    public function testConfiguration()
    {
        $config = $this->apiClient->getConfig();
        $this->assertInstanceOf(Config::class, $config);
        $this->assertEquals('none', $config->getAuthType());
    }

".

(** The PHP generator, template of [generateTests] at line 705, part 1. *)
Definition generateTests_0_1 : string :=
  "

    public function testErrorHandling()
    {
        // Test error handling with invalid configuration
        $config = new Config(['baseUrl' => 'invalid-url']);
        $client = new ApiClient($config);
        
        $this->assertFalse($client->testConnection());
    }
}".

(** The PHP generator, template of [generateExampleUsage] at line 770, part 0. *)
Definition generateExampleUsage_0_0 : string :=
  "<?php

require_once __DIR__ . '/../vendor/autoload.php';

use Example\ApiClient;
use Example\Models\ApiResponse;

/**
 * Example usage of ".

(** The PHP generator, template of [generateExampleUsage] at line 770, part 1. *)
Definition generateExampleUsage_0_1 : string :=
  " API Client
 */
function main()
{
    try {
        // Initialize the API client
        $client = new ApiClient();
        
        echo " +:+ JS.dq +:+ "ðŸš€ ".

(** The PHP generator, template of [generateExampleUsage] at line 770, part 2. *)
Definition generateExampleUsage_0_2 : string :=
  " API Client initialized\n" +:+ JS.dq +:+ ";
        
        // Test connection
        $isConnected = $client->testConnection();
        echo " +:+ JS.dq +:+ "ðŸ”— Connection test: " +:+ JS.dq +:+ " . ($isConnected ? " +:+ JS.dq +:+ "âœ… Success" +:+ JS.dq +:+ " : " +:+ JS.dq +:+ "âŒ Failed" +:+ JS.dq +:+ ") . " +:+ JS.dq +:+ "\n" +:+ JS.dq +:+ ";
        
        if (!$isConnected) {
            echo " +:+ JS.dq +:+ "âŒ Cannot connect to API. Please check your configuration.\n" +:+ JS.dq +:+ ";
            return;
        }

".

(** The PHP generator, template of [generateExampleUsage] at line 770, part 3. *)
Definition generateExampleUsage_0_3 : string :=
  "

        echo " +:+ JS.dq +:+ "\nðŸŽ‰ Example completed successfully!\n" +:+ JS.dq +:+ ";
        
    } catch (Exception $e) {
        echo " +:+ JS.dq +:+ "ðŸ’¥ Example failed: " +:+ JS.dq +:+ " . $e->getMessage() . " +:+ JS.dq +:+ "\n" +:+ JS.dq +:+ ";
        exit(1);
    }
}

// Run the example
if (php_sapi_name() === 'cli') {
    main();
}".

(** The PHP generator, template of [generateEnvExample] at line 824, part 1. *)
Definition generateEnvExample_0_1 : string :=
  "

# API Configuration
API_BASE_URL=https://api.example.com
API_TIMEOUT=30000
API_MAX_RETRIES=3

".

End phpText.

(** ** The PHP generator *)

Module phpGenerator.

Definition generateComposerJson (title : string) : string :=
  "{
    " +:+ JS.dq +:+ "name" +:+ JS.dq +:+ ": " +:+ JS.dq +:+ "example/"
  +:+ JS.slug title
  +:+ "-integration" +:+ JS.dq +:+ ",
    " +:+ JS.dq +:+ "description" +:+ JS.dq +:+ ": " +:+ JS.dq +:+ "Auto-generated integration client for "
  +:+ title
  +:+ phpText.generateComposerJson_0_2.

(** The array [parameters] of [generateMethodParameters] when it is
    joined. *)
Definition methodParameterList (params queryParams : list Param) (hasBody : bool)
  : list string :=
  let parameters := [] in
  let parameters :=
    parameters ++ map (fun param => "?string $"
      +:+ JS.str (p_name param)
      +:+ " = null") params in
  let parameters :=
    parameters ++ map (fun param => "?string $"
      +:+ JS.str (p_name param)
      +:+ " = null") queryParams in
  if hasBody then parameters ++ ["?array $body = null"] else parameters.

Definition generateMethodParameters (params queryParams : list Param) (hasBody : bool)
  : string :=
  JS.join ", " (methodParameterList params queryParams hasBody).

Definition generateEndpointMethod (endpoint : Endpoint) : string :=
  let params := Emit.pathParams endpoint in
  let queryParams := Emit.queryParams endpoint in
  let hasBody := Emit.hasBody endpoint in
  let methodSignature :=
    "    /**
     * "
    +:+ Emit.headline endpoint
    +:+ "
     * "
    +:+ (if negb (String.eqb (description endpoint) "") then
       "
     * "
       +:+ description endpoint
     else "")
    +:+ "
     * @return ApiResponse API response
     * @throws \Exception if request fails
     */
    public function "
    +:+ operationId endpoint
    +:+ "()" in
  let methodSignature :=
    if (0 <? length params)%nat || (0 <? length queryParams)%nat || hasBody then
      methodSignature
      +:+ "("
      +:+ generateMethodParameters params queryParams hasBody
      +:+ ")"
    else methodSignature in
  let methodSignature :=
    methodSignature
    +:+ ": ApiResponse" in
  let urlBuilding :=
    fold_left (fun urlBuilding param =>
      urlBuilding
      +:+ "
        $url = str_replace('{"
      +:+ JS.str (p_name param)
      +:+ "}', $"
      +:+ JS.str (p_name param)
      +:+ ", $url);")
      params
      ("        $url = '"
       +:+ path endpoint
       +:+ "';") in
  let queryBuilding :=
    if (0 <? length queryParams)%nat then
      fold_left (fun queryBuilding param =>
        queryBuilding
        +:+ "
        if ($"
        +:+ JS.str (p_name param)
        +:+ " !== null) {"
        +:+ "
            $queryParams['"
        +:+ JS.str (p_name param)
        +:+ "'] = $"
        +:+ JS.str (p_name param)
        +:+ ";"
        +:+ "
        }")
        queryParams
        ("
        $queryParams = [];")
      +:+ "
        if (!empty($queryParams)) {"
      +:+ "
            $url .= '?' . http_build_query($queryParams);"
      +:+ "
        }"
    else "" in
  let bodyBuilding :=
    if hasBody then
      "
        $requestBody = null;"
      +:+ "
        if ($body !== null) {"
      +:+ "
            $requestBody = json_encode($body);"
      +:+ "
        }"
    else "" in
  methodSignature
  +:+ "
    {
"
  +:+ urlBuilding
  +:+ queryBuilding
  +:+ bodyBuilding
  +:+ "

        return $this->requestHandler->makeRequest(
            $this->httpClient,
            '"
  +:+ method endpoint
  +:+ phpText.generateEndpointMethod_18_5.

(** [endpoints.map(endpoint => generateEndpointMethod(endpoint))] *)
Definition endpointMethods (parsedData : ParsedData) : list string :=
  map generateEndpointMethod (endpoints parsedData).

Definition generateApiClient (parsedData : ParsedData) : string :=
  phpText.generateApiClient_0_0
  +:+ title parsedData
  +:+ " API Client
 * Auto-generated integration client for "
  +:+ title parsedData
  +:+ phpText.generateApiClient_0_2
  +:+ title parsedData
  +:+ phpText.generateApiClient_0_3
  +:+ JS.join (JS.nl +:+ JS.nl) (endpointMethods parsedData)
  +:+ phpText.generateApiClient_0_4.

Definition generateAuthHandler (authMethod : AuthMethod) : string :=
  phpText.generateAuthHandler_0_0.

Definition generateRequestHandler : string :=
  phpText.generateRequestHandler_0_0.

Definition generateErrorHandler : string :=
  phpText.generateErrorHandler_0_0.

Definition generateConfig : string :=
  phpText.generateConfig_0_0.

Definition generateApiResponse : string :=
  phpText.generateApiResponse_0_0.

Definition generateEndpointTest (endpoint : Endpoint) : string :=
  "    public function test"
  +:+ JS.capitalize (operationId endpoint)
  +:+ phpText.generateEndpointTest_0_1.

Definition generateTests (parsedData : ParsedData) : string :=
  phpText.generateTests_0_0
  +:+ JS.join (JS.nl +:+ JS.nl) (map generateEndpointTest (endpoints parsedData))
  +:+ phpText.generateTests_0_1.

(** The arrow function mapped over [endpoints.slice(0, 2)] in
    [generateExampleUsage]. *)
Definition exampleCall (endpoint : Endpoint) : string :=
  "        // Example: "
  +:+ method endpoint
  +:+ " "
  +:+ path endpoint
  +:+ "
        try {
            echo " +:+ JS.dq +:+ "\nðŸ“¡ Testing "
  +:+ operationId endpoint
  +:+ "...\n" +:+ JS.dq +:+ ";
            $"
  +:+ operationId endpoint
  +:+ "Result = $client->"
  +:+ operationId endpoint
  +:+ "();
            echo " +:+ JS.dq +:+ "âœ… "
  +:+ operationId endpoint
  +:+ " result: " +:+ JS.dq +:+ " . $"
  +:+ operationId endpoint
  +:+ "Result . " +:+ JS.dq +:+ "\n" +:+ JS.dq +:+ ";
        } catch (Exception $e) {
            echo " +:+ JS.dq +:+ "âŒ "
  +:+ operationId endpoint
  +:+ " failed: " +:+ JS.dq +:+ " . $e->getMessage() . " +:+ JS.dq +:+ "\n" +:+ JS.dq +:+ ";
        }".

Definition generateExampleUsage (parsedData : ParsedData) : string :=
  phpText.generateExampleUsage_0_0
  +:+ title parsedData
  +:+ phpText.generateExampleUsage_0_1
  +:+ title parsedData
  +:+ phpText.generateExampleUsage_0_2
  +:+ JS.join (JS.nl +:+ JS.nl) (map exampleCall (firstn 2 (endpoints parsedData)))
  +:+ phpText.generateExampleUsage_0_3.

Definition generateEnvExample (authMethod : AuthMethod) : string :=
  let envContent :=
    "# "
    +:+ Emit.authBanner authMethod
    +:+ phpText.generateEnvExample_0_1 in
  match am_type authMethod with
  | "bearer" =>
      envContent
      +:+ "# Bearer Token Authentication
API_AUTH_TYPE=bearer
API_BEARER_TOKEN=your-bearer-token-here
"
  | "apiKey" =>
      envContent
      +:+ "# API Key Authentication
API_AUTH_TYPE=apiKey
API_KEY=your-api-key-here
API_AUTH_HEADER_NAME=X-API-Key
"
  | "basic" =>
      envContent
      +:+ "# Basic Authentication
API_AUTH_TYPE=basic
API_USERNAME=your-username
API_PASSWORD=your-password
"
  | "oauth2" =>
      envContent
      +:+ "# OAuth 2.0 Authentication
API_AUTH_TYPE=oauth2
API_ACCESS_TOKEN=your-access-token-here
"
  | _ => envContent
  end.

Definition generatePhpCode (parsedData : ParsedData) (fileName : string) : Heap.M Heap.Ref :=
  (generatedCode <- Heap.alloc ;;
   Heap.set generatedCode "composer.json"
     (generateComposerJson (title parsedData)) ;;
   Heap.set generatedCode "src/ApiClient.php"
     (generateApiClient parsedData) ;;
   Heap.set generatedCode "src/Auth/AuthHandler.php"
     (generateAuthHandler (authMethod parsedData)) ;;
   Heap.set generatedCode "src/Utils/RequestHandler.php"
     (generateRequestHandler) ;;
   Heap.set generatedCode "src/Utils/ErrorHandler.php"
     (generateErrorHandler) ;;
   Heap.set generatedCode "src/Config/Config.php"
     (generateConfig) ;;
   Heap.set generatedCode "src/Models/ApiResponse.php"
     (generateApiResponse) ;;
   Heap.set generatedCode "tests/ApiClientTest.php"
     (generateTests parsedData) ;;
   Heap.set generatedCode "examples/basic-usage.php"
     (generateExampleUsage parsedData) ;;
   Heap.set generatedCode ".env.example"
     (generateEnvExample (authMethod parsedData)) ;;
   Heap.ret generatedCode)%heap.

(** The properties [generatePhpCode] assigns, in order. *)
Definition artifacts (parsedData : ParsedData) : list (string * string) :=
  [
   ("composer.json", generateComposerJson (title parsedData));
   ("src/ApiClient.php", generateApiClient parsedData);
   ("src/Auth/AuthHandler.php", generateAuthHandler (authMethod parsedData));
   ("src/Utils/RequestHandler.php", generateRequestHandler);
   ("src/Utils/ErrorHandler.php", generateErrorHandler);
   ("src/Config/Config.php", generateConfig);
   ("src/Models/ApiResponse.php", generateApiResponse);
   ("tests/ApiClientTest.php", generateTests parsedData);
   ("examples/basic-usage.php", generateExampleUsage parsedData);
   (".env.example", generateEnvExample (authMethod parsedData))].

End phpGenerator.

(** ** The request modules written by [generateRequestHandler]

    The retry loop of the emitted [makeRequest] is the same statement
    sequence in the Node and Go targets; what differs is how
    [maxRetries] is read, the arithmetic of the delay, and what [sleep]
    does with it.  An attempt is observed through its outcome; a run of
    [makeRequest] through the attempts and sleeps it performs and the
    way it ends.  The PHP module has the same loop, but an error class
    it names cannot be loaded, so that other errors reach (or pass) its
    handler; it is modelled on its own below.  The Java module is given
    no run: [RequestHandler.java] names [ApiException], which the
    generator nests in [ErrorHandler] and does not import, so the class
    is not accepted by the compiler. *)

Module Retry.

Inductive Failure : Type :=
| HttpFailure (status : Z)     (* an error that carries a response status *)
| TransportFailure.            (* an error without response *)

Inductive Outcome : Type :=
| Responded
| Failed (error : Failure).

Inductive Event : Type :=
| Attempted (attempt : Z)
| Slept (milliseconds : Z).

Inductive Final : Type :=
| Returned (attempt : Z)                      (* the response of this attempt is returned *)
| Surfaced (attempt : Z) (error : Failure)    (* the error of this attempt is thrown/returned *)
| SleepRejected (attempt delay : Z)           (* the sleep call itself threw *)
| FellThrough (lastError : option Failure).   (* the statement after the loop was reached *)

(** [status >= 400 && status < 500 && status !== 429] on an error with
    a response. *)
Definition isClientError (error : Failure) : bool :=
  match error with
  | HttpFailure status => (400 <=? status)%Z && (status <? 500)%Z && negb (status =? 429)%Z
  | TransportFailure => false
  end.

Section Loop.

Variable maxRetries : Z.
Variable client : Z -> Outcome.          (* the outcome of the n-th attempt *)
Variable delayOf : Z -> Z.               (* the delay computed in the n-th iteration *)
Variable sleep : Z -> option Z.          (* milliseconds slept, or [None] if sleep throws *)

(** The [for] loop over the remaining values of [attempt]. *)
Fixpoint attemptLoop (attempts : list Z) (lastError : option Failure)
  : list Event * Final :=
  match attempts with
  | [] => ([], FellThrough lastError)
  | attempt :: rest =>
      match client attempt with
      | Responded => ([Attempted attempt], Returned attempt)
      | Failed error =>
          if isClientError error then ([Attempted attempt], Surfaced attempt error)
          else if (attempt =? maxRetries)%Z then ([Attempted attempt], Surfaced attempt error)
          else
            let delay := delayOf attempt in
            match sleep delay with
            | None => ([Attempted attempt], SleepRejected attempt delay)
            | Some slept =>
                let '(events, final) := attemptLoop rest (Some error) in
                (Attempted attempt :: Slept slept :: events, final)
            end
      end
  end.

(** [for (attempt = 1; attempt <= maxRetries; attempt++)] *)
Definition run : list Event * Final := attemptLoop (seqZ 1 maxRetries) None.

End Loop.

(** The value of a 64-bit signed integer expression. *)
Definition wrap64 (z : Z) : Z := ((z + 2 ^ 63) mod 2 ^ 64 - 2 ^ 63)%Z.

(** The number of attempts in a run. *)
Definition attemptsMade (events : list Event) : nat :=
  length (List.filter (fun e => match e with Attempted _ => true | Slept _ => false end) events).

(** The delay the specification gives for the n-th attempt. *)
Definition backoff (attempt : Z) : Z := Z.min (1000 * 2 ^ (attempt - 1)) 10000.

(** The events of a run that stops in attempt [k], having started in
    attempt [a]. *)
Definition schedule (delayOf : Z -> Z) (a k : Z) : list Event :=
  flat_map (fun i => [Attempted i; Slept (delayOf i)]) (seqZ a (k - a)) ++ [Attempted k].

(** How a run ends in an attempt with the given outcome. *)
Definition finalOf (attempt : Z) (outcome : Outcome) : Final :=
  match outcome with
  | Responded => Returned attempt
  | Failed error => Surfaced attempt error
  end.

(** An attempt after which the loop goes on. *)
Definition retried (outcome : Outcome) : Prop :=
  exists error, outcome = Failed error /\ isClientError error = false.

End Retry.

(** nodeGenerator.js, lines 303-340: [Math.min(1000 * Math.pow(2,
    attempt - 1), 10000)] is computed on doubles, which hold the powers
    of two and their products by 1000 exactly until they overflow to
    [Infinity], where [Math.min] answers 10000. *)
Module nodeRequestHandler.

Definition delay (attempt : Z) : Z := Z.min (1000 * 2 ^ (attempt - 1)) 10000.

(** [setTimeout] waits for the delay. *)
Definition sleep (ms : Z) : option Z := Some ms.

(** [this.config.maxRetries || 3] *)
Definition effectiveMaxRetries (configured : Z) : Z :=
  if (configured =? 0)%Z then 3%Z else configured.

Definition makeRequest (configured : Z) (client : Z -> Retry.Outcome)
  : list Retry.Event * Retry.Final :=
  let maxRetries := effectiveMaxRetries configured in
  Retry.run maxRetries client delay sleep.

End nodeRequestHandler.

(** The PHP generator, lines 377-490.  [executeRequest] answers a
    failure that carries a response with [throw new ApiException(...)].
    No class of that name can be loaded: the generated
    [ErrorHandler.php] declares it inside the class [ErrorHandler],
    which PHP does not parse, and no other file declares it.  The [new]
    expression therefore raises an [Error], which neither handler
    catches, [catch (\Exception $e)] of [makeRequest] included.  A
    failure whose [hasResponse()] is false is thrown again as a
    [\RuntimeException], which [makeRequest] catches; there
    [$e instanceof ApiException] is false.  A failure object without the
    method [hasResponse] raises an [Error] as well.  The file
    [RequestHandler.php] itself is well-formed: what is described is a
    call of [makeRequest] on an object of its class. *)
Module phpRequestHandler.

Inductive GuzzleFailure : Type :=
| WithResponse (status : Z)     (* [$e->hasResponse()] is true *)
| WithoutResponse               (* [$e->hasResponse()] is false *)
| NoSuchMethod.                 (* the exception class has no [hasResponse] *)

(** The outcome of [$client->request(...)] in an attempt. *)
Inductive Outcome : Type :=
| Responded
| Failed (failure : GuzzleFailure).

Inductive Final : Type :=
| Returned (attempt : Z)          (* the [ApiResponse] of this attempt is returned *)
| Rethrown (attempt : Z)          (* the [\RuntimeException] of this attempt is thrown *)
| Uncaught (attempt : Z)          (* an [Error] left the call in this attempt *)
| FellThrough (thrown : bool).    (* [throw $lastException], which is [null] unless [thrown] *)

(** What [executeRequest] hands to [makeRequest]. *)
Inductive Executed : Type :=
| Response
| RuntimeException
| Error.

Definition executeRequest (outcome : Outcome) : Executed :=
  match outcome with
  | Responded => Response
  | Failed (WithResponse _) => Error            (* new ApiException(...) *)
  | Failed WithoutResponse => RuntimeException
  | Failed NoSuchMethod => Error                (* $e->hasResponse() *)
  end.

(** [pow] and [*] switch to floats when the integer result does not
    fit, and [min] then answers 10000. *)
Definition delay (attempt : Z) : Z := Z.min (1000 * 2 ^ (attempt - 1)) 10000.

Section Loop.

Variable maxRetries : Z.
Variable client : Z -> Outcome.

(** The [for] loop over the remaining values of [$attempt]. *)
Fixpoint attemptLoop (attempts : list Z) (thrown : bool) : list Retry.Event * Final :=
  match attempts with
  | [] => ([], FellThrough thrown)
  | attempt :: rest =>
      match executeRequest (client attempt) with
      | Response => ([Retry.Attempted attempt], Returned attempt)
      | Error => ([Retry.Attempted attempt], Uncaught attempt)
      | RuntimeException =>
          if (attempt =? maxRetries)%Z then ([Retry.Attempted attempt], Rethrown attempt)
          else
            let '(events, final) := attemptLoop rest true in
            (Retry.Attempted attempt :: Retry.Slept (delay attempt) :: events, final)
      end
  end.

Definition makeRequest : list Retry.Event * Final := attemptLoop (seqZ 1 maxRetries) false.

End Loop.

End phpRequestHandler.

(** goGenerator.js, lines 339-369:
    [time.Duration(min(1000*int64(1<<(attempt-1)), 10000)) * time.Millisecond]. *)
Module goRequestHandler.

(** [min(1000*int64(1<<(attempt-1)), 10000)], in 64-bit arithmetic. *)
Definition delay (attempt : Z) : Z :=
  Z.min (Retry.wrap64 (1000 * Retry.wrap64 (2 ^ (attempt - 1)))) 10000.

(** [time.Sleep(time.Duration(delay) * time.Millisecond)]: the duration
    is a 64-bit count of nanoseconds, and [time.Sleep] returns at once
    when it is not positive. *)
Definition sleep (ms : Z) : option Z :=
  let duration := Retry.wrap64 (ms * 1000000) in
  Some (if (duration <=? 0)%Z then 0%Z else (duration / 1000000)%Z).

Definition MakeRequest (maxRetries : Z) (client : Z -> Retry.Outcome)
  : list Retry.Event * Retry.Final :=
  Retry.run maxRetries client delay sleep.

End goRequestHandler.

(** ** Notions of the specification about the canonical model *)

(** [{name}] occurs in the path template; placeholder names are made of
    word characters. *)
Definition hasPlaceholder (e : Endpoint) (name : string) : Prop :=
  name <> "" /\ JS.allChars JS.isWord name = true
  /\ JS.includes (path e) ("{" +:+ name +:+ "}") = true.

(** The invariant of the data model: the path is non-empty, begins with
    [/], and each of its placeholders is a parameter located in the
    path. *)
Definition pathInvariant (e : Endpoint) : Prop :=
  path e <> ""
  /\ JS.startsWith (path e) "/" = true
  /\ forall name, hasPlaceholder e name ->
       exists p, p ∈ parameters e /\ p_name p = Some name /\ p_in p = Some "path".

(** The verbs of the canonical model, and the tags of its
    authentication variants. *)
Definition canonicalVerbs : list string :=
  ["GET"; "POST"; "PUT"; "DELETE"; "PATCH"; "HEAD"; "OPTIONS"].

Definition authTypes : list string :=
  ["none"; "bearer"; "apiKey"; "basic"; "oauth2"].

(** The names of the folders above each leaf request of a Postman item
    tree, outermost first; a folder without a name counts as
    [unnamed]. *)
Fixpoint foldersAbove (folders : list string) (item : postmanParser.Item)
  : list (postmanParser.Item * list string) :=
  match item with
  | postmanParser.mkItem name _ request sub _ =>
      if postmanParser.hasRequest request then [(item, folders)]
      else
        match sub with
        | Some items =>
            flat_map (fun o =>
              match o with
              | Some i => foldersAbove (folders ++ [JS.or_str name "unnamed"]) i
              | None => []
              end) items
        | None => []
        end
  end.

Definition leafFolders (items : list (option postmanParser.Item))
  : list (postmanParser.Item * list string) :=
  flat_map (fun o =>
    match o with
    | Some i => foldersAbove [] i
    | None => []
    end) items.

(** A parameter as the HTML normalizer reads it off a text: named,
    located in the path or in the query, optional and of type string. *)
Definition foundParameter (p : Param) : Prop :=
  (exists name, p_name p = Some name)
  /\ (p_in p = Some "path" \/ p_in p = Some "query")
  /\ p_required p = false
  /\ p_type p = "string".


(** A request that says where it goes: an object whose [url] is a string
    that is not empty, or an object with a [raw] text that is not
    empty. *)
Definition hasLocation (item : postmanParser.Item) : bool :=
  match postmanParser.it_request item with
  | Some (postmanParser.RequestObject request) =>
      match postmanParser.rq_url request with
      | Some (postmanParser.UrlString s) => negb (String.eqb s "")
      | Some (postmanParser.UrlObj u) => JS.truthy_str (postmanParser.u_raw u)
      | None => false
      end
  | _ => false
  end.

(** The shapes on which the extraction of a located request throws: a
    [path] of the [url] object, a [header] of the request (unless
    empty) or a [header] of a saved response that is a string. *)
Definition pathIsString (item : postmanParser.Item) : bool :=
  match postmanParser.it_request item with
  | Some (postmanParser.RequestObject request) =>
      match postmanParser.rq_url request with
      | Some (postmanParser.UrlObj u) =>
          match postmanParser.u_path u with
          | Some (postmanParser.PathString _) => true
          | _ => false
          end
      | _ => false
      end
  | _ => false
  end.

Definition headerIsString (item : postmanParser.Item) : bool :=
  match postmanParser.it_request item with
  | Some (postmanParser.RequestObject request) =>
      match postmanParser.rq_header request with
      | Some (postmanParser.HeaderString s) => negb (String.eqb s "")
      | _ => false
      end
  | _ => false
  end.

Definition responseHeaderIsString (item : postmanParser.Item) : bool :=
  existsb (fun response =>
    match postmanParser.rx_header response with
    | Some (postmanParser.ResponseHeaderString _) => true
    | _ => false
    end) (default [] (postmanParser.it_response item)).

(** The query entries of the [url] of a request. *)
Definition queryEntries (request : postmanParser.Request) : list postmanParser.KeyValue :=
  match postmanParser.rq_url request with
  | Some (postmanParser.UrlObj u) => default [] (postmanParser.u_query u)
  | _ => []
  end.

(** ** Concrete inputs used by the examples below *)

Module Examples.

(** [components.securitySchemes] declares an OAuth2 scheme first and an
    HTTP bearer scheme second. *)
Definition oauthThenBearer : swaggerParser.Api :=
  swaggerParser.mkApi None None
    (Some [("oauth", swaggerParser.mkSecurityScheme (Some "oauth2") None None None None);
           ("token", swaggerParser.mkSecurityScheme (Some "http") (Some "bearer") None None None)])
    (Some []) None None None.

(** A Swagger 2.0 document: its API key scheme is declared under
    [securityDefinitions], and there is no [components]. *)
Definition swagger2ApiKey : swaggerParser.Api :=
  swaggerParser.mkApi None (Some "api.example.com") None (Some []) None None
    (Some [("key", swaggerParser.mkSecurityScheme (Some "apiKey") None (Some "X-API-Key")
                     (Some "header") None)]).

(** A required request body whose only media type carries an example
    but no schema. *)
Definition requiredBodyWithoutSchema : swaggerParser.RequestBodyObject :=
  swaggerParser.mkRequestBodyObject
    (Some [("application/xml", swaggerParser.mkMediaTypeObject None (Some (JStr "<pet/>")))])
    (Some true).

(** A request body whose first media type has the empty string as its
    name and no schema, followed by [application/json] with a schema. *)
Definition emptyMediaTypeName : swaggerParser.RequestBodyObject :=
  swaggerParser.mkRequestBodyObject
    (Some [("", swaggerParser.mkMediaTypeObject None None);
           ("application/json",
            swaggerParser.mkMediaTypeObject
              (Some (swaggerParser.mkSchema (Some "object") None None None None None)) None)])
    (Some true).

(** [paths] with a key that does not begin with a slash, and a key
    whose placeholder is declared on the path item only (which the
    normalizer does not read). *)
Definition emptyOperation : swaggerParser.Operation :=
  swaggerParser.mkOperation None None None None None None None None.

Definition relativePathKey : swaggerParser.Api :=
  swaggerParser.mkApi None None None
    (Some [("pets", [("get", emptyOperation)]);
           ("/pets/{id}", [("get", emptyOperation)])])
    None None None.

(** A stand-in for [new URL] on absolute http(s) URLs, used to run the
    examples: scheme, then a non-empty host without forbidden host code
    points, then the path up to [?] or [#].  Anything else is
    rejected. *)
Definition isForbiddenHostChar (c : ascii) : bool :=
  JS.isSpace c
  || bool_decide (JS.code c ∈ [0; 35; 47; 58; 60; 62; 63; 64; 91; 92; 93; 94; 124]%nat).

Definition endsAuthority (c : ascii) : bool :=
  bool_decide (JS.code c ∈ [35; 47; 63]%nat).

Definition endsPath (c : ascii) : bool :=
  bool_decide (JS.code c ∈ [35; 63]%nat).

Definition httpURLAfter (scheme rest : string) : option URL :=
  let authority := JS.takeWhileChars (fun c => negb (endsAuthority c)) rest in
  let after := JS.dropWhileChars (fun c => negb (endsAuthority c)) rest in
  if String.eqb authority "" then None
  else if negb (JS.allChars (fun c => negb (isForbiddenHostChar c)) authority) then None
  else
    Some (mkURL scheme (JS.toLowerCase authority)
            (if JS.startsWith after "/"
             then JS.takeWhileChars (fun c => negb (endsPath c)) after
             else "/")).

Definition httpURL (s : string) : option URL :=
  if JS.startsWith (JS.toLowerCase s) "https://" then httpURLAfter "https:" (JS.dropChars 8 s)
  else if JS.startsWith (JS.toLowerCase s) "http://" then httpURLAfter "http:" (JS.dropChars 7 s)
  else None.

(** A Postman collection with the same request, [GET /items], in two
    different folders; the second copy also sends an [Authorization]
    and an [X-Trace] header. *)
Definition itemsRequest (headers : list postmanParser.KeyValue) : postmanParser.Item :=
  postmanParser.mkItem (Some "List items") None
    (Some (postmanParser.RequestObject
             (postmanParser.mkRequest
                (Some (postmanParser.UrlObj
                         (postmanParser.mkUrlObject (Some "https://api.example.com/items")
                            (Some (postmanParser.PathArray [postmanParser.SegmentString "items"]))
                            None)))
                (Some "GET") (Some (postmanParser.HeaderArray headers)) None None)))
    None None.

Definition traceHeaders : list postmanParser.KeyValue :=
  [postmanParser.mkKeyValue (Some "Authorization") (Some (JStr "Bearer t")) None None None;
   postmanParser.mkKeyValue (Some "X-Trace") (Some (JStr "1")) None None None].

Definition twoFolders : postmanParser.Collection :=
  postmanParser.mkCollection None None None
    (Some [Some (postmanParser.mkItem (Some "users") None None
                   (Some [Some (itemsRequest [])]) None);
           Some (postmanParser.mkItem (Some "admin") None None
                   (Some [Some (itemsRequest traceHeaders)]) None)]).

(** A Postman request whose path holds the placeholder [{id}]. *)
Definition userById : postmanParser.Collection :=
  postmanParser.mkCollection None None None
    (Some [Some (postmanParser.mkItem (Some "Get user") None
                   (Some (postmanParser.RequestObject
                            (postmanParser.mkRequest
                               (Some (postmanParser.UrlObj
                                        (postmanParser.mkUrlObject
                                           (Some "https://api.example.com/users/{id}")
                                           (Some (postmanParser.PathArray
                                                    [postmanParser.SegmentString "users";
                                                     postmanParser.SegmentString "{id}"]))
                                           None)))
                               (Some "GET") None None None)))
                   None None)]).

(** A document given by the elements each selector finds. *)
Definition documentOf (containing : list (string * string)) (codeBlocks : list string)
  (allText : string) (selected : list (string * list htmlParser.Element)) : htmlParser.Document :=
  htmlParser.mkDocument (JS.prop containing) codeBlocks allText
    (fun selector => default [] (JS.prop selected selector)) "" "" None "".

(** [<code>https://&lt;host&gt;/v1</code>]: the only code block shows a
    URL with a placeholder host. *)
Definition placeholderHost : htmlParser.Document :=
  documentOf [] ["https://<host>/v1"]
    "https://<host>/v1https://<host>/v1https://<host>/v1"
    [("code", [htmlParser.mkElement "https://<host>/v1" [] (Some "https://<host>/v1")])].

(** [<h2>GET /users</h2><code>get /users</code><code>POST /users</code>] *)
Definition usersTwice : htmlParser.Document :=
  documentOf [] ["get /users"; "POST /users"]
    "GET /usersget /usersPOST /users"
    [("h1, h2, h3, h4, h5, h6",
      [htmlParser.mkElement "GET /users" ["get /users"; "POST /users"]
         (Some "GET /usersget /usersPOST /users")]);
     ("code",
      [htmlParser.mkElement "get /users" ["GET /users"; "POST /users"]
         (Some "GET /usersget /usersPOST /users");
       htmlParser.mkElement "POST /users" ["GET /users"; "get /users"]
         (Some "GET /usersget /usersPOST /users")])].

(** [<code>GET /items/{i.d}</code>]: cleaning the path removes the dot. *)
Definition dottedPlaceholder : htmlParser.Document :=
  documentOf [] ["GET /items/{i.d}"] "GET /items/{i.d}"
    [("code", [htmlParser.mkElement "GET /items/{i.d}" [] (Some "GET /items/{i.d}")])].

(** Canonical models handed to the emitters: [GET /users?limit=],
    [PUT /users/{id}?notify=] with a body whose summary shows a call,
    and a model with both. *)
Definition stringParam (name location : string) : Param :=
  mkParam (Some name) (Some location) false "string" "" None None None.

Definition listUsers : Endpoint :=
  mkEndpoint "GET" "/users" "https://api.example.com/users" "List users" ""
    "listUsers" [stringParam "limit" "query"] None ∅ [] [].

Definition updateUser : Endpoint :=
  mkEndpoint "PUT" "/users/{id}" "https://api.example.com/users/{id}"
    "Same as save()" "" "updateUser"
    [stringParam "id" "path"; stringParam "notify" "query"]
    (Some (mkBody true "application/json" (mkSchemaSketch (Some "object") (JObj []) (Some []) None)))
    ∅ [] [].

Definition usersApi : ParsedData :=
  mkParsedData "https://api.example.com" authNone [listUsers; updateUser]
    "Users API" "1.0.0" "".

(** A model without endpoints. *)
Definition noEndpoints : ParsedData :=
  mkParsedData "https://api.example.com" authNone [] "Empty API" "1.0.0" "".

(** A Postman request whose [url] object has no [raw] text. *)
Definition requestWithoutRaw : postmanParser.Request :=
  postmanParser.mkRequest
    (Some (postmanParser.UrlObj
             (postmanParser.mkUrlObject None
                (Some (postmanParser.PathArray [postmanParser.SegmentString "items"])) None)))
    (Some "GET") None None None.

Definition itemWithoutRaw : postmanParser.Item :=
  postmanParser.mkItem (Some "List items") None
    (Some (postmanParser.RequestObject requestWithoutRaw)) None None.

(** A located request whose [path] is a string, as the collection
    format allows. *)
Definition itemWithStringPath : postmanParser.Item :=
  postmanParser.mkItem (Some "List items") None
    (Some (postmanParser.RequestObject
             (postmanParser.mkRequest
                (Some (postmanParser.UrlObj
                         (postmanParser.mkUrlObject (Some "https://api.example.com/items")
                            (Some (postmanParser.PathString "items")) None)))
                (Some "GET") None None None)))
    None None.

(** A request with two query entries and a header. *)
Definition searchUsers : postmanParser.Collection :=
  postmanParser.mkCollection None None None
    (Some [Some (postmanParser.mkItem (Some "Search users") None
                   (Some (postmanParser.RequestObject
                            (postmanParser.mkRequest
                               (Some (postmanParser.UrlObj
                                        (postmanParser.mkUrlObject
                                           (Some "https://api.example.com/users?role=admin&page=2")
                                           (Some (postmanParser.PathArray
                                                    [postmanParser.SegmentString "users"]))
                                           (Some [postmanParser.mkKeyValue (Some "role")
                                                    (Some (JStr "admin")) None None None;
                                                  postmanParser.mkKeyValue (Some "page")
                                                    (Some (JStr "2")) None (Some true) None]))))
                               (Some "GET")
                               (Some (postmanParser.HeaderArray
                                        [postmanParser.mkKeyValue (Some "X-Trace")
                                           (Some (JStr "1")) None None None]))
                               None None)))
                   None None)]).

(** The request without [raw], once in the folder [users] and once in
    the folder [admin]. *)
Definition twoFoldersWithoutRaw : postmanParser.Collection :=
  postmanParser.mkCollection None None None
    (Some [Some (postmanParser.mkItem (Some "users") None None
                   (Some [Some itemWithoutRaw]) None);
           Some (postmanParser.mkItem (Some "admin") None None
                   (Some [Some itemWithoutRaw]) None)]).

(** An operation with a path, a query and a header parameter and a JSON
    request body. *)
Definition objectSchema : swaggerParser.Schema :=
  swaggerParser.mkSchema (Some "object") None None None None None.

Definition operationParameter (name location : string) : swaggerParser.ParameterObject :=
  swaggerParser.mkParameterObject (Some name) (Some location) None None None None.

Definition updatePet : swaggerParser.Operation :=
  swaggerParser.mkOperation (Some "Update a pet") None None
    (Some [operationParameter "id" "path"; operationParameter "X-Trace" "header";
           operationParameter "notify" "query"])
    (Some (swaggerParser.mkRequestBodyObject
             (Some [("application/json",
                     swaggerParser.mkMediaTypeObject (Some objectSchema) None)])
             (Some true)))
    None None None.

(** An element whose text names the path first and the verb last. *)
Definition verbLast : htmlParser.Element :=
  htmlParser.mkElement "/users GET" [] None.

(** A server that answers every attempt with status 500, and one
    that answers 503 twice and then 404. *)
Definition always500 (attempt : Z) : Retry.Outcome :=
  Retry.Failed (Retry.HttpFailure 500).

Definition busyThenMissing (attempt : Z) : Retry.Outcome :=
  if (attempt <? 3)%Z then Retry.Failed (Retry.HttpFailure 503)
  else Retry.Failed (Retry.HttpFailure 404).

(** The same two servers as the PHP client sees them: every attempt
    fails with a response of status 500; two attempts fail without
    response and every later one with a response of status 503. *)
Definition serverError (attempt : Z) : phpRequestHandler.Outcome :=
  phpRequestHandler.Failed (phpRequestHandler.WithResponse 500).

Definition offlineThenBusy (attempt : Z) : phpRequestHandler.Outcome :=
  if (attempt <? 3)%Z then phpRequestHandler.Failed phpRequestHandler.WithoutResponse
  else phpRequestHandler.Failed (phpRequestHandler.WithResponse 503).

End Examples.

(** * Properties *)

(** ** Strings *)

Section StringFacts.

#[local] Arguments String.append !s1 s2 /.

Lemma append_assoc (a b c : string) : (a +:+ b) +:+ c = a +:+ (b +:+ c).
Proof. induction a as [|x a IH]; simpl; [reflexivity | f_equal; exact IH]. Qed.

Lemma append_empty_r (a : string) : a +:+ "" = a.
Proof. induction a as [|x a IH]; simpl; [reflexivity | f_equal; exact IH]. Qed.

Lemma length_append (a b : string) :
  String.length (a +:+ b) = String.length a + String.length b.
Proof. induction a as [|x a IH]; simpl; [reflexivity | f_equal; exact IH]. Qed.

Lemma prefix_empty (s : string) : String.prefix "" s = true.
Proof. destruct s; reflexivity. Qed.

Lemma prefix_append (p s : string) : String.prefix p (p +:+ s) = true.
Proof.
  induction p as [|x p IH]; simpl; [apply prefix_empty|].
  destruct (ascii_dec x x) as [_|Hne]; [exact IH | contradiction].
Qed.

Lemma includes_prefix (s p : string) : String.prefix p s = true -> JS.includes s p = true.
Proof. intros H. destruct s; cbn [JS.includes]; rewrite H; reflexivity. Qed.

Lemma includes_skip (a s p : string) :
  JS.includes s p = true -> JS.includes (a +:+ s) p = true.
Proof.
  intros H. induction a as [|x a IH]; simpl; [exact H|].
  cbn [JS.includes]. rewrite IH. apply orb_true_r.
Qed.

(** A string includes whatever stands in its middle. *)
Lemma includes_middle (a p b : string) : JS.includes (a +:+ p +:+ b) p = true.
Proof. apply includes_skip, includes_prefix, prefix_append. Qed.

Lemma prefix_append_l (p s b : string) :
  String.prefix p s = true -> String.prefix p (s +:+ b) = true.
Proof.
  revert s. induction p as [|y p IHp]; intros s H.
  - apply prefix_empty.
  - destruct s as [|z s]; [discriminate H|]. simpl in *.
    destruct (ascii_dec y z); [now apply IHp | discriminate H].
Qed.

Lemma includes_append_l (a b p : string) :
  JS.includes a p = true -> JS.includes (a +:+ b) p = true.
Proof.
  induction a as [|x a IH].
  - cbn [JS.includes]. rewrite orb_false_r. intros H.
    apply includes_prefix. destruct p; [apply prefix_empty | discriminate H].
  - cbn [JS.includes]. intros [H|H]%orb_true_iff.
    + apply includes_prefix, prefix_append_l, H.
    + change (String x a +:+ b) with (String x (a +:+ b)). cbn [JS.includes].
      rewrite (IH H). apply orb_true_r.
Qed.

Lemma allChars_append (f : ascii -> bool) (a b : string) :
  JS.allChars f (a +:+ b) = JS.allChars f a && JS.allChars f b.
Proof.
  induction a as [|x a IH]; simpl; [reflexivity|].
  rewrite IH. now rewrite andb_assoc.
Qed.

Lemma allChars_mapChars (f : ascii -> bool) (g : ascii -> ascii) (s : string) :
  (forall c, f (g c) = true) -> JS.allChars f (JS.mapChars g s) = true.
Proof.
  intros H. induction s as [|x s IH]; simpl; [reflexivity|].
  now rewrite H, IH.
Qed.

Lemma allChars_filterChars (f : ascii -> bool) (s : string) :
  JS.allChars f (JS.filterChars f s) = true.
Proof.
  induction s as [|x s IH]; simpl; [reflexivity|].
  destruct (f x) eqn:Hx; simpl; [now rewrite Hx, IH | exact IH].
Qed.

Lemma allChars_takeWhile (f : ascii -> bool) (s : string) :
  JS.allChars f (JS.takeWhileChars f s) = true.
Proof.
  induction s as [|x s IH]; simpl; [reflexivity|].
  destruct (f x) eqn:Hx; simpl; [now rewrite Hx, IH | reflexivity].
Qed.

Lemma length_mapChars (g : ascii -> ascii) (s : string) :
  String.length (JS.mapChars g s) = String.length s.
Proof. induction s as [|x s IH]; simpl; [reflexivity | now rewrite IH]. Qed.

Lemma allChars_weaken (f g : ascii -> bool) (s : string) :
  (forall c, f c = true -> g c = true) ->
  JS.allChars f s = true -> JS.allChars g s = true.
Proof.
  intros H. induction s as [|x s IH]; simpl; [reflexivity|].
  intros [Hx Hs]%andb_true_iff. now rewrite (H x Hx), IH.
Qed.

Lemma append_cons (c : ascii) (a b : string) : String c a +:+ b = String c (a +:+ b).
Proof. reflexivity. Qed.

Lemma append_nil (b : string) : "" +:+ b = b.
Proof. reflexivity. Qed.

Lemma prefix_refl (s : string) : String.prefix s s = true.
Proof. rewrite <- (append_empty_r s) at 2. apply prefix_append. Qed.

Lemma prefix_cons (c : ascii) (p s : string) :
  String.prefix p s = true -> String.prefix (String c p) (String c s) = true.
Proof. intros H. simpl. destruct (ascii_dec c c); [exact H | contradiction]. Qed.

Lemma prefix_cancel (a p s : string) :
  String.prefix p s = true -> String.prefix (a +:+ p) (a +:+ s) = true.
Proof.
  intros H. induction a as [|x a IH]; [exact H|].
  rewrite !append_cons. apply prefix_cons, IH.
Qed.

Lemma includes_cons (c : ascii) (s p : string) :
  JS.includes s p = true -> JS.includes (String c s) p = true.
Proof. intros H. cbn [JS.includes]. rewrite H. apply orb_true_r. Qed.

(** A string without the character [c] is one that does not include
    the one-character string [c]. *)
Lemma includes_char (c : ascii) (s : string) :
  JS.includes s (String c "") = false ->
  JS.allChars (fun x => negb (Ascii.eqb x c)) s = true.
Proof.
  induction s as [|x s IH]; [reflexivity|].
  cbn [JS.includes JS.allChars]. intros [Hp Hs]%orb_false_iff.
  rewrite (IH Hs), andb_true_r.
  simpl in Hp. destruct (ascii_dec c x) as [->|Hne].
  - destruct s; discriminate Hp.
  - apply negb_true_iff, Ascii.eqb_neq. congruence.
Qed.

Lemma allChars_concat (f : ascii -> bool) (sep : string) (l : list string) :
  JS.allChars f sep = true ->
  Forall (fun s => JS.allChars f s = true) l ->
  JS.allChars f (JS.join sep l) = true.
Proof.
  intros Hsep Hl. unfold JS.join.
  induction Hl as [|x l Hx Hl IH]; [reflexivity|].
  destruct l as [|y l]; [exact Hx|].
  change (String.concat sep (x :: y :: l)) with (x +:+ sep +:+ String.concat sep (y :: l)).
  now rewrite !allChars_append, Hx, Hsep, IH.
Qed.

(** *** [String.prototype.replace] with a string pattern *)

Lemma splitAtFirst_fresh (c d : ascii) (a b : string) :
  JS.allChars (fun x => negb (Ascii.eqb x c)) a = true ->
  JS.splitAtFirst (a +:+ String c (String d b)) (String c (String d ""))
  = Some (a, b).
Proof.
  induction a as [|x a IH]; intros Ha.
  - rewrite append_nil. cbn [JS.splitAtFirst].
    assert (String.prefix (String c (String d "")) (String c (String d b)) = true) as ->.
    { apply prefix_cons, prefix_cons. apply prefix_empty. }
    reflexivity.
  - cbn [JS.allChars] in Ha. apply andb_true_iff in Ha as [Hx Ha].
    rewrite append_cons. cbn [JS.splitAtFirst].
    assert (String.prefix (String c (String d "")) (String x (a +:+ String c (String d b))) = false) as ->.
    { simpl. destruct (ascii_dec c x) as [->|Hne]; [|reflexivity].
      rewrite Ascii.eqb_refl in Hx. discriminate Hx. }
    now rewrite (IH Ha).
Qed.

Lemma expandReplacement_plain (r matched before after : string) :
  JS.allChars (fun x => negb (Ascii.eqb x "$")) r = true ->
  JS.expandReplacement r matched before after = r.
Proof.
  induction r as [|x r IH]; [reflexivity|].
  cbn [JS.allChars JS.expandReplacement]. intros [Hx Hr]%andb_true_iff.
  apply negb_true_iff in Hx. rewrite Hx. now rewrite (IH Hr).
Qed.

(** The first [()] of a text is replaced, and it is the one that
    follows a stretch without opening parenthesis. *)
Lemma replace_first_parens (a b r : string) :
  JS.allChars (fun x => negb (Ascii.eqb x "(")) a = true ->
  JS.replace (a +:+ "()" +:+ b) "()" r
  = a +:+ JS.expandReplacement r "()" a b +:+ b.
Proof.
  intros Ha. unfold JS.replace.
  change ("()" +:+ b) with (String "(" (String ")" b)).
  now rewrite (splitAtFirst_fresh "(" ")" a b Ha).
Qed.

End StringFacts.

(** Strings built by appending: literals are read character by
    character, the other pieces as they stand. *)
Ltac spell := rewrite ?append_assoc; repeat rewrite ?append_cons, ?append_nil.

Ltac same_start :=
  repeat first
    [ apply prefix_empty | apply prefix_refl | apply prefix_append
    | apply prefix_cons | apply prefix_cancel ].

Ltac find_inside :=
  first
    [ apply includes_prefix; solve [same_start]
    | apply includes_cons; find_inside
    | apply includes_skip; find_inside ].

(** ** OpenAPI/Swagger normalizer *)

(** Case analysis on the leading character of [t], one bit at a time;
    the branches in which both sides have reduced to the same value are
    closed on the way. *)
Ltac split_character t :=
  let c := fresh "c" in
  destruct t as [|c t];
  [ reflexivity
  | destruct c as [b0 b1 b2 b3 b4 b5 b6 b7];
    destruct b0; try reflexivity; destruct b1; try reflexivity;
    destruct b2; try reflexivity; destruct b3; try reflexivity;
    destruct b4; try reflexivity; destruct b5; try reflexivity;
    destruct b6; try reflexivity; destruct b7; try reflexivity ].

Section SwaggerFacts.
Import swaggerParser.

(** The [switch] of [extractAuthMethod] with its cases told apart by
    string comparison. *)
Lemma switchScheme_by_type s :
  switchScheme s
  = match ss_type s with
    | Some t =>
        if String.eqb t "http" then
          if bool_decide (ss_scheme s = Some "bearer") then
            Some (mkAuthMethod "bearer" (Some "Authorization") None (ss_description s))
          else if bool_decide (ss_scheme s = Some "basic") then
            Some (mkAuthMethod "basic" (Some "Authorization") None (ss_description s))
          else None
        else if String.eqb t "apiKey" then
          Some (mkAuthMethod "apiKey" (ss_name s)
                  (Some (JS.or_str (ss_in s) "header")) (ss_description s))
        else if String.eqb t "oauth2" then
          Some (mkAuthMethod "oauth2" (Some "Authorization") None (ss_description s))
        else None
    | None => None
    end.
Proof.
  unfold switchScheme. destruct (ss_type s) as [t|]; [|reflexivity].
  repeat split_character t.
Qed.

Lemma type_test s (k : string) :
  bool_decide (ss_type s = Some k)
  = match ss_type s with Some t => String.eqb t k | None => false end.
Proof.
  destruct (ss_type s) as [t|]; [|reflexivity].
  destruct (String.eqb_spec t k) as [->|Hne].
  - now apply bool_decide_eq_true.
  - apply bool_decide_eq_false. congruence.
Qed.

Lemma switchScheme_unrecognized s :
  recognized s = false -> switchScheme s = None.
Proof.
  rewrite switchScheme_by_type.
  unfold recognized, isBearer, isBasic, isApiKey, isOAuth2. rewrite !type_test.
  destruct (ss_type s) as [t|]; [|reflexivity].
  destruct (String.eqb t "http"), (String.eqb t "apiKey"), (String.eqb t "oauth2");
    simpl; intros Hr; repeat case_bool_decide; simpl in *; try discriminate Hr; reflexivity.
Qed.

Lemma switchScheme_recognized s :
  recognized s = true ->
  exists a, switchScheme s = Some a
            /\ am_type a = kindName s
            /\ am_description a = ss_description s.
Proof.
  rewrite switchScheme_by_type.
  unfold recognized, kindName, isBearer, isBasic, isApiKey, isOAuth2. rewrite !type_test.
  destruct (ss_type s) as [t|]; [|discriminate].
  destruct (String.eqb_spec t "http") as [->|H1]; simpl.
  - intros Hr. repeat case_bool_decide; simpl in *; try discriminate Hr;
      eexists; (split; [reflexivity | split; reflexivity]).
  - destruct (String.eqb_spec t "apiKey") as [->|H2]; simpl.
    + intros _. eexists; (split; [reflexivity | split; reflexivity]).
    + destruct (String.eqb_spec t "oauth2") as [->|H3]; simpl; [|discriminate].
      intros _. eexists; (split; [reflexivity | split; reflexivity]).
Qed.
Lemma scanSchemes_skip pre rest :
  Forall (fun e : string * SecurityScheme => recognized e.2 = false) pre ->
  scanSchemes (pre ++ rest) = scanSchemes rest.
Proof.
  induction 1 as [|[k s] pre Hs _ IH]; [reflexivity|].
  simpl. now rewrite (switchScheme_unrecognized s Hs).
Qed.

End SwaggerFacts.

Section SwaggerAuth.
Import swaggerParser.

(** C4 (as stated, refuted): on a document that declares an OAuth2
    scheme before an HTTP bearer scheme the normalizer answers [oauth2],
    whereas a scan in the priority order http-bearer, http-basic, apiKey,
    oauth2 answers [bearer]. *)
Lemma extractAuthMethod_not_by_priority :
  am_type (extractAuthMethod Examples.oauthThenBearer) = "oauth2"
  /\ am_type (authMethodByPriority Examples.oauthThenBearer) = "bearer"
  /\ extractAuthMethod Examples.oauthThenBearer
     <> authMethodByPriority Examples.oauthThenBearer.
Proof.
  split; [reflexivity | split; [reflexivity |]].
  intros H. apply (f_equal am_type) in H. vm_compute in H. discriminate H.
Qed.

(** C4 (amended): only [components.securitySchemes] is read.  Its
    schemes are scanned in the order in which [Object.entries]
    enumerates them; the result is the variant of the first scheme that
    is http-bearer, http-basic, apiKey or oauth2, whatever kinds follow
    it, and it is [none] when no scheme there is of these kinds.  What a
    document declares under [securityDefinitions] has no influence: a
    document without [components.securitySchemes] yields [none]. *)
Theorem extractAuthMethod_first_recognized (api : Api) :
  (forall pre k s post,
      default [] (api_securitySchemes api) = pre ++ (k, s) :: post ->
      Forall (fun e : string * SecurityScheme => recognized e.2 = false) pre ->
      recognized s = true ->
      switchScheme s = Some (extractAuthMethod api)
      /\ am_type (extractAuthMethod api) = kindName s
      /\ am_description (extractAuthMethod api) = ss_description s)
  /\ (Forall (fun e : string * SecurityScheme => recognized e.2 = false)
        (default [] (api_securitySchemes api)) ->
      extractAuthMethod api = authNone)
  /\ (api_securitySchemes api = None -> extractAuthMethod api = authNone)
  /\ (forall definitions,
        extractAuthMethod
          (mkApi (api_servers api) (api_host api) (api_securitySchemes api) (api_paths api)
             (api_security api) (api_info api) definitions)
        = extractAuthMethod api).
Proof.
  unfold extractAuthMethod. split; [|split; [|split]].
  - intros pre k s post -> Hpre Hs.
    rewrite (scanSchemes_skip _ _ Hpre). simpl.
    destruct (switchScheme_recognized s Hs) as (a & -> & Ht & Hd).
    auto.
  - intros Hall.
    rewrite <- (app_nil_r (default [] (api_securitySchemes api))).
    now rewrite (scanSchemes_skip _ [] Hall).
  - intros ->. reflexivity.
  - intros definitions. reflexivity.
Qed.

Lemma extractAuthMethod_first_recognized_witness :
  am_type (extractAuthMethod Examples.oauthThenBearer) = "oauth2"
  /\ extractAuthMethod (mkApi None None None None None None None) = authNone
  /\ (exists name scheme,
        api_securityDefinitions Examples.swagger2ApiKey = Some [(name, scheme)]
        /\ isApiKey scheme = true)
  /\ extractAuthMethod Examples.swagger2ApiKey = authNone.
Proof.
  split; [|split; [|split]].
  - destruct (extractAuthMethod_first_recognized Examples.oauthThenBearer) as [H _].
    specialize (H [] "oauth"
                (mkSecurityScheme (Some "oauth2") None None None None)
                [("token", mkSecurityScheme (Some "http") (Some "bearer") None None None)]
                eq_refl (List.Forall_nil _) eq_refl).
    destruct H as (_ & Ht & _).
    exact Ht.
  - destruct (extractAuthMethod_first_recognized (mkApi None None None None None None None))
      as (_ & H & _).
    apply H. constructor.
  - eexists _, _. split; reflexivity.
  - destruct (extractAuthMethod_first_recognized Examples.swagger2ApiKey) as (_ & _ & H & _).
    apply H. reflexivity.
Defined.

End SwaggerAuth.

Section SwaggerBody.
Import swaggerParser.

Lemma firstMediaType_head {A} (mt : string) (mo : A) rest :
  mt <> "" -> firstMediaType ((mt, mo) :: rest) = mt.
Proof.
  intros Hne. unfold firstMediaType. simpl.
  destruct (String.eqb_spec mt ""); [contradiction | reflexivity].
Qed.

Lemma prop_head {A} (k : string) (v : A) rest : JS.prop ((k, v) :: rest) k = Some v.
Proof. simpl. now rewrite String.eqb_refl. Qed.

Lemma prop_skip {A} (k k' : string) (v : A) rest :
  k' <> k -> JS.prop ((k', v) :: rest) k = JS.prop rest k.
Proof. intros Hne. simpl. now destruct (String.eqb_spec k' k). Qed.

(** C10 (as stated, refuted): the first listed media type of this
    required request body has no schema, and the normalizer returns a
    descriptor all the same: the name of that media type is the empty
    string, for which the code reads the entry [application/json]
    instead. *)
Lemma extractRequestBody_reads_default_media_type :
  (exists mo rest,
      rb_content Examples.emptyMediaTypeName = Some (("", mo) :: rest)
      /\ mt_schema mo = None)
  /\ rb_required Examples.emptyMediaTypeName = Some true
  /\ (exists body,
        extractRequestBody (Some Examples.emptyMediaTypeName) = Some body
        /\ b_mediaType body = "application/json")
  /\ extractRequestBody (Some Examples.emptyMediaTypeName) <> None.
Proof.
  split; [eexists _, _; split; reflexivity|].
  split; [reflexivity|].
  split; [eexists; split; reflexivity | discriminate].
Qed.

(** C10 (amended): when the first listed media type of the declared
    content has a name that is not empty and no schema, or when no
    content is listed at all, the request-body descriptor is [null],
    whatever the [required] flag of the source says.  When the first
    listed name is the empty string, the entry [application/json]
    decides instead: the descriptor is [null] exactly when the content
    has no such entry or that entry has no schema. *)
Theorem extractRequestBody_null_without_schema
  (required : option bool) (mt : string) (mo : MediaTypeObject)
  (rest : list (string * MediaTypeObject)) :
  mt <> "" ->
  mt_schema mo = None ->
  extractRequestBody (Some (mkRequestBodyObject (Some ((mt, mo) :: rest)) required)) = None
  /\ extractRequestBody (Some (mkRequestBodyObject (Some []) required)) = None
  /\ extractRequestBody (Some (mkRequestBodyObject None required)) = None
  /\ (forall unnamed,
        extractRequestBody
          (Some (mkRequestBodyObject (Some (("", unnamed) :: rest)) required)) = None
        <-> JS.prop rest "application/json" ≫= mt_schema = None).
Proof.
  intros Hne Hs. split; [|split; [reflexivity | split; [reflexivity|]]].
  - unfold extractRequestBody. simpl rb_content. simpl default.
    rewrite (firstMediaType_head mt mo rest Hne), prop_head. simpl.
    now rewrite Hs.
  - intros unnamed. unfold extractRequestBody. simpl rb_content. simpl default.
    change (firstMediaType (("", unnamed) :: rest)) with "application/json".
    cbv zeta. rewrite !(prop_skip "application/json" "" unnamed rest) by discriminate.
    destruct (JS.prop rest "application/json" ≫= mt_schema); cbn; split; congruence.
Qed.

Lemma extractRequestBody_null_without_schema_witness :
  rb_required Examples.requiredBodyWithoutSchema = Some true
  /\ extractRequestBody (Some Examples.requiredBodyWithoutSchema) = None.
Proof.
  split; [reflexivity|].
  refine (proj1 (extractRequestBody_null_without_schema (Some true) "application/xml"
            (mkMediaTypeObject None (Some (JStr "<pet/>"))) [] _ _));
    [discriminate | reflexivity].
Defined.

End SwaggerBody.

(** ** Postman normalizer *)

Section PostmanFacts.
Import postmanParser.

Variable newURL : string -> option URL.

(** Induction on an item tree that reaches the items of a folder. *)
Lemma Item_nested_ind (P : Item -> Prop) :
  (forall name description request sub response,
      (forall items, sub = Some items ->
                     Forall (fun o => forall i, o = Some i -> P i) items) ->
      P (mkItem name description request sub response)) ->
  forall i, P i.
Proof.
  intros step.
  fix self 1.
  intros [name description request sub response].
  apply step.
  assert (Hall : match sub with
                 | Some items0 => Forall (fun o => forall i, o = Some i -> P i) items0
                 | None => True
                 end).
  { destruct sub as [items0|]; [|exact I].
    induction items0 as [|o items0 IH]; constructor; [|exact IH].
    destruct o as [i0|]; intros i Hi; [|discriminate Hi].
    injection Hi as <-. apply self. }
  intros items Heq. destruct sub as [items0|]; [|discriminate Heq].
  injection Heq as <-. exact Hall.
Qed.

Lemma allResults_app {A B} (f : A -> Result B) (l l' : list A) :
  allResults f (l ++ l')
  = (found <- allResults f l ;; found' <- allResults f l' ;; Ok (found ++ found')).
Proof.
  induction l as [|a l IH]; cbn [app allResults bindResult].
  - now destruct (allResults f l').
  - destruct (f a) as [b|m]; cbn [bindResult]; [|reflexivity].
    rewrite IH. destruct (allResults f l) as [bs|m]; cbn [bindResult]; [|reflexivity].
    now destruct (allResults f l').
Qed.

(** When every element has a result, what is kept of the results is
    what is kept of the elements. *)
Lemma allResults_returned {A B} (f : A -> Result (option B)) (l : list A) found :
  allResults f l = Ok found ->
  omap id found = omap (fun a => returned (f a)) l
  /\ Forall (fun a => exists r, f a = Ok r) l.
Proof.
  revert found. induction l as [|a l IH]; intros found; cbn [allResults bindResult].
  - intros [= <-]. split; [reflexivity | constructor].
  - destruct (f a) as [b|m] eqn:Ha; cbn [bindResult]; [|discriminate].
    destruct (allResults f l) as [bs|m]; cbn [bindResult]; [|discriminate].
    intros [= <-]. destruct (IH bs eq_refl) as [Hkept Hall].
    split; [|constructor; eauto].
    cbn [omap list_omap]. rewrite Ha. cbn [returned id]. now rewrite <- Hkept.
Qed.

Lemma processItems_unfold_loop parentPath items endpoints :
  (fix loop (items : list (option Item)) (endpoints : list Endpoint) :=
     match items with
     | [] => Ok endpoints
     | None :: rest => loop rest endpoints
     | Some item :: rest =>
         match processItem newURL parentPath item endpoints with
         | Ok endpoints => loop rest endpoints
         | Throw message => Throw message
         end
     end) items endpoints
  = processItems newURL items parentPath endpoints.
Proof.
  revert endpoints. induction items as [|[i|] items IH]; intros endpoints; simpl; auto.
  destruct (processItem newURL parentPath i endpoints); simpl; auto.
Qed.

Lemma processItems_leaves_aux items parentPath :
  Forall (fun o => forall i, o = Some i ->
            forall pp endpoints,
              processItem newURL pp i endpoints
              = (found <- allResults (endpointOfLeaf newURL) (leavesOfItem pp i) ;;
                 Ok (endpoints ++ omap id found))) items ->
  forall endpoints,
    processItems newURL items parentPath endpoints
    = (found <- allResults (endpointOfLeaf newURL) (leafRequests items parentPath) ;;
       Ok (endpoints ++ omap id found)).
Proof.
  induction 1 as [|o items Ho _ IH]; intros endpoints; cbn [processItems].
  - cbn. now rewrite app_nil_r.
  - destruct o as [i|].
    + rewrite (Ho i eq_refl). unfold leafRequests. cbn [flat_map].
      rewrite allResults_app.
      destruct (allResults (endpointOfLeaf newURL) (leavesOfItem parentPath i)) as [found|m];
        cbn [bindResult]; [|reflexivity].
      rewrite IH. unfold leafRequests.
      destruct (allResults (endpointOfLeaf newURL) _) as [found'|m];
        cbn [bindResult]; [|reflexivity].
      now rewrite omap_app, app_assoc.
    + rewrite IH. reflexivity.
Qed.

Lemma processItem_leaves item :
  forall parentPath endpoints,
    processItem newURL parentPath item endpoints
    = (found <- allResults (endpointOfLeaf newURL) (leavesOfItem parentPath item) ;;
       Ok (endpoints ++ omap id found)).
Proof.
  induction item as [name description request sub response IH] using Item_nested_ind.
  intros parentPath endpoints. cbn [processItem leavesOfItem].
  destruct (hasRequest request).
  - cbn [allResults bindResult]. unfold endpointOfLeaf at 1. cbn [fst snd].
    destruct (extractEndpointFromRequest newURL _ parentPath) as [[e|]|m];
      cbn [bindResult omap list_omap id]; [reflexivity | now rewrite app_nil_r | reflexivity].
  - destruct sub as [items|]; [|cbn; now rewrite app_nil_r].
    rewrite processItems_unfold_loop.
    apply (processItems_leaves_aux items _ (IH items eq_refl)).
Qed.

(** The array returned by [extractEndpoints] is the sequence of the
    endpoints of all leaf requests, in document order: nothing is
    compared with what was pushed before.  The call throws when the
    extraction of one leaf request does. *)
Lemma extractEndpoints_leaves collection :
  extractEndpoints newURL collection
  = (found <- allResults (endpointOfLeaf newURL)
               (leafRequests (default [] (c_item collection)) "") ;;
     Ok (omap id found)).
Proof.
  unfold extractEndpoints. destruct (c_item collection) as [items|]; [|reflexivity].
  cbn [default]. rewrite (processItems_leaves_aux items ""); [reflexivity|].
  apply Forall_forall. intros o _ i _ pp endpoints. apply processItem_leaves.
Qed.

Lemma extractEndpoints_returned collection endpoints :
  extractEndpoints newURL collection = Ok endpoints ->
  endpoints
  = omap (fun leaf => returned (endpointOfLeaf newURL leaf))
      (leafRequests (default [] (c_item collection)) "")
  /\ Forall (fun leaf => exists r, endpointOfLeaf newURL leaf = Ok r)
       (leafRequests (default [] (c_item collection)) "").
Proof.
  rewrite extractEndpoints_leaves.
  destruct (allResults _ _) as [found|m] eqn:Hfound; cbn [bindResult]; [|discriminate].
  intros [= <-]. exact (allResults_returned _ _ _ Hfound).
Qed.

Lemma omap_lookup_two {A B} (f : A -> option B) (l : list A) i j x y x' y' :
  l !! i = Some x -> l !! j = Some y -> i < j ->
  f x = Some x' -> f y = Some y' ->
  exists i' j', i' < j' /\ omap f l !! i' = Some x' /\ omap f l !! j' = Some y'.
Proof.
  intros Hi Hj Hlt Hx Hy.
  apply list_elem_of_split_length in Hi as (l1 & l2 & -> & Hl1).
  rewrite lookup_app_r in Hj by lia.
  destruct (j - length l1) as [|k] eqn:Hk; [lia|]. simpl in Hj.
  apply list_elem_of_split_length in Hj as (l3 & l4 & -> & Hl3).
  exists (length (omap f l1)), (length (omap f l1) + S (length (omap f l3))).
  split; [lia|].
  rewrite !omap_app. simpl. rewrite Hx. rewrite omap_app. simpl. rewrite Hy.
  split.
  - rewrite lookup_app_r by lia. now rewrite Nat.sub_diag.
  - rewrite lookup_app_r by lia.
    replace (length (omap f l1) + S (length (omap f l3)) - length (omap f l1))
      with (S (length (omap f l3))) by lia.
    simpl. rewrite lookup_app_r by lia. now rewrite Nat.sub_diag.
Qed.

Lemma startsWith_slash_fix p :
  JS.startsWith (if JS.startsWith p "/" then p else "/" +:+ p) "/" = true.
Proof.
  destruct (JS.startsWith p "/") eqn:H; [exact H |].
  clear H. destruct p; reflexivity.
Qed.

Lemma startsWith_nonempty s : JS.startsWith s "/" = true -> s <> "".
Proof. intros H ->. discriminate H. Qed.

(** What an endpoint built by [extractEndpointFromRequest] looks like. *)
Lemma extractEndpointFromRequest_shape item parentPath e :
  extractEndpointFromRequest newURL item parentPath = Ok (Some e) ->
  JS.startsWith (path e) "/" = true
  /\ tags e = (if String.eqb parentPath "" then [] else [parentPath])
  /\ exists request url fullUrl path query headers,
       it_request item = Some (RequestObject request)
       /\ rq_url request = Some url
       /\ locate newURL url = Ok (Some (fullUrl, path, query))
       /\ extractHeaders (or_headers (rq_header request)) = Ok headers
       /\ method e = JS.toUpperCase (JS.or_str (rq_method request) "GET")
       /\ summary e = JS.or_str (it_name item) ""
       /\ parameters e
          = map queryParameter (extractQueryParams query)
            ++ map headerParameter (List.filter keepHeader headers).
Proof.
  unfold extractEndpointFromRequest.
  destruct (it_request item) as [[request|s]|]; [| discriminate | discriminate].
  destruct (rq_url request) as [url|] eqn:Hurl; [|discriminate].
  destruct (locate newURL url) as [[[[fullUrl path0] query]|]|m] eqn:Hloc;
    cbn [bindResult]; [| discriminate | discriminate].
  destruct (extractHeaders (or_headers (rq_header request))) as [headers|m] eqn:Hh;
    cbn [bindResult]; [|discriminate].
  destruct (extractPostmanResponses _) as [responses|m]; cbn [bindResult]; [|discriminate].
  intros [= <-]. cbn [path tags parameters method summary].
  split; [apply startsWith_slash_fix|]. split; [reflexivity|].
  exists request, url, fullUrl, path0, query, headers. repeat split; auto.
Qed.

Lemma keepHeader_name h :
  keepHeader h = true ->
  exists name, h_key h = Some name
               /\ JS.includes (JS.toLowerCase name) "authorization" = false.
Proof.
  unfold keepHeader. intros [Hk Hn]%andb_true_iff.
  destruct (h_key h) as [name|]; [|discriminate Hk].
  exists name. split; [reflexivity|]. simpl in Hn.
  now apply negb_true_iff in Hn.
Qed.

Lemma endpoint_of_some_leaf collection e :
  e ∈ produced (extractEndpoints newURL collection) ->
  exists item parentPath,
    (item, parentPath) ∈ leafRequests (default [] (c_item collection)) ""
    /\ extractEndpointFromRequest newURL item parentPath = Ok (Some e).
Proof.
  destruct (extractEndpoints newURL collection) as [endpoints|m] eqn:Hrun;
    cbn [produced]; [|intros H; inversion H].
  destruct (extractEndpoints_returned _ _ Hrun) as [-> _].
  intros ([item pp] & Hleaf & H)%list_elem_of_omap.
  exists item, pp. split; [exact Hleaf|].
  unfold endpointOfLeaf in H. cbn [fst snd] in H.
  destruct (extractEndpointFromRequest newURL item pp) as [[e'|]|m]; cbn in H;
    congruence.
Qed.

Lemma forEachResponse_throws responses :
  forall extracted index,
    (exists message, forEachResponse extracted index responses = Throw message)
    <-> existsb (fun response =>
          match rx_header response with
          | Some (ResponseHeaderString _) => true
          | _ => false
          end) responses = true.
Proof.
  induction responses as [|response responses IH]; intros extracted index;
    cbn [forEachResponse existsb].
  - split; [intros [m H]; discriminate H | discriminate].
  - unfold addPostmanResponse, contentTypeOf.
    destruct (rx_header response) as [[headers|s]|]; cbn [bindResult orb];
      try apply IH.
    split; [reflexivity | eauto].
Qed.

(** Which of its three results the extraction of a request has. *)
Lemma extractEndpointFromRequest_cases item parentPath :
  match extractEndpointFromRequest newURL item parentPath with
  | Ok None => hasLocation item = false
  | Ok (Some _) =>
      hasLocation item = true
      /\ pathIsString item = false /\ headerIsString item = false
      /\ responseHeaderIsString item = false
  | Throw _ =>
      hasLocation item = true
      /\ (pathIsString item = true \/ headerIsString item = true
          \/ responseHeaderIsString item = true)
  end.
Proof.
  unfold extractEndpointFromRequest, hasLocation, pathIsString, headerIsString,
    responseHeaderIsString.
  destruct (it_request item) as [[request|s]|]; [| reflexivity | reflexivity].
  destruct (rq_url request) as [[s|u]|]; [| | reflexivity].
  - cbn [locate]. destruct (String.eqb s ""); cbn [bindResult negb]; [reflexivity|].
    destruct (rq_header request) as [[headers|h]|]; cbn [or_headers].
    + cbn [extractHeaders bindResult].
      destruct (extractPostmanResponses _) as [responses|m] eqn:Hr; cbn [bindResult].
      * repeat split. apply not_true_is_false. intros Hyes.
        apply (forEachResponse_throws _ ∅ 0) in Hyes as [m Hm].
        unfold extractPostmanResponses in Hr. congruence.
      * split; [reflexivity|]. right. right.
        apply (forEachResponse_throws _ ∅ 0). eauto.
    + destruct (String.eqb h ""); cbn [extractHeaders bindResult negb].
      * destruct (extractPostmanResponses _) as [responses|m] eqn:Hr; cbn [bindResult].
        -- repeat split. apply not_true_is_false. intros Hyes.
           apply (forEachResponse_throws _ ∅ 0) in Hyes as [m Hm].
           unfold extractPostmanResponses in Hr. congruence.
        -- split; [reflexivity|]. right. right.
           apply (forEachResponse_throws _ ∅ 0). eauto.
      * split; [reflexivity|]. right. left. reflexivity.
    + cbn [extractHeaders bindResult].
      destruct (extractPostmanResponses _) as [responses|m] eqn:Hr; cbn [bindResult].
      * repeat split. apply not_true_is_false. intros Hyes.
        apply (forEachResponse_throws _ ∅ 0) in Hyes as [m Hm].
        unfold extractPostmanResponses in Hr. congruence.
      * split; [reflexivity|]. right. right.
        apply (forEachResponse_throws _ ∅ 0). eauto.
  - cbn [locate]. destruct (JS.truthy_str (u_raw u)); cbn [bindResult]; [|reflexivity].
    destruct (u_path u) as [[segments|p]|]; cbn [joinPath bindResult];
      [| split; [reflexivity | left; reflexivity] |].
    + destruct (rq_header request) as [[headers|h]|]; cbn [or_headers].
      * cbn [extractHeaders bindResult].
        destruct (extractPostmanResponses _) as [responses|m] eqn:Hr; cbn [bindResult].
        -- repeat split. apply not_true_is_false. intros Hyes.
           apply (forEachResponse_throws _ ∅ 0) in Hyes as [m Hm].
           unfold extractPostmanResponses in Hr. congruence.
        -- split; [reflexivity|]. right. right.
           apply (forEachResponse_throws _ ∅ 0). eauto.
      * destruct (String.eqb h ""); cbn [extractHeaders bindResult negb].
        -- destruct (extractPostmanResponses _) as [responses|m] eqn:Hr; cbn [bindResult].
           ++ repeat split. apply not_true_is_false. intros Hyes.
              apply (forEachResponse_throws _ ∅ 0) in Hyes as [m Hm].
              unfold extractPostmanResponses in Hr. congruence.
           ++ split; [reflexivity|]. right. right.
              apply (forEachResponse_throws _ ∅ 0). eauto.
        -- split; [reflexivity|]. right. left. reflexivity.
      * cbn [extractHeaders bindResult].
        destruct (extractPostmanResponses _) as [responses|m] eqn:Hr; cbn [bindResult].
        -- repeat split. apply not_true_is_false. intros Hyes.
           apply (forEachResponse_throws _ ∅ 0) in Hyes as [m Hm].
           unfold extractPostmanResponses in Hr. congruence.
        -- split; [reflexivity|]. right. right.
           apply (forEachResponse_throws _ ∅ 0). eauto.
    + destruct (rq_header request) as [[headers|h]|]; cbn [or_headers].
      * cbn [extractHeaders bindResult].
        destruct (extractPostmanResponses _) as [responses|m] eqn:Hr; cbn [bindResult].
        -- repeat split. apply not_true_is_false. intros Hyes.
           apply (forEachResponse_throws _ ∅ 0) in Hyes as [m Hm].
           unfold extractPostmanResponses in Hr. congruence.
        -- split; [reflexivity|]. right. right.
           apply (forEachResponse_throws _ ∅ 0). eauto.
      * destruct (String.eqb h ""); cbn [extractHeaders bindResult negb].
        -- destruct (extractPostmanResponses _) as [responses|m] eqn:Hr; cbn [bindResult].
           ++ repeat split. apply not_true_is_false. intros Hyes.
              apply (forEachResponse_throws _ ∅ 0) in Hyes as [m Hm].
              unfold extractPostmanResponses in Hr. congruence.
           ++ split; [reflexivity|]. right. right.
              apply (forEachResponse_throws _ ∅ 0). eauto.
        -- split; [reflexivity|]. right. left. reflexivity.
      * cbn [extractHeaders bindResult].
        destruct (extractPostmanResponses _) as [responses|m] eqn:Hr; cbn [bindResult].
        -- repeat split. apply not_true_is_false. intros Hyes.
           apply (forEachResponse_throws _ ∅ 0) in Hyes as [m Hm].
           unfold extractPostmanResponses in Hr. congruence.
        -- split; [reflexivity|]. right. right.
           apply (forEachResponse_throws _ ∅ 0). eauto.
Qed.

End PostmanFacts.

Section PostmanClaims.
Import postmanParser.

(** C8 (as stated, refuted): the same request, [GET] with the path
    [items], stands in the folder [users] and in the folder [admin]; its
    [url] object has no [raw] text, and the returned sequence has
    neither of the two. *)
Lemma postman_duplicates_without_raw_dropped :
  leafFolders (default [] (c_item Examples.twoFoldersWithoutRaw))
  = [(Examples.itemWithoutRaw, ["users"]); (Examples.itemWithoutRaw, ["admin"])]
  /\ extractEndpoints Examples.httpURL Examples.twoFoldersWithoutRaw = Ok [].
Proof. split; reflexivity. Qed.

(** C8 (amended): the Postman normalizer never drops a request because
    of its method and path.  When it returns, any two leaf requests of
    the collection that say where they go (a [url] string that is not
    empty, or a [url] object with [raw]) each have an endpoint, whatever
    their method, path and folder, hence also when method and path
    coincide and the folders differ; the two endpoints appear in the
    returned sequence at two different positions, in document order. *)
Theorem postman_keeps_duplicates
  (newURL : string -> option URL) (collection : Collection) (endpoints : list Endpoint)
  (i j : nat) (leaf1 leaf2 : Item * string) :
  extractEndpoints newURL collection = Ok endpoints ->
  leafRequests (default [] (c_item collection)) "" !! i = Some leaf1 ->
  leafRequests (default [] (c_item collection)) "" !! j = Some leaf2 ->
  i < j ->
  hasLocation leaf1.1 = true ->
  hasLocation leaf2.1 = true ->
  exists e1 e2 i' j',
    extractEndpointFromRequest newURL leaf1.1 leaf1.2 = Ok (Some e1)
    /\ extractEndpointFromRequest newURL leaf2.1 leaf2.2 = Ok (Some e2)
    /\ i' < j'
    /\ endpoints !! i' = Some e1
    /\ endpoints !! j' = Some e2.
Proof.
  intros Hrun Hi Hj Hlt H1 H2.
  destruct (extractEndpoints_returned newURL collection endpoints Hrun) as [-> Hall].
  assert (forall leaf : Item * string,
             leaf ∈ leafRequests (default [] (c_item collection)) "" ->
             hasLocation leaf.1 = true ->
             exists e, extractEndpointFromRequest newURL leaf.1 leaf.2 = Ok (Some e))
    as Hsome.
  { intros leaf Hleaf Hloc.
    destruct (proj1 (List.Forall_forall _ _) Hall leaf (proj1 (list_elem_of_In _ _) Hleaf))
      as [r Hr].
    unfold endpointOfLeaf in Hr.
    pose proof (extractEndpointFromRequest_cases newURL leaf.1 leaf.2) as Hcases.
    rewrite Hr in Hcases. destruct r as [e|]; [eauto | congruence]. }
  destruct (Hsome leaf1 (list_elem_of_lookup_2 _ _ _ Hi) H1) as [e1 He1].
  destruct (Hsome leaf2 (list_elem_of_lookup_2 _ _ _ Hj) H2) as [e2 He2].
  destruct (omap_lookup_two (fun leaf => returned (endpointOfLeaf newURL leaf)) _
              i j leaf1 leaf2 e1 e2 Hi Hj Hlt) as (i' & j' & Hlt' & Hi' & Hj').
  - unfold endpointOfLeaf. now rewrite He1.
  - unfold endpointOfLeaf. now rewrite He2.
  - exists e1, e2, i', j'. auto.
Qed.

Lemma postman_keeps_duplicates_witness :
  exists endpoints e1 e2 i' j',
    extractEndpoints Examples.httpURL Examples.twoFolders = Ok endpoints
    /\ method e1 = method e2 /\ path e1 = path e2
    /\ tags e1 = ["users"] /\ tags e2 = ["admin"]
    /\ i' < j'
    /\ endpoints !! i' = Some e1
    /\ endpoints !! j' = Some e2.
Proof.
  let r := eval vm_compute in (extractEndpoints Examples.httpURL Examples.twoFolders) in
  match r with
  | Ok ?endpoints =>
      assert (Hrun : extractEndpoints Examples.httpURL Examples.twoFolders = Ok endpoints)
        by (vm_compute; reflexivity);
      destruct (postman_keeps_duplicates Examples.httpURL Examples.twoFolders endpoints 0 1
                  (Examples.itemsRequest [], "users")
                  (Examples.itemsRequest Examples.traceHeaders, "admin")
                  Hrun eq_refl eq_refl Nat.lt_0_1 eq_refl eq_refl)
        as (e1 & e2 & i' & j' & H1 & H2 & Hlt & Hi & Hj);
      exists endpoints, e1, e2, i', j'
  end.
  split; [exact Hrun|].
  vm_compute in H1. vm_compute in H2.
  injection H1 as <-. injection H2 as <-.
  do 4 (split; [reflexivity |]).
  split; [exact Hlt |]. split; [exact Hi | exact Hj].
Defined.

(** C9: in an endpoint produced by the Postman normalizer every
    parameter located in the header has a name whose lower-cased form
    does not contain [authorization]. *)
Theorem postman_header_parameters_exclude_authorization
  (newURL : string -> option URL) (collection : Collection) (e : Endpoint) (p : Param) :
  e ∈ produced (extractEndpoints newURL collection) ->
  p ∈ parameters e ->
  p_in p = Some "header" ->
  exists name, p_name p = Some name
               /\ JS.includes (JS.toLowerCase name) "authorization" = false.
Proof.
  intros (item & pp & _ & He)%endpoint_of_some_leaf Hp Hin.
  destruct (extractEndpointFromRequest_shape newURL item pp e He)
    as (_ & _ & request & url & fullUrl & path0 & query & headers & _ & _ & _ & _ & _ & _
        & Hparams).
  rewrite Hparams in Hp. apply elem_of_app in Hp as [Hp|Hp].
  - apply list_elem_of_fmap in Hp as (q & -> & _). discriminate Hin.
  - apply list_elem_of_fmap in Hp as (h & -> & Hh).
    apply list_elem_of_In, filter_In in Hh as [_ Hkeep].
    exact (keepHeader_name h Hkeep).
Qed.

Lemma postman_header_parameters_exclude_authorization_witness :
  exists e p,
    e ∈ produced (extractEndpoints Examples.httpURL Examples.twoFolders)
    /\ p ∈ parameters e
    /\ p_in p = Some "header"
    /\ p_name p = Some "X-Trace"
    /\ exists name, p_name p = Some name
                    /\ JS.includes (JS.toLowerCase name) "authorization" = false.
Proof.
  let l := eval vm_compute in
      (produced (extractEndpoints Examples.httpURL Examples.twoFolders)) in
  match l with
  | [_; ?e] =>
      match eval vm_compute in (parameters e) with
      | [?p] =>
          assert (He : e ∈ produced (extractEndpoints Examples.httpURL Examples.twoFolders))
            by (apply (list_elem_of_lookup_2 _ 1); vm_compute; reflexivity);
          assert (Hp : p ∈ parameters e)
            by (apply (list_elem_of_lookup_2 _ 0); vm_compute; reflexivity);
          exists e, p;
          pose proof (postman_header_parameters_exclude_authorization
                        Examples.httpURL Examples.twoFolders e p He Hp eq_refl) as Hname
      end
  end.
  split; [exact He |]. split; [exact Hp |].
  split; [reflexivity |]. split; [reflexivity | exact Hname].
Defined.

End PostmanClaims.

(** ** HTML normalizer *)

Section HtmlDedup.
Import htmlParser.

Lemma removeDuplicates_keptFrom endpoints seen uniqueEndpoints :
  removeDuplicates endpoints seen uniqueEndpoints
  = uniqueEndpoints ++ keptFrom endpoints seen.
Proof.
  revert seen uniqueEndpoints.
  induction endpoints as [|e rest IH]; intros seen acc; simpl.
  - now rewrite app_nil_r.
  - case_bool_decide; rewrite IH; [reflexivity|].
    now rewrite <- app_assoc.
Qed.

Lemma keptFrom_sublist endpoints seen : keptFrom endpoints seen `sublist_of` endpoints.
Proof.
  revert seen. induction endpoints as [|e rest IH]; intros seen; simpl.
  - constructor.
  - case_bool_decide; [apply sublist_cons_r; left; apply IH | constructor; apply IH].
Qed.

Lemma keptFrom_fresh endpoints seen e :
  e ∈ keptFrom endpoints seen -> endpointKey e ∉ seen.
Proof.
  revert seen. induction endpoints as [|e0 rest IH]; intros seen; simpl.
  - intros H. inversion H.
  - case_bool_decide as Hseen.
    + apply IH.
    + intros [->|H]%elem_of_cons; [exact Hseen|].
      apply IH in H. set_solver.
Qed.

Lemma keptFrom_NoDup endpoints seen : NoDup (endpointKey <$> keptFrom endpoints seen).
Proof.
  revert seen. induction endpoints as [|e0 rest IH]; intros seen; simpl.
  - constructor.
  - case_bool_decide as Hseen; [apply IH|].
    rewrite fmap_cons. apply NoDup_cons. split; [|apply IH].
    intros (e & Hkey & He)%list_elem_of_fmap.
    apply keptFrom_fresh in He. rewrite <- Hkey in He. set_solver.
Qed.

Lemma keptFrom_covers endpoints seen e :
  e ∈ endpoints ->
  endpointKey e ∈ seen
  \/ exists e', e' ∈ keptFrom endpoints seen /\ endpointKey e' = endpointKey e.
Proof.
  revert seen. induction endpoints as [|e0 rest IH]; intros seen; simpl.
  - intros H. inversion H.
  - intros [->|H]%elem_of_cons.
    + case_bool_decide as Hseen; [left; exact Hseen|].
      right. exists e0. split; [left | reflexivity].
    + case_bool_decide as Hseen.
      * apply IH, H.
      * destruct (IH ({[endpointKey e0]} ∪ seen) H) as [Hin|(e' & He' & Hk)].
        -- apply elem_of_union in Hin as [Hin|Hin]; [|left; exact Hin].
           apply elem_of_singleton in Hin. right. exists e0.
           split; [left | symmetry; exact Hin].
        -- right. exists e'. split; [right; exact He' | exact Hk].
Qed.

Lemma keptFrom_first endpoints seen e :
  e ∈ keptFrom endpoints seen ->
  exists i, endpoints !! i = Some e
            /\ forall j e', j < i -> endpoints !! j = Some e' ->
                            endpointKey e' <> endpointKey e.
Proof.
  revert seen. induction endpoints as [|e0 rest IH]; intros seen; simpl.
  - intros H. inversion H.
  - case_bool_decide as Hseen.
    + intros H. pose proof (keptFrom_fresh _ _ _ H) as Hfresh.
      destruct (IH seen H) as (i & Hi & Hbefore).
      exists (S i). split; [exact Hi|].
      intros [|j] e' Hj He'; simpl in He'.
      * injection He' as <-. intros Heq. rewrite Heq in Hseen. contradiction.
      * apply (Hbefore j); [lia | exact He'].
    + intros [->|H]%elem_of_cons.
      * exists 0. split; [reflexivity|]. intros j e' Hj. lia.
      * pose proof (keptFrom_fresh _ _ _ H) as Hfresh.
        destruct (IH _ H) as (i & Hi & Hbefore).
        exists (S i). split; [exact Hi|].
        intros [|j] e' Hj He'; simpl in He'.
        -- injection He' as <-. intros Heq. apply Hfresh. rewrite Heq. set_solver.
        -- apply (Hbefore j); [lia | exact He'].
Qed.

Lemma endpointKey_of_pair e e' :
  methodAndPath e = methodAndPath e' -> endpointKey e = endpointKey e'.
Proof. unfold methodAndPath, endpointKey. now intros [= -> ->]. Qed.

Lemma includes_colon_head m : JS.includes (String ":" m) ":" = true.
Proof. destruct m; reflexivity. Qed.

Lemma includes_colon_tail c m :
  JS.includes (String c m) ":" = false -> JS.includes m ":" = false.
Proof. simpl. intros H. now apply orb_false_elim in H as [_ H]. Qed.

(** When neither method contains a colon, the key determines the
    pair. *)
Lemma colon_split m1 m2 p1 p2 :
  JS.includes m1 ":" = false -> JS.includes m2 ":" = false ->
  m1 +:+ ":" +:+ p1 = m2 +:+ ":" +:+ p2 -> m1 = m2 /\ p1 = p2.
Proof.
  revert m2. induction m1 as [|c m1 IH]; intros [|c2 m2] H1 H2 Heq.
  - simpl in Heq. injection Heq as Heq. auto.
  - simpl in Heq. injection Heq as Hc _. subst c2.
    rewrite includes_colon_head in H2. discriminate H2.
  - simpl in Heq. injection Heq as Hc _. subst c.
    rewrite includes_colon_head in H1. discriminate H1.
  - simpl in Heq. injection Heq as Hc Heq. subst c2.
    apply includes_colon_tail in H1. apply includes_colon_tail in H2.
    destruct (IH m2 H1 H2 Heq) as [-> ->]. auto.
Qed.

Lemma extractEndpoints_sublist newURL doc :
  extractEndpoints newURL doc `sublist_of` candidateEndpoints newURL doc.
Proof.
  unfold extractEndpoints. rewrite removeDuplicates_keptFrom. apply keptFrom_sublist.
Qed.

End HtmlDedup.

Section HtmlClaims.
Import htmlParser.

(** C7: the list returned by the HTML normalizer holds at most one
    endpoint per (method, path) pair; it is a subsequence of the
    candidates, every endpoint in it is the first candidate with its
    pair, every candidate is represented by an endpoint with its key
    [method:path], and, when no candidate method contains a colon (as
    for the canonical verbs), by an endpoint with its pair. *)
Theorem html_keeps_first_per_method_and_path
  (newURL : string -> option URL) (doc : Document) :
  NoDup (methodAndPath <$> extractEndpoints newURL doc)
  /\ extractEndpoints newURL doc `sublist_of` candidateEndpoints newURL doc
  /\ (forall e, e ∈ extractEndpoints newURL doc ->
        exists i, candidateEndpoints newURL doc !! i = Some e
                  /\ forall j e', j < i -> candidateEndpoints newURL doc !! j = Some e' ->
                                  methodAndPath e' <> methodAndPath e)
  /\ (forall e, e ∈ candidateEndpoints newURL doc ->
        exists e', e' ∈ extractEndpoints newURL doc /\ endpointKey e' = endpointKey e)
  /\ ((forall e, e ∈ candidateEndpoints newURL doc -> JS.includes (method e) ":" = false) ->
      forall e, e ∈ candidateEndpoints newURL doc ->
        exists e', e' ∈ extractEndpoints newURL doc /\ methodAndPath e' = methodAndPath e).
Proof.
  unfold extractEndpoints. rewrite removeDuplicates_keptFrom. simpl.
  set (candidates := candidateEndpoints newURL doc).
  assert (Hcover : forall e, e ∈ candidates ->
            exists e', e' ∈ keptFrom candidates ∅ /\ endpointKey e' = endpointKey e).
  { intros e He. destruct (keptFrom_covers candidates ∅ e He) as [Hin|H]; [|exact H].
    set_solver. }
  split; [|split; [|split; [|split]]].
  - apply (NoDup_fmap_1 (fun mp : string * string => mp.1 +:+ ":" +:+ mp.2)).
    rewrite <- list_fmap_compose. apply (keptFrom_NoDup candidates ∅).
  - apply keptFrom_sublist.
  - intros e He. destruct (keptFrom_first candidates ∅ e He) as (i & Hi & Hbefore).
    exists i. split; [exact Hi|].
    intros j e' Hj He' Heq. apply (Hbefore j e' Hj He').
    now apply endpointKey_of_pair.
  - exact Hcover.
  - intros Hcolon e He. destruct (Hcover e He) as (e' & He' & Hkey).
    exists e'. split; [exact He'|].
    assert (He'c : e' ∈ candidates).
    { eapply elem_of_sublist; [exact He' | apply keptFrom_sublist]. }
    unfold endpointKey in Hkey.
    destruct (colon_split _ _ _ _ (Hcolon e' He'c) (Hcolon e He) Hkey) as [Hm Hp].
    unfold methodAndPath. now rewrite Hm, Hp.
Qed.

Lemma html_keeps_first_per_method_and_path_witness :
  methodAndPath <$> candidateEndpoints Examples.httpURL Examples.usersTwice
  = [("GET", "/users"); ("GET", "/users"); ("POST", "/users")]
  /\ methodAndPath <$> extractEndpoints Examples.httpURL Examples.usersTwice
     = [("GET", "/users"); ("POST", "/users")]
  /\ forall e, e ∈ candidateEndpoints Examples.httpURL Examples.usersTwice ->
       exists e', e' ∈ extractEndpoints Examples.httpURL Examples.usersTwice
                  /\ methodAndPath e' = methodAndPath e.
Proof.
  split; [vm_compute; reflexivity |]. split; [vm_compute; reflexivity |].
  destruct (html_keeps_first_per_method_and_path Examples.httpURL Examples.usersTwice)
    as (_ & _ & _ & _ & Hpair).
  apply Hpair. apply Forall_forall. vm_compute. repeat constructor.
Defined.

(** The only statement of [parseHtmlDocs] that can throw is the
    unguarded [new URL] of [extractBaseUrl]. *)
Lemma parseHtmlDocs_throws_iff newURL doc message :
  parseHtmlDocs newURL doc = Throw message
  <-> exists m, extractBaseUrl newURL doc = Throw m
                /\ message = "Failed to parse HTML documentation: " +:+ m.
Proof.
  unfold parseHtmlDocs. destruct (extractBaseUrl newURL doc) as [b|m]; simpl; split.
  - discriminate.
  - intros (m & Hm & _). discriminate Hm.
  - intros [= <-]. eauto.
  - intros (m' & [= <-] & ->). reflexivity.
Qed.

Lemma baseUrlFromCodeBlocks_throws newURL pre text post urlMatch :
  Forall (fun t => matchUrl t = None) pre ->
  matchUrl text = Some urlMatch ->
  newURL urlMatch = None ->
  baseUrlFromCodeBlocks newURL (pre ++ text :: post) = Throw "Invalid URL".
Proof.
  intros Hpre Hm Hu. induction Hpre as [|t pre Ht _ IH]; simpl.
  - now rewrite Hm, Hu.
  - now rewrite Ht.
Qed.

(** C2 (refuted by the code): when no base-URL phrase is found and the
    first URL-shaped token of the code blocks is one [new URL] rejects,
    [parseHtmlDocs] throws instead of returning a model. *)
Theorem parseHtmlDocs_throws_on_invalid_code_url
  (newURL : string -> option URL) (doc : Document)
  (pre post : list string) (text urlMatch : string) :
  baseUrlFromPatterns doc baseUrlPatterns = None ->
  d_codeBlocks doc = pre ++ text :: post ->
  Forall (fun t => matchUrl t = None) pre ->
  matchUrl text = Some urlMatch ->
  newURL urlMatch = None ->
  parseHtmlDocs newURL doc = Throw "Failed to parse HTML documentation: Invalid URL".
Proof.
  intros Hpat Hblocks Hpre Hm Hu.
  apply parseHtmlDocs_throws_iff. exists "Invalid URL". split; [|reflexivity].
  unfold extractBaseUrl. rewrite Hpat, Hblocks.
  now apply (baseUrlFromCodeBlocks_throws newURL pre text post urlMatch).
Qed.

Lemma parseHtmlDocs_throws_on_invalid_code_url_witness :
  parseHtmlDocs Examples.httpURL Examples.placeholderHost
  = Throw "Failed to parse HTML documentation: Invalid URL".
Proof.
  apply (parseHtmlDocs_throws_on_invalid_code_url Examples.httpURL Examples.placeholderHost
           [] [] "https://<host>/v1" "https://<host>/v1");
    [reflexivity | reflexivity | constructor | reflexivity | reflexivity].
Defined.

(** When [extractBaseUrl] returns, so does [parseHtmlDocs]; a document
    in which nothing is found yields the empty model. *)
Lemma parseHtmlDocs_returns newURL doc baseUrl :
  extractBaseUrl newURL doc = Ok baseUrl ->
  exists parsed, parseHtmlDocs newURL doc = Ok parsed
                 /\ endpoints parsed = extractEndpoints newURL doc
                 /\ authMethod parsed = extractAuthMethod doc.
Proof.
  intros H. unfold parseHtmlDocs. rewrite H. simpl. eexists. split; [reflexivity|].
  split; reflexivity.
Qed.

End HtmlClaims.

(** ** The path invariant across the three normalizers *)

Section PathInvariant.

Lemma swagger_endpoint_origin api e :
  e ∈ swaggerParser.extractEndpoints api ->
  exists key pathItem m op,
    (key, pathItem) ∈ default [] (swaggerParser.api_paths api)
    /\ (m, op) ∈ pathItem
    /\ m ∈ swaggerParser.httpMethods
    /\ e = swaggerParser.endpointOf api key m op.
Proof.
  unfold swaggerParser.extractEndpoints.
  intros H. apply list_elem_of_In, in_flat_map in H as ([key pathItem] & Hk & H).
  apply in_flat_map in H as ([m op] & Hm & H).
  case_bool_decide as Hmeth; [|inversion H].
  destruct H as [<-|[]].
  exists key, pathItem, m, op.
  repeat split; auto; now apply list_elem_of_In.
Qed.

Lemma html_candidate_origin newURL doc e :
  e ∈ htmlParser.candidateEndpoints newURL doc ->
  exists text element, htmlParser.parseEndpointFromText newURL text element = Some e.
Proof.
  unfold htmlParser.candidateEndpoints.
  intros H. apply list_elem_of_In, in_flat_map in H as (selector & _ & H).
  apply list_elem_of_In, list_elem_of_omap in H as (element & _ & H).
  eauto.
Qed.

Lemma html_endpoint_origin newURL doc e :
  e ∈ htmlParser.extractEndpoints newURL doc ->
  exists text element, htmlParser.parseEndpointFromText newURL text element = Some e.
Proof.
  intros H. apply (html_candidate_origin newURL doc).
  eapply elem_of_sublist; [exact H | apply extractEndpoints_sublist].
Qed.

Lemma parseEndpointFromText_path newURL text element e :
  htmlParser.parseEndpointFromText newURL text element = Some e ->
  JS.startsWith (path e) "/" = true
  \/ exists urlMatch url,
       htmlParser.matchUrl text = Some urlMatch
       /\ newURL urlMatch = Some url
       /\ path e = pathname url.
Proof.
  unfold htmlParser.parseEndpointFromText.
  destruct (htmlParser.firstPattern _ text) as [[g1 g2]|].
  - intros [= <-]. left. cbn [path]. apply startsWith_slash_fix.
  - destruct (htmlParser.matchUrl text) as [urlMatch|]; [|discriminate].
    destruct (newURL urlMatch) as [url|] eqn:Hu; [|discriminate].
    intros [= <-]. right. exists urlMatch, url. auto.
Qed.

(** C6 (as stated, refuted): the Postman normalizer turns the request
    [GET https://api.example.com/users/{id}] into an endpoint whose
    path holds the placeholder [{id}] and whose parameter list is
    empty. *)
Lemma postman_placeholder_not_declared :
  exists e,
    postmanParser.extractEndpoints Examples.httpURL Examples.userById = Ok [e]
    /\ path e = "/users/{id}"
    /\ parameters e = []
    /\ ~ pathInvariant e.
Proof.
  let r := eval vm_compute in
      (postmanParser.extractEndpoints Examples.httpURL Examples.userById) in
  match r with
  | Ok [?e] => exists e; split; [vm_compute; reflexivity |]
  end.
  split; [reflexivity |]. split; [reflexivity |].
  intros (_ & _ & Hdecl).
  destruct (Hdecl "id") as (p & Hp & _).
  - split; [discriminate |]. split; reflexivity.
  - inversion Hp.
Qed.

(** The same invariant fails for the other two normalizers: the
    OpenAPI normalizer keeps a path key without leading slash, and reads
    no parameter for [/pets/{id}] when the operation itself declares
    none; the HTML normalizer builds [/items/{id}] out of [/items/{i.d}]
    and finds no parameter in the text. *)
Lemma swagger_path_copied_verbatim :
  path <$> swaggerParser.extractEndpoints Examples.relativePathKey = ["pets"; "/pets/{id}"]
  /\ parameters <$> swaggerParser.extractEndpoints Examples.relativePathKey = [[]; []].
Proof. split; reflexivity. Qed.

Lemma html_placeholder_not_declared :
  (fun e => (path e, parameters e))
    <$> htmlParser.extractEndpoints Examples.httpURL Examples.dottedPlaceholder
  = [("/items/{id}", [])].
Proof. vm_compute. reflexivity. Qed.

(** C6 (amended): every endpoint of the Postman normalizer has a
    non-empty path that begins with [/], and no parameter located in the
    path; every endpoint of the HTML normalizer has a non-empty path that
    begins with [/], or the pathname of a URL found in its text (hence
    always the former when pathnames begin with [/]); every endpoint of
    the OpenAPI normalizer carries a key of [paths] and the parameters of
    one of its operations, both unchanged. *)
Theorem normalizers_path_shape :
  (forall newURL collection e,
      e ∈ produced (postmanParser.extractEndpoints newURL collection) ->
      path e <> "" /\ JS.startsWith (path e) "/" = true
      /\ forall p, p ∈ parameters e -> p_in p <> Some "path")
  /\ (forall newURL doc e,
        e ∈ htmlParser.extractEndpoints newURL doc ->
        (path e <> "" /\ JS.startsWith (path e) "/" = true)
        \/ exists text urlMatch url,
             htmlParser.matchUrl text = Some urlMatch
             /\ newURL urlMatch = Some url
             /\ path e = pathname url)
  /\ (forall newURL doc e,
        (forall s url, newURL s = Some url -> JS.startsWith (pathname url) "/" = true) ->
        e ∈ htmlParser.extractEndpoints newURL doc ->
        path e <> "" /\ JS.startsWith (path e) "/" = true)
  /\ (forall api e,
        e ∈ swaggerParser.extractEndpoints api ->
        exists key pathItem m op,
          (key, pathItem) ∈ default [] (swaggerParser.api_paths api)
          /\ (m, op) ∈ pathItem
          /\ path e = key
          /\ parameters e
             = swaggerParser.extractParameters
                 (default [] (swaggerParser.op_parameters op))).
Proof.
  split; [|split; [|split]].
  - intros newURL collection e (item & pp & _ & He)%endpoint_of_some_leaf.
    destruct (extractEndpointFromRequest_shape newURL item pp e He)
      as (Hslash & _ & request & url & fullUrl & path0 & query & headers
          & _ & _ & _ & _ & _ & _ & Hparams).
    split; [now apply startsWith_nonempty|]. split; [exact Hslash|].
    intros p Hp. rewrite Hparams in Hp. apply elem_of_app in Hp as [Hp|Hp];
      apply list_elem_of_fmap in Hp as (x & -> & _); discriminate.
  - intros newURL doc e (text & element & He)%html_endpoint_origin.
    destruct (parseEndpointFromText_path newURL text element e He)
      as [Hslash|(u & url & Hm & Hu & Hp)].
    + left. split; [now apply startsWith_nonempty | exact Hslash].
    + right. exists text, u, url. auto.
  - intros newURL doc e Hurl (text & element & He)%html_endpoint_origin.
    destruct (parseEndpointFromText_path newURL text element e He)
      as [Hslash|(u & url & Hm & Hu & Hp)].
    + split; [now apply startsWith_nonempty | exact Hslash].
    + rewrite Hp. pose proof (Hurl u url Hu) as Hslash.
      split; [now apply startsWith_nonempty | exact Hslash].
  - intros api e (key & pathItem & m & op & Hk & Hm & _ & ->)%swagger_endpoint_origin.
    exists key, pathItem, m, op. auto.
Qed.

Lemma normalizers_path_shape_witness :
  exists e,
    e ∈ produced (postmanParser.extractEndpoints Examples.httpURL Examples.userById)
    /\ path e <> "" /\ JS.startsWith (path e) "/" = true
    /\ forall p, p ∈ parameters e -> p_in p <> Some "path".
Proof.
  let l := eval vm_compute in
      (produced (postmanParser.extractEndpoints Examples.httpURL Examples.userById)) in
  match l with
  | [?e] =>
      assert (He : e ∈ produced (postmanParser.extractEndpoints Examples.httpURL
                                   Examples.userById))
        by (apply (list_elem_of_lookup_2 _ 0); vm_compute; reflexivity);
      exists e; split; [exact He |];
      exact (proj1 normalizers_path_shape Examples.httpURL Examples.userById e He)
  end.
Defined.

End PathInvariant.

(** ** The emitted request modules *)

Section RetryLoop.
Import Retry.

Variable maxRetries : Z.
Variable client : Z -> Outcome.
Variable delayOf : Z -> Z.
Variable sleep : Z -> option Z.

Lemma attemptLoop_attempts attempts lastError :
  attemptsMade (attemptLoop maxRetries client delayOf sleep attempts lastError).1
  <= length attempts.
Proof.
  unfold attemptsMade.
  revert lastError. induction attempts as [|attempt rest IH]; intros lastError; simpl.
  - lia.
  - destruct (client attempt) as [|error]; [simpl; lia|].
    destruct (isClientError error); [simpl; lia|].
    destruct (attempt =? maxRetries)%Z; [simpl; lia|].
    destruct (sleep (delayOf attempt)) as [slept|]; [|simpl; lia].
    specialize (IH (Some error)).
    destruct (attemptLoop maxRetries client delayOf sleep rest (Some error)) as [events final].
    simpl in *. lia.
Qed.

Lemma schedule_step a k :
  (a < k)%Z ->
  schedule delayOf a k
  = Attempted a :: Slept (delayOf a) :: schedule delayOf (Z.succ a) k.
Proof.
  intros Hlt. unfold schedule. rewrite (seqZ_cons a (k - a)) by lia. simpl.
  now replace (Z.pred (k - a)) with (k - Z.succ a)%Z by lia.
Qed.

Lemma schedule_here a : schedule delayOf a a = [Attempted a].
Proof. unfold schedule. now rewrite Z.sub_diag. Qed.

(** A run that starts in attempt [a], goes on after every attempt before
    [k] and stops in attempt [k]. *)
Lemma attemptLoop_stops (d : nat) :
  forall a len lastError,
    (Z.of_nat d < len)%Z ->
    (a + len = maxRetries + 1)%Z ->
    (forall i, (a <= i < a + Z.of_nat d)%Z ->
               retried (client i) /\ sleep (delayOf i) = Some (delayOf i)) ->
    ~ retried (client (a + Z.of_nat d)) \/ (a + Z.of_nat d)%Z = maxRetries ->
    attemptLoop maxRetries client delayOf sleep (seqZ a len) lastError
    = (schedule delayOf a (a + Z.of_nat d),
       finalOf (a + Z.of_nat d) (client (a + Z.of_nat d))).
Proof.
  induction d as [|d IH]; intros a len lastError Hlen Hlast Hbefore Hstop.
  - rewrite Z.add_0_r in *. rewrite (seqZ_cons a len) by lia. simpl.
    rewrite schedule_here.
    destruct (client a) as [|error] eqn:Hc; [reflexivity|].
    destruct (isClientError error) eqn:He; [reflexivity|].
    destruct Hstop as [Hstop| ->].
    + exfalso. apply Hstop. exists error. auto.
    + now rewrite Z.eqb_refl.
  - rewrite (seqZ_cons a len) by lia. simpl.
    destruct (Hbefore a) as [(error & Hc & He) Hs]; [lia|].
    rewrite Hc, He.
    destruct (Z.eqb_spec a maxRetries) as [Heq|_]; [lia|].
    rewrite Hs.
    replace (a + Z.of_nat (S d))%Z with (Z.succ a + Z.of_nat d)%Z in * by lia.
    rewrite (IH (Z.succ a) (Z.pred len) (Some error)); try lia.
    + rewrite (schedule_step a) by lia. reflexivity.
    + intros i Hi. apply Hbefore. lia.
    + exact Hstop.
Qed.

(** The form in which the lemma is used: a run of the whole loop. *)
Lemma run_stops k :
  (1 <= k <= maxRetries)%Z ->
  (forall i, (1 <= i < k)%Z -> retried (client i) /\ sleep (delayOf i) = Some (delayOf i)) ->
  ~ retried (client k) \/ k = maxRetries ->
  run maxRetries client delayOf sleep = (schedule delayOf 1 k, finalOf k (client k)).
Proof.
  intros Hk Hbefore Hstop. unfold run.
  replace k with (1 + Z.of_nat (Z.to_nat (k - 1)))%Z in * by lia.
  apply attemptLoop_stops; try lia; assumption.
Qed.

Lemma run_attempts :
  attemptsMade (run maxRetries client delayOf sleep).1 <= Z.to_nat maxRetries.
Proof.
  unfold run. etransitivity; [apply attemptLoop_attempts|].
  now rewrite length_seqZ.
Qed.

Lemma run_never_entered :
  (maxRetries <= 0)%Z ->
  run maxRetries client delayOf sleep = ([], FellThrough None).
Proof. intros H. unfold run. now rewrite seqZ_nil. Qed.

End RetryLoop.

Section EmittedRetry.
Import Retry.

Lemma wrap64_small z : (- 2 ^ 63 <= z < 2 ^ 63)%Z -> wrap64 z = z.
Proof.
  intros H. unfold wrap64.
  change (2 ^ 63)%Z with 9223372036854775808%Z in *.
  change (2 ^ 64)%Z with 18446744073709551616%Z.
  rewrite Z.mod_small by lia. lia.
Qed.

Lemma pow2_bounds i :
  (1 <= i <= 54)%Z -> (1 <= 2 ^ (i - 1) <= 9007199254740992)%Z.
Proof.
  intros H. split.
  - assert (0 < 2 ^ (i - 1))%Z by (apply Z.pow_pos_nonneg; lia). lia.
  - change 9007199254740992%Z with (2 ^ 53)%Z. apply Z.pow_le_mono_r; lia.
Qed.

Lemma backoff_bounds i : (1 <= i)%Z -> (1000 <= backoff i <= 10000)%Z.
Proof.
  intros H. unfold backoff.
  assert (0 < 2 ^ (i - 1))%Z by (apply Z.pow_pos_nonneg; lia). lia.
Qed.

Lemma go_delay_small i :
  (1 <= i <= 54)%Z ->
  goRequestHandler.delay i = backoff i
  /\ goRequestHandler.sleep (goRequestHandler.delay i) = Some (goRequestHandler.delay i).
Proof.
  intros H. pose proof (pow2_bounds i H) as Hp.
  assert (Hd : goRequestHandler.delay i = backoff i).
  { unfold goRequestHandler.delay, backoff.
    rewrite (wrap64_small (2 ^ (i - 1)));
      [|change (2 ^ 63)%Z with 9223372036854775808%Z; lia].
    rewrite wrap64_small; [reflexivity|].
    change (2 ^ 63)%Z with 9223372036854775808%Z. lia. }
  split; [exact Hd|]. rewrite Hd. unfold goRequestHandler.sleep.
  pose proof (backoff_bounds i) as Hb.
  rewrite wrap64_small; [|change (2 ^ 63)%Z with 9223372036854775808%Z; lia].
  destruct (Z.leb_spec (backoff i * 1000000) 0); [lia|].
  now rewrite Z.div_mul by lia.
Qed.

Lemma flat_map_ext_elem {A B} (f g : A -> list B) (l : list A) :
  (forall x, x ∈ l -> f x = g x) -> flat_map f l = flat_map g l.
Proof.
  induction l as [|x l IH]; intros H; simpl; [reflexivity|].
  rewrite (H x) by left. rewrite IH; [reflexivity|].
  intros y Hy. apply H. now right.
Qed.

Lemma schedule_ext (f g : Z -> Z) a k :
  (forall i, (a <= i < k)%Z -> f i = g i) -> schedule f a k = schedule g a k.
Proof.
  intros H. unfold schedule. f_equal.
  apply flat_map_ext_elem. intros i Hi.
  apply elem_of_seqZ in Hi. rewrite H by lia. reflexivity.
Qed.

(** The PHP loop: a run that starts in attempt [a], meets a failure
    without response in every attempt before [a + d] and stops in
    attempt [a + d]. *)
Lemma php_attemptLoop_stops (maxRetries : Z) (client : Z -> phpRequestHandler.Outcome)
  (d : nat) :
  forall a len thrown,
    (Z.of_nat d < len)%Z ->
    (a + len = maxRetries + 1)%Z ->
    (forall i, (a <= i < a + Z.of_nat d)%Z ->
               client i = phpRequestHandler.Failed phpRequestHandler.WithoutResponse) ->
    phpRequestHandler.attemptLoop maxRetries client (seqZ a len) thrown
    = (schedule phpRequestHandler.delay a (a + Z.of_nat d),
       match phpRequestHandler.executeRequest (client (a + Z.of_nat d)%Z) with
       | phpRequestHandler.Response => phpRequestHandler.Returned (a + Z.of_nat d)
       | phpRequestHandler.Error => phpRequestHandler.Uncaught (a + Z.of_nat d)
       | phpRequestHandler.RuntimeException =>
           phpRequestHandler.Rethrown (a + Z.of_nat d)
       end)
    \/ (phpRequestHandler.executeRequest (client (a + Z.of_nat d)%Z)
        = phpRequestHandler.RuntimeException
        /\ (a + Z.of_nat d)%Z <> maxRetries).
Proof.
  induction d as [|d IH]; intros a len thrown Hlen Hlast Hbefore.
  - rewrite Z.add_0_r in *. rewrite (seqZ_cons a len) by lia.
    cbn [phpRequestHandler.attemptLoop]. rewrite schedule_here.
    destruct (phpRequestHandler.executeRequest (client a)); auto.
    destruct (Z.eqb_spec a maxRetries) as [Heq|Hne]; auto.
  - rewrite (seqZ_cons a len) by lia. cbn [phpRequestHandler.attemptLoop].
    rewrite (Hbefore a) by lia. cbn [phpRequestHandler.executeRequest].
    destruct (Z.eqb_spec a maxRetries) as [Heq|_]; [lia|].
    replace (a + Z.of_nat (S d))%Z with (Z.succ a + Z.of_nat d)%Z in * by lia.
    destruct (IH (Z.succ a) (Z.pred len) true) as [Hrun|Hgoes]; try lia.
    + intros i Hi. apply Hbefore. lia.
    + left. rewrite Hrun. rewrite (schedule_step _ a) by lia. reflexivity.
    + right. exact Hgoes.
Qed.

Lemma php_attemptLoop_attempts (maxRetries : Z) (client : Z -> phpRequestHandler.Outcome)
  attempts thrown :
  attemptsMade (phpRequestHandler.attemptLoop maxRetries client attempts thrown).1
  <= length attempts.
Proof.
  unfold attemptsMade.
  revert thrown. induction attempts as [|attempt rest IH]; intros thrown;
    cbn [phpRequestHandler.attemptLoop].
  - simpl. lia.
  - destruct (phpRequestHandler.executeRequest (client attempt)); [simpl; lia | | simpl; lia].
    destruct (attempt =? maxRetries)%Z; [simpl; lia|].
    specialize (IH true).
    destruct (phpRequestHandler.attemptLoop maxRetries client rest true) as [events final].
    simpl in *. lia.
Qed.

(** C3: the retry policy is not what the PHP request module does.  A
    failure that carries a response, a 500 or a 429 as well as a 404,
    ends the call in the attempt in which it occurs: [executeRequest]
    answers it with [throw new ApiException], a class that no generated
    file declares where PHP finds it, and the error this raises passes
    the handler of [makeRequest].  One request is sent, no delay is
    taken and nothing is retried, whatever [maxRetries] allows. *)
Theorem php_makeRequest_gives_up_on_response_failure
  (maxRetries : Z) (client : Z -> phpRequestHandler.Outcome) (status : Z) :
  (1 <= maxRetries)%Z ->
  client 1%Z = phpRequestHandler.Failed (phpRequestHandler.WithResponse status) ->
  phpRequestHandler.makeRequest maxRetries client
  = ([Attempted 1], phpRequestHandler.Uncaught 1)
  /\ attemptsMade (phpRequestHandler.makeRequest maxRetries client).1 = 1%nat.
Proof.
  intros Hmax Hclient.
  assert (phpRequestHandler.makeRequest maxRetries client
          = ([Attempted 1], phpRequestHandler.Uncaught 1)) as Hrun.
  { unfold phpRequestHandler.makeRequest. rewrite (seqZ_cons 1 maxRetries) by lia.
    cbn [phpRequestHandler.attemptLoop]. now rewrite Hclient. }
  split; [exact Hrun|]. now rewrite Hrun.
Qed.

Lemma php_makeRequest_gives_up_on_response_failure_witness :
  phpRequestHandler.makeRequest 3 Examples.serverError
  = ([Attempted 1], phpRequestHandler.Uncaught 1)
  /\ nodeRequestHandler.makeRequest 3 Examples.always500
     = ([Attempted 1; Slept 1000; Attempted 2; Slept 2000; Attempted 3],
        Surfaced 3 (HttpFailure 500)).
Proof.
  split.
  - apply (php_makeRequest_gives_up_on_response_failure 3 Examples.serverError 500);
      [lia | reflexivity].
  - vm_compute. reflexivity.
Defined.

(** X1: The Node, Go and PHP request modules never attempt more often
    than [maxRetries] says (the Node module reads a configured 0 as
    3). *)
Theorem emitted_makeRequest_attempts_bounded (maxRetries : Z) :
  (forall client,
      attemptsMade (nodeRequestHandler.makeRequest maxRetries client).1
      <= Z.to_nat (nodeRequestHandler.effectiveMaxRetries maxRetries))
  /\ (forall client,
        attemptsMade (goRequestHandler.MakeRequest maxRetries client).1
        <= Z.to_nat maxRetries)
  /\ (forall client,
        attemptsMade (phpRequestHandler.makeRequest maxRetries client).1
        <= Z.to_nat maxRetries).
Proof.
  split; [|split]; intros client.
  - apply run_attempts.
  - apply run_attempts.
  - unfold phpRequestHandler.makeRequest.
    etransitivity; [apply php_attemptLoop_attempts|]. now rewrite length_seqZ.
Qed.

(** X2: In the Node request module a run stops in the first attempt
    that is answered, fails with a status in [400,500) other than 429,
    or is the last one allowed; every attempt before it is followed by
    a sleep of [min(1000 * 2^(attempt-1), 10000)] milliseconds, and the
    run ends with the response or the failure of the attempt it stops
    in. *)
Theorem node_makeRequest_schedule
  (maxRetries : Z) (client : Z -> Outcome) (k : Z) :
  (1 <= k <= maxRetries)%Z ->
  (forall i, (1 <= i < k)%Z -> retried (client i)) ->
  ~ retried (client k) \/ k = maxRetries ->
  nodeRequestHandler.makeRequest maxRetries client
  = (schedule backoff 1 k, finalOf k (client k)).
Proof.
  intros Hk Hbefore Hstop.
  unfold nodeRequestHandler.makeRequest, nodeRequestHandler.effectiveMaxRetries.
  destruct (Z.eqb_spec maxRetries 0) as [Hz|_]; [lia|].
  apply run_stops; auto.
Qed.

Lemma node_makeRequest_schedule_witness :
  nodeRequestHandler.makeRequest 5 Examples.busyThenMissing
  = ([Attempted 1; Slept 1000; Attempted 2; Slept 2000; Attempted 3],
     Surfaced 3 (HttpFailure 404)).
Proof.
  refine (node_makeRequest_schedule 5 Examples.busyThenMissing 3 _ _ _).
  - lia.
  - intros i Hi. exists (HttpFailure 503). unfold Examples.busyThenMissing.
    destruct (Z.ltb_spec i 3); [split; reflexivity | lia].
  - left. intros (error & He & Hc). vm_compute in He. injection He as <-. discriminate Hc.
Defined.

(** X3: The Go request module follows the same schedule as long as the
    run stops by the 55th attempt: up to there the 64-bit product
    [1000 * 2^(attempt-1)] does not overflow. *)
Theorem go_makeRequest_schedule
  (maxRetries : Z) (client : Z -> Outcome) (k : Z) :
  (1 <= k <= maxRetries)%Z ->
  (k <= 55)%Z ->
  (forall i, (1 <= i < k)%Z -> retried (client i)) ->
  ~ retried (client k) \/ k = maxRetries ->
  goRequestHandler.MakeRequest maxRetries client
  = (schedule backoff 1 k, finalOf k (client k)).
Proof.
  intros Hk H55 Hbefore Hstop.
  unfold goRequestHandler.MakeRequest.
  rewrite (run_stops maxRetries client _ _ k Hk); auto.
  - f_equal. apply schedule_ext. intros i Hi. apply go_delay_small. lia.
  - intros i Hi. split; [auto|]. apply go_delay_small. lia.
Qed.

Lemma go_makeRequest_schedule_witness :
  goRequestHandler.MakeRequest 3 Examples.always500
  = ([Attempted 1; Slept 1000; Attempted 2; Slept 2000; Attempted 3],
     Surfaced 3 (HttpFailure 500)).
Proof.
  apply (go_makeRequest_schedule 3 Examples.always500 3).
  - lia.
  - lia.
  - intros i Hi. exists (HttpFailure 500). split; reflexivity.
  - right. reflexivity.
Defined.

(** X4: The PHP generator declares [ApiException] inside the class
    [ErrorHandler], and its request module answers a failure that
    carries a response with [throw new ApiException], under a handler
    for [\Exception].  In that module a run whose first [k - 1]
    attempts fail without response sleeps [min(1000 * 2^(attempt-1),
    10000)] milliseconds after each of them, and ends in attempt [k]:
    with the response when there is one; with an error that the handler
    does not catch when the failure carries a response, whatever its
    status, or has no method [hasResponse], so that such a failure is
    never retried; with the failure thrown again when it has no
    response and [k] is the last attempt allowed. *)
Theorem php_makeRequest_schedule
  (maxRetries : Z) (client : Z -> phpRequestHandler.Outcome) (k : Z) :
  (1 <= k <= maxRetries)%Z ->
  (forall i, (1 <= i < k)%Z ->
             client i = phpRequestHandler.Failed phpRequestHandler.WithoutResponse) ->
  JS.includes phpGenerator.generateErrorHandler
    "class ErrorHandler
{
    /**
     * Custom API Exception
     */
    public static class ApiException extends" = true
  /\ JS.includes phpGenerator.generateRequestHandler "throw new ApiException(" = true
  /\ JS.includes phpGenerator.generateRequestHandler "} catch (\Exception $e) {" = true
  /\ (client k = phpRequestHandler.Responded ->
      phpRequestHandler.makeRequest maxRetries client
      = (schedule backoff 1 k, phpRequestHandler.Returned k))
  /\ (forall status,
        client k = phpRequestHandler.Failed (phpRequestHandler.WithResponse status) ->
        phpRequestHandler.makeRequest maxRetries client
        = (schedule backoff 1 k, phpRequestHandler.Uncaught k))
  /\ (client k = phpRequestHandler.Failed phpRequestHandler.NoSuchMethod ->
      phpRequestHandler.makeRequest maxRetries client
      = (schedule backoff 1 k, phpRequestHandler.Uncaught k))
  /\ (client k = phpRequestHandler.Failed phpRequestHandler.WithoutResponse ->
      k = maxRetries ->
      phpRequestHandler.makeRequest maxRetries client
      = (schedule backoff 1 k, phpRequestHandler.Rethrown k)).
Proof.
  intros Hk Hbefore.
  do 3 (split; [vm_compute; reflexivity |]).
  assert (Hrun :
    phpRequestHandler.makeRequest maxRetries client
    = (schedule backoff 1 k,
       match phpRequestHandler.executeRequest (client k) with
       | phpRequestHandler.Response => phpRequestHandler.Returned k
       | phpRequestHandler.Error => phpRequestHandler.Uncaught k
       | phpRequestHandler.RuntimeException => phpRequestHandler.Rethrown k
       end)
    \/ (phpRequestHandler.executeRequest (client k) = phpRequestHandler.RuntimeException
        /\ k <> maxRetries)).
  { unfold phpRequestHandler.makeRequest.
    replace k with (1 + Z.of_nat (Z.to_nat (k - 1)))%Z in * by lia.
    apply php_attemptLoop_stops; try lia. exact Hbefore. }
  repeat split.
  - intros Hc. rewrite Hc in Hrun. destruct Hrun as [Hrun|[H _]]; [exact Hrun | discriminate H].
  - intros status Hc. rewrite Hc in Hrun.
    destruct Hrun as [Hrun|[H _]]; [exact Hrun | discriminate H].
  - intros Hc. rewrite Hc in Hrun. destruct Hrun as [Hrun|[H _]]; [exact Hrun | discriminate H].
  - intros Hc Hlast. rewrite Hc in Hrun.
    destruct Hrun as [Hrun|[_ H]]; [exact Hrun | contradiction].
Qed.

Lemma php_makeRequest_schedule_witness :
  phpRequestHandler.makeRequest 3 Examples.serverError
  = ([Attempted 1], phpRequestHandler.Uncaught 1)
  /\ phpRequestHandler.makeRequest 5 Examples.offlineThenBusy
     = ([Attempted 1; Slept 1000; Attempted 2; Slept 2000; Attempted 3],
        phpRequestHandler.Uncaught 3).
Proof.
  split.
  - refine (proj1 (proj2 (proj2 (proj2 (proj2
      (php_makeRequest_schedule 3 Examples.serverError 1 _ _))))) 500%Z eq_refl).
    + lia.
    + intros i Hi. lia.
  - refine (proj1 (proj2 (proj2 (proj2 (proj2
      (php_makeRequest_schedule 5 Examples.offlineThenBusy 3 _ _))))) 503%Z eq_refl).
    + lia.
    + intros i Hi. unfold Examples.offlineThenBusy.
      destruct (Z.ltb_spec i 3); [reflexivity | lia].
Defined.

(** X5: When [maxRetries] is not positive, no request is sent and control
    reaches the statement after the loop with no error recorded: the Go
    module then returns [nil, nil], the PHP and Node modules throw the
    empty [lastError].  The Node module does so for a negative value
    only, since it replaces 0 by 3. *)
Theorem emitted_makeRequest_without_attempt (maxRetries : Z) :
  (maxRetries <= 0)%Z ->
  (forall client, goRequestHandler.MakeRequest maxRetries client = ([], FellThrough None))
  /\ (forall client,
        phpRequestHandler.makeRequest maxRetries client
        = ([], phpRequestHandler.FellThrough false))
  /\ (forall client,
        maxRetries <> 0%Z ->
        nodeRequestHandler.makeRequest maxRetries client = ([], FellThrough None))
  /\ (forall client,
        nodeRequestHandler.makeRequest 0 client = nodeRequestHandler.makeRequest 3 client).
Proof.
  intros H. split; [|split; [|split]]; intros client.
  - apply run_never_entered; exact H.
  - unfold phpRequestHandler.makeRequest. now rewrite seqZ_nil.
  - intros Hne. unfold nodeRequestHandler.makeRequest, nodeRequestHandler.effectiveMaxRetries.
    destruct (Z.eqb_spec maxRetries 0) as [Hz|_]; [contradiction|].
    apply run_never_entered; exact H.
  - reflexivity.
Qed.

Lemma emitted_makeRequest_without_attempt_witness :
  goRequestHandler.MakeRequest 0 Examples.always500 = ([], FellThrough None)
  /\ phpRequestHandler.makeRequest 0 Examples.serverError
     = ([], phpRequestHandler.FellThrough false).
Proof.
  split.
  - apply (emitted_makeRequest_without_attempt 0); lia.
  - apply (emitted_makeRequest_without_attempt 0); lia.
Defined.

(** X6: In the Go request module the shift [1<<(attempt-1)] has lost its
    only bit from the 65th attempt on, and its product by 1000 is a
    multiple of 2^64 from the 62nd on: the delay is 0 and the retries
    follow each other without pause. *)
Theorem go_delay_vanishes (attempt : Z) :
  (62 <= attempt)%Z ->
  goRequestHandler.delay attempt = 0%Z
  /\ goRequestHandler.sleep (goRequestHandler.delay attempt) = Some 0%Z.
Proof.
  intros H.
  assert (Hd : goRequestHandler.delay attempt = 0%Z).
  { unfold goRequestHandler.delay.
    assert (Hw : exists q, wrap64 (2 ^ (attempt - 1)) = (q * 2 ^ 61)%Z).
    { unfold wrap64.
      replace (attempt - 1)%Z with (61 + (attempt - 62))%Z by lia.
      rewrite Z.pow_add_r by lia.
      set (p := (2 ^ (attempt - 62))%Z).
      change (2 ^ 63)%Z with (4 * 2 ^ 61)%Z. change (2 ^ 64)%Z with (8 * 2 ^ 61)%Z.
      replace (2 ^ 61 * p + 4 * 2 ^ 61)%Z with ((p + 4) * 2 ^ 61)%Z by lia.
      rewrite Z.mul_mod_distr_r by lia.
      exists ((p + 4) mod 8 - 4)%Z. lia. }
    destruct Hw as [q ->].
    replace (1000 * (q * 2 ^ 61))%Z with (125 * q * 2 ^ 64)%Z
      by (change (2 ^ 64)%Z with (8 * 2 ^ 61)%Z; lia).
    unfold wrap64. change (2 ^ 63)%Z with 9223372036854775808%Z.
    change (2 ^ 64)%Z with 18446744073709551616%Z.
    rewrite Z.add_comm, Z.mod_add by lia.
    reflexivity. }
  split; [exact Hd|]. rewrite Hd. reflexivity.
Qed.

Lemma go_delay_vanishes_witness :
  goRequestHandler.delay 70 = 0%Z.
Proof. apply (go_delay_vanishes 70). lia. Defined.

End EmittedRetry.

(** ** The emitters: the returned object *)

Section HeapFacts.

Lemma alter_fresh {A} (f : A -> A) (σ : list A) (o : A) :
  alter f (length σ) (σ ++ [o]) = σ ++ [f o].
Proof.
  induction σ as [|x σ IH]; [reflexivity|].
  cbn. f_equal. exact IH.
Qed.

(** Assigning a property of the object allocated last. *)
Lemma set_fresh {A} (σ : Heap.Store) (o : Heap.Obj) key value (k : unit -> Heap.M A) :
  Heap.bind (Heap.set (length σ) key value) k (σ ++ [o])
  = k tt (σ ++ [Heap.assign key value o]).
Proof. unfold Heap.bind, Heap.set. f_equal. apply alter_fresh. Qed.

Lemma assign_fresh key value (o : Heap.Obj) :
  Heap.hasKey key o = false -> Heap.assign key value o = o ++ [(key, value)].
Proof. unfold Heap.assign. now intros ->. Qed.

Lemma alloc_then {A} (σ : Heap.Store) (k : Heap.Ref -> Heap.M A) :
  Heap.bind Heap.alloc k σ = k (length σ) (σ ++ [[]]).
Proof. reflexivity. Qed.

Lemma bind_returned {A B} (c : Heap.M A) (k : A -> Heap.M B) σ a σ' :
  c σ = (Ok a, σ') -> Heap.bind c k σ = k a σ'.
Proof. unfold Heap.bind. now intros ->. Qed.

End HeapFacts.

Ltac fill_sets :=
  repeat (rewrite set_fresh; rewrite assign_fresh by reflexivity; cbn [app]).

Ltac fill_fresh := rewrite alloc_then; fill_sets.

Section Artifacts.

Lemma generateNodeCode_fresh parsedData fileName σ :
  nodeGenerator.generateNodeCode parsedData fileName σ
  = (Ok (length σ), σ ++ [nodeGenerator.artifacts parsedData]).
Proof.
  unfold nodeGenerator.generateNodeCode, nodeGenerator.artifacts.
  fill_fresh. reflexivity.
Qed.

Lemma generateJavaCode_fresh parsedData fileName σ :
  javaGenerator.generateJavaCode parsedData fileName σ
  = (Ok (length σ), σ ++ [javaGenerator.artifacts parsedData]).
Proof.
  unfold javaGenerator.generateJavaCode, javaGenerator.artifacts.
  fill_fresh. reflexivity.
Qed.

Lemma generatePhpCode_fresh parsedData fileName σ :
  phpGenerator.generatePhpCode parsedData fileName σ
  = (Ok (length σ), σ ++ [phpGenerator.artifacts parsedData]).
Proof.
  unfold phpGenerator.generatePhpCode, phpGenerator.artifacts.
  fill_fresh. reflexivity.
Qed.

Lemma fresh_outcome (σ : Heap.Store) (files : Heap.Obj) :
  Heap.outcome (Ok (length σ), σ ++ [files]) = Ok (Some files).
Proof.
  unfold Heap.outcome. f_equal. now apply list_lookup_middle.
Qed.

(** What a caller observes of the Go generator is decided by the text
    of [example/main.go], which is built from the model alone. *)
Lemma generateGoCode_outcome parsedData fileName σ :
  Heap.outcome (goGenerator.generateGoCode parsedData fileName σ)
  = match goGenerator.generateExampleUsage parsedData with
    | Ok text =>
        Ok (Some
          [("go.mod", goGenerator.generateGoMod (title parsedData));
           ("client.go", goGenerator.generateApiClient parsedData);
           ("auth.go", goGenerator.generateAuthHandler (authMethod parsedData));
           ("request.go", goGenerator.generateRequestHandler);
           ("errors.go", goGenerator.generateErrorHandler);
           ("config.go", goGenerator.generateConfig);
           ("models.go", goGenerator.generateModels);
           ("client_test.go", goGenerator.generateTests parsedData);
           ("example/main.go", text);
           (".env.example", goGenerator.generateEnvExample (authMethod parsedData))])
    | Throw message => Throw message
    end.
Proof.
  unfold goGenerator.generateGoCode. fill_fresh.
  unfold Heap.bind at 1. unfold Heap.lift.
  destruct (goGenerator.generateExampleUsage parsedData) as [text|message];
    [|reflexivity].
  fill_sets. exact (fresh_outcome σ _).
Qed.

(** C5: generation is deterministic.  Two calls of a generator on the
    same model end in the same way, whatever objects exist when each
    of them starts and whatever file name it is given: the Node, Java
    and PHP generators return an object with the same file paths, in
    the same order, and the same texts; the Go generator does so too
    when it returns, and otherwise throws the same error in both
    calls (it returns when the model has no endpoint). *)
Theorem generators_deterministic (parsedData : ParsedData)
  (fileName fileName' : string) (σ σ' : Heap.Store) :
  (exists files,
      Heap.outcome (nodeGenerator.generateNodeCode parsedData fileName σ) = Ok (Some files)
      /\ Heap.outcome (nodeGenerator.generateNodeCode parsedData fileName' σ')
         = Ok (Some files))
  /\ (exists files,
        Heap.outcome (javaGenerator.generateJavaCode parsedData fileName σ) = Ok (Some files)
        /\ Heap.outcome (javaGenerator.generateJavaCode parsedData fileName' σ')
           = Ok (Some files))
  /\ (exists files,
        Heap.outcome (phpGenerator.generatePhpCode parsedData fileName σ) = Ok (Some files)
        /\ Heap.outcome (phpGenerator.generatePhpCode parsedData fileName' σ')
           = Ok (Some files))
  /\ Heap.outcome (goGenerator.generateGoCode parsedData fileName σ)
     = Heap.outcome (goGenerator.generateGoCode parsedData fileName' σ')
  /\ (endpoints parsedData = [] ->
      exists files,
        Heap.outcome (goGenerator.generateGoCode parsedData fileName σ) = Ok (Some files)
        /\ Heap.outcome (goGenerator.generateGoCode parsedData fileName' σ')
           = Ok (Some files)).
Proof.
  split; [|split; [|split; [|split]]].
  - exists (nodeGenerator.artifacts parsedData).
    rewrite !generateNodeCode_fresh, !fresh_outcome. auto.
  - exists (javaGenerator.artifacts parsedData).
    rewrite !generateJavaCode_fresh, !fresh_outcome. auto.
  - exists (phpGenerator.artifacts parsedData).
    rewrite !generatePhpCode_fresh, !fresh_outcome. auto.
  - now rewrite !generateGoCode_outcome.
  - intros Hnil. rewrite !generateGoCode_outcome.
    unfold goGenerator.generateExampleUsage. rewrite Hnil.
    cbn [firstn goGenerator.mapResult bindResult]. eauto.
Qed.


(** X8: Two calls in sequence return two different objects, and the second
    call does not touch the object of the first: no state is shared
    between calls. *)
Theorem generator_calls_do_not_interfere parsedData parsedData' fileName fileName' σ :
  (first <- nodeGenerator.generateNodeCode parsedData fileName ;;
   second <- javaGenerator.generateJavaCode parsedData' fileName' ;;
   third <- nodeGenerator.generateNodeCode parsedData' fileName' ;;
   Heap.ret (first, second, third))%heap σ
  = (Ok (length σ, S (length σ), S (S (length σ))),
     σ ++ [nodeGenerator.artifacts parsedData;
           javaGenerator.artifacts parsedData';
           nodeGenerator.artifacts parsedData']).
Proof.
  rewrite (bind_returned _ _ _ _ _ (generateNodeCode_fresh _ _ _)).
  rewrite (bind_returned _ _ _ _ _ (generateJavaCode_fresh _ _ _)).
  rewrite (bind_returned _ _ _ _ _ (generateNodeCode_fresh _ _ _)).
  unfold Heap.ret. rewrite !length_app. cbn [length].
  rewrite <- !app_assoc. cbn [app].
  repeat f_equal; lia.
Qed.

(** X9: The Go generator rejects every model that has an endpoint: building
    [example/main.go] reads the variable [operationId], which is not
    declared in [generateExampleUsage].  The object allocated by the call
    is left with the eight files assigned before. *)
Theorem generateGoCode_throws_with_endpoints parsedData fileName σ :
  endpoints parsedData <> [] ->
  goGenerator.generateGoCode parsedData fileName σ
  = (Throw "operationId is not defined",
     σ ++ [[("go.mod", goGenerator.generateGoMod (title parsedData));
            ("client.go", goGenerator.generateApiClient parsedData);
            ("auth.go", goGenerator.generateAuthHandler (authMethod parsedData));
            ("request.go", goGenerator.generateRequestHandler);
            ("errors.go", goGenerator.generateErrorHandler);
            ("config.go", goGenerator.generateConfig);
            ("models.go", goGenerator.generateModels);
            ("client_test.go", goGenerator.generateTests parsedData)]]).
Proof.
  intros Hne. unfold goGenerator.generateGoCode. fill_fresh.
  unfold Heap.bind at 1. unfold Heap.lift, goGenerator.generateExampleUsage.
  destruct (endpoints parsedData) as [|e rest]; [contradiction|].
  reflexivity.
Qed.

Lemma generateGoCode_throws_with_endpoints_witness :
  Heap.outcome (goGenerator.generateGoCode Examples.usersApi "api.json" [])
  = Throw "operationId is not defined".
Proof.
  rewrite (generateGoCode_throws_with_endpoints Examples.usersApi "api.json" []);
    [reflexivity | discriminate].
Defined.

(** X10: With no endpoint the Go generator returns a new object with its ten
    files. *)
Theorem generateGoCode_without_endpoints parsedData fileName σ :
  endpoints parsedData = [] ->
  exists text,
    goGenerator.generateExampleUsage parsedData = Ok text
    /\ goGenerator.generateGoCode parsedData fileName σ
       = (Ok (length σ),
          σ ++ [[("go.mod", goGenerator.generateGoMod (title parsedData));
                 ("client.go", goGenerator.generateApiClient parsedData);
                 ("auth.go", goGenerator.generateAuthHandler (authMethod parsedData));
                 ("request.go", goGenerator.generateRequestHandler);
                 ("errors.go", goGenerator.generateErrorHandler);
                 ("config.go", goGenerator.generateConfig);
                 ("models.go", goGenerator.generateModels);
                 ("client_test.go", goGenerator.generateTests parsedData);
                 ("example/main.go", text);
                 (".env.example", goGenerator.generateEnvExample (authMethod parsedData))]]).
Proof.
  intros Hnil. unfold goGenerator.generateGoCode, goGenerator.generateExampleUsage.
  rewrite Hnil. cbn [firstn goGenerator.mapResult bindResult].
  eexists. split; [reflexivity|].
  fill_fresh. unfold Heap.bind at 1. unfold Heap.lift.
  fill_sets. reflexivity.
Qed.

Lemma generateGoCode_without_endpoints_witness :
  exists text,
    goGenerator.generateExampleUsage Examples.noEndpoints = Ok text
    /\ Heap.outcome (goGenerator.generateGoCode Examples.noEndpoints "api.json" [])
       = Ok (Some
          [("go.mod", goGenerator.generateGoMod "Empty API");
           ("client.go", goGenerator.generateApiClient Examples.noEndpoints);
           ("auth.go", goGenerator.generateAuthHandler authNone);
           ("request.go", goGenerator.generateRequestHandler);
           ("errors.go", goGenerator.generateErrorHandler);
           ("config.go", goGenerator.generateConfig);
           ("models.go", goGenerator.generateModels);
           ("client_test.go", goGenerator.generateTests Examples.noEndpoints);
           ("example/main.go", text);
           (".env.example", goGenerator.generateEnvExample authNone)]).
Proof.
  destruct (generateGoCode_without_endpoints Examples.noEndpoints "api.json" [] eq_refl)
    as (text & Htext & Hcode).
  exists text. split; [exact Htext|]. rewrite Hcode. reflexivity.
Defined.

End Artifacts.

(** ** The emitters: the declaration of a client method *)

Section Signatures.

Lemma takesArguments_cases (e : Endpoint) :
  (0 <? length (Emit.pathParams e))%nat || (0 <? length (Emit.queryParams e))%nat
  || Emit.hasBody e = Emit.takesArguments e.
Proof. reflexivity. Qed.

Lemma methodParameterList_shape (e : Endpoint) :
  let declared := Emit.pathParams e ++ Emit.queryParams e in
  let body (text : string) := if Emit.hasBody e then [text] else [] in
  goGenerator.methodParameterList (Emit.pathParams e) (Emit.queryParams e) (Emit.hasBody e)
    = map (fun p => JS.str (p_name p) +:+ " string") declared ++ body "body interface{}"
  /\ javaGenerator.methodParameterList (Emit.pathParams e) (Emit.queryParams e) (Emit.hasBody e)
    = map (fun p => "String " +:+ JS.str (p_name p)) declared ++ body "Object body"
  /\ phpGenerator.methodParameterList (Emit.pathParams e) (Emit.queryParams e) (Emit.hasBody e)
    = map (fun p => "?string $" +:+ JS.str (p_name p) +:+ " = null") declared
      ++ body "?array $body = null".
Proof.
  unfold goGenerator.methodParameterList, javaGenerator.methodParameterList,
    phpGenerator.methodParameterList.
  cbv zeta. cbn [app]. rewrite !map_app.
  destruct (Emit.hasBody e); rewrite ?app_nil_r; repeat split.
Qed.

(** X11: The parameters that the Go, Java and PHP emitters declare for an
    endpoint are its path parameters in order, then its query parameters
    in order, then one body parameter when the endpoint has a request
    body and its verb is neither GET nor DELETE; their number is the
    number of path parameters plus the number of query parameters plus
    one for the body. *)
Theorem methodParameterList_order_and_arity (e : Endpoint) :
  let declared := Emit.pathParams e ++ Emit.queryParams e in
  let body (text : string) := if Emit.hasBody e then [text] else [] in
  goGenerator.methodParameterList (Emit.pathParams e) (Emit.queryParams e) (Emit.hasBody e)
    = map (fun p => JS.str (p_name p) +:+ " string") declared ++ body "body interface{}"
  /\ javaGenerator.methodParameterList (Emit.pathParams e) (Emit.queryParams e) (Emit.hasBody e)
    = map (fun p => "String " +:+ JS.str (p_name p)) declared ++ body "Object body"
  /\ phpGenerator.methodParameterList (Emit.pathParams e) (Emit.queryParams e) (Emit.hasBody e)
    = map (fun p => "?string $" +:+ JS.str (p_name p) +:+ " = null") declared
      ++ body "?array $body = null"
  /\ length (goGenerator.methodParameterList
               (Emit.pathParams e) (Emit.queryParams e) (Emit.hasBody e))
     = Emit.expectedArity e
  /\ length (javaGenerator.methodParameterList
               (Emit.pathParams e) (Emit.queryParams e) (Emit.hasBody e))
     = Emit.expectedArity e
  /\ length (phpGenerator.methodParameterList
               (Emit.pathParams e) (Emit.queryParams e) (Emit.hasBody e))
     = Emit.expectedArity e.
Proof.
  pose proof (methodParameterList_shape e) as Hshape. cbv zeta in *.
  destruct Hshape as (Hgo & Hjava & Hphp).
  split; [exact Hgo|]. split; [exact Hjava|]. split; [exact Hphp|].
  rewrite Hgo, Hjava, Hphp. unfold Emit.expectedArity.
  rewrite !length_app, !length_map, !length_app.
  destruct (Emit.hasBody e); cbn [length]; repeat split; lia.
Qed.

Lemma node_method_header (e : Endpoint) :
  JS.startsWith (nodeGenerator.generateEndpointMethod e)
    ("  /**
   * " +:+ Emit.headline e +:+ "
   * @param {Object} options - Request options
   * @returns {Promise<Object>} API response
   */
  async " +:+ operationId e +:+ "(options = {}) {") = true.
Proof.
  unfold JS.startsWith, nodeGenerator.generateEndpointMethod. cbv zeta.
  apply prefix_append_l.
  destruct (0 <? length (Emit.pathParams e))%nat, (0 <? length (Emit.queryParams e))%nat;
    [ do 2 apply prefix_append_l | do 2 apply prefix_append_l
    | apply prefix_append_l | ];
    apply prefix_refl.
Qed.

(** X12: Whatever the parameters of the endpoint, the method that the Node
    emitter writes declares the single parameter [options]. *)
Theorem node_method_declares_options (e : Endpoint) :
  JS.startsWith (nodeGenerator.generateEndpointMethod e)
    ("  /**
   * " +:+ Emit.headline e +:+ "
   * @param {Object} options - Request options
   * @returns {Promise<Object>} API response
   */
  async " +:+ operationId e +:+ "(options = {}) {") = true.
Proof. exact (node_method_header e). Qed.

(** X13: For an endpoint with a path parameter, a query parameter or a body,
    the Go and the PHP emitter write the parameter list after the empty
    pair of parentheses that follows the method name. *)
Theorem go_php_method_keeps_empty_parentheses (e : Endpoint) :
  Emit.takesArguments e = true ->
  JS.includes (goGenerator.generateEndpointMethod e)
    ("func (c *ApiClient) " +:+ JS.capitalize (operationId e) +:+ "()("
     +:+ goGenerator.generateMethodParameters
           (Emit.pathParams e) (Emit.queryParams e) (Emit.hasBody e)
     +:+ ") (*ApiResponse, error) {") = true
  /\ JS.includes (phpGenerator.generateEndpointMethod e)
    ("public function " +:+ operationId e +:+ "()("
     +:+ phpGenerator.generateMethodParameters
           (Emit.pathParams e) (Emit.queryParams e) (Emit.hasBody e)
     +:+ "): ApiResponse") = true.
Proof.
  intros Hargs. split.
  - unfold goGenerator.generateEndpointMethod. cbv zeta.
    rewrite takesArguments_cases, Hargs.
    apply includes_append_l. spell. find_inside.
  - unfold phpGenerator.generateEndpointMethod. cbv zeta.
    rewrite takesArguments_cases, Hargs.
    apply includes_append_l.
    destruct (negb (String.eqb (description e) "")); spell; find_inside.
Qed.

Lemma go_php_method_keeps_empty_parentheses_witness :
  JS.includes (goGenerator.generateEndpointMethod Examples.listUsers)
    "func (c *ApiClient) ListUsers()(limit string) (*ApiResponse, error) {" = true
  /\ JS.includes (phpGenerator.generateEndpointMethod Examples.listUsers)
    "public function listUsers()(?string $limit = null): ApiResponse" = true.
Proof.
  apply (go_php_method_keeps_empty_parentheses Examples.listUsers). reflexivity.
Defined.

(** The text of the Java method up to the name, and the text that
    follows the first [()]. *)
Lemma java_signature_split (e : Endpoint) :
  JS.includes (Emit.headline e) "(" = false ->
  JS.includes (description e) "(" = false ->
  JS.includes (operationId e) "(" = false ->
  exists before,
    ("    /**
     * " +:+ Emit.headline e +:+ "
     * " +:+ (if negb (String.eqb (description e) "") then "
     * " +:+ description e else "") +:+ "
     * @return ApiResponse API response
     * @throws Exception if request fails
     */
    public ApiResponse " +:+ operationId e +:+ "() throws Exception {")
    = (before +:+ "public ApiResponse " +:+ operationId e) +:+ "()" +:+ " throws Exception {"
    /\ JS.allChars (fun x => negb (Ascii.eqb x "(")) (before +:+ "public ApiResponse " +:+ operationId e) = true.
Proof.
  intros Hh%includes_char Hd%includes_char Ho%includes_char.
  exists ("    /**
     * " +:+ Emit.headline e +:+ "
     * " +:+ (if negb (String.eqb (description e) "") then "
     * " +:+ description e else "") +:+ "
     * @return ApiResponse API response
     * @throws Exception if request fails
     */
    ").
  split.
  - rewrite !append_assoc. reflexivity.
  - destruct (negb (String.eqb (description e) ""));
      rewrite !allChars_append, ?Hh, ?Hd, ?Ho; reflexivity.
Qed.

Lemma java_parameters_plain (e : Endpoint) :
  Forall (fun p => JS.includes (JS.str (p_name p)) "$" = false)
    (Emit.pathParams e ++ Emit.queryParams e) ->
  JS.allChars (fun x => negb (Ascii.eqb x "$"))
    (javaGenerator.generateMethodParameters
       (Emit.pathParams e) (Emit.queryParams e) (Emit.hasBody e)) = true.
Proof.
  intros Hnames.
  unfold javaGenerator.generateMethodParameters. apply allChars_concat; [reflexivity|].
  pose proof (methodParameterList_shape e) as Hlist.
  cbv zeta in Hlist. destruct Hlist as (_ & -> & _).
  apply Forall_app. split.
  - apply Forall_map. eapply Forall_impl; [exact Hnames|].
    intros p Hp%includes_char. cbn beta.
    now rewrite allChars_append, Hp.
  - destruct (Emit.hasBody e); repeat constructor.
Qed.

Lemma java_method_signature (e : Endpoint) :
  Emit.takesArguments e = true ->
  JS.includes (Emit.headline e) "(" = false ->
  JS.includes (description e) "(" = false ->
  JS.includes (operationId e) "(" = false ->
  Forall (fun p => JS.includes (JS.str (p_name p)) "$" = false)
    (Emit.pathParams e ++ Emit.queryParams e) ->
  JS.includes (javaGenerator.generateEndpointMethod e)
    ("public ApiResponse " +:+ operationId e +:+ "("
     +:+ javaGenerator.generateMethodParameters
           (Emit.pathParams e) (Emit.queryParams e) (Emit.hasBody e)
     +:+ ") throws Exception {") = true.
Proof.
  intros Hargs Hh Hd Ho Hnames.
  unfold javaGenerator.generateEndpointMethod. cbv zeta.
  rewrite takesArguments_cases, Hargs.
  apply includes_append_l.
  destruct (java_signature_split e Hh Hd Ho) as (before & -> & Hfresh).
  rewrite (replace_first_parens _ _ _ Hfresh).
  rewrite expandReplacement_plain.
  - rewrite !append_assoc. apply includes_skip.
    apply includes_prefix. same_start.
  - rewrite !allChars_append, (java_parameters_plain e Hnames). reflexivity.
Qed.

(** X14: When neither the headline, the description nor the operation id of
    an endpoint holds an opening parenthesis, and no declared name holds
    a dollar sign, the Java emitter declares the parameters of the
    endpoint between the parentheses that follow the method name. *)
Theorem java_method_declares_parameters (e : Endpoint) :
  Emit.takesArguments e = true ->
  JS.includes (Emit.headline e) "(" = false ->
  JS.includes (description e) "(" = false ->
  JS.includes (operationId e) "(" = false ->
  Forall (fun p => JS.includes (JS.str (p_name p)) "$" = false)
    (Emit.pathParams e ++ Emit.queryParams e) ->
  JS.includes (javaGenerator.generateEndpointMethod e)
    ("public ApiResponse " +:+ operationId e +:+ "("
     +:+ javaGenerator.generateMethodParameters
           (Emit.pathParams e) (Emit.queryParams e) (Emit.hasBody e)
     +:+ ") throws Exception {") = true.
Proof. exact (java_method_signature e). Qed.

Lemma java_method_declares_parameters_witness :
  JS.includes (javaGenerator.generateEndpointMethod Examples.listUsers)
    "public ApiResponse listUsers(String limit) throws Exception {" = true.
Proof.
  apply (java_method_declares_parameters Examples.listUsers);
    [reflexivity | reflexivity | reflexivity | reflexivity | repeat constructor].
Defined.

(** X15: When the headline of an endpoint shows a pair of parentheses (as in
    [Same as save()]), the Java emitter writes the parameter list into
    the comment, in place of that pair, and leaves the declaration of
    the method without parameters. *)
Theorem java_method_loses_parameters (e : Endpoint) (shown after : string) :
  Emit.takesArguments e = true ->
  Emit.headline e = shown +:+ "()" +:+ after ->
  JS.includes shown "(" = false ->
  Forall (fun p => JS.includes (JS.str (p_name p)) "$" = false)
    (Emit.pathParams e ++ Emit.queryParams e) ->
  JS.startsWith (javaGenerator.generateEndpointMethod e)
    ("    /**
     * " +:+ shown +:+ "("
     +:+ javaGenerator.generateMethodParameters
           (Emit.pathParams e) (Emit.queryParams e) (Emit.hasBody e)
     +:+ ")" +:+ after) = true
  /\ JS.includes (javaGenerator.generateEndpointMethod e)
       ("public ApiResponse " +:+ operationId e +:+ "() throws Exception {") = true.
Proof.
  intros Hargs Hhead Hshown%includes_char Hnames.
  unfold javaGenerator.generateEndpointMethod, JS.startsWith. cbv zeta.
  rewrite takesArguments_cases, Hargs, Hhead.
  set (rest := (after +:+ "
     * " +:+ (if negb (String.eqb (description e) "") then "
     * " +:+ description e else "") +:+ "
     * @return ApiResponse API response
     * @throws Exception if request fails
     */
    public ApiResponse " +:+ operationId e +:+ "() throws Exception {")).
  set (parameters := "(" +:+ javaGenerator.generateMethodParameters
                      (Emit.pathParams e) (Emit.queryParams e) (Emit.hasBody e) +:+ ")").
  match goal with
  | |- context [JS.replace ?text "()" parameters] =>
      replace text with (("    /**
     * " +:+ shown) +:+ "()" +:+ rest)
        by (subst rest; now rewrite !append_assoc)
  end.
  rewrite replace_first_parens
    by (rewrite allChars_append, Hshown; reflexivity).
  rewrite expandReplacement_plain
    by (subst parameters; rewrite !allChars_append, (java_parameters_plain e Hnames);
        reflexivity).
  split.
  - apply prefix_append_l. subst parameters rest. rewrite !append_assoc.
    do 5 apply prefix_cancel. apply prefix_append.
  - apply includes_append_l. subst rest.
    destruct (negb (String.eqb (description e) ""));
      rewrite !append_assoc; do 6 apply includes_skip; find_inside.
Qed.

Lemma java_method_loses_parameters_witness :
  JS.startsWith (javaGenerator.generateEndpointMethod Examples.updateUser)
    "    /**
     * Same as save(String id, String notify, Object body)" = true
  /\ JS.includes (javaGenerator.generateEndpointMethod Examples.updateUser)
       "public ApiResponse updateUser() throws Exception {" = true.
Proof.
  apply (java_method_loses_parameters Examples.updateUser "Same as save" "");
    [reflexivity | reflexivity | reflexivity | repeat constructor].
Defined.

Lemma no_arguments (e : Endpoint) :
  Emit.takesArguments e = false ->
  Emit.pathParams e = [] /\ Emit.queryParams e = [] /\ Emit.hasBody e = false.
Proof.
  unfold Emit.takesArguments.
  intros [[Hp Hq]%orb_false_iff Hb]%orb_false_iff.
  destruct (Emit.pathParams e); [|discriminate Hp].
  destruct (Emit.queryParams e); [|discriminate Hq].
  auto.
Qed.

(** C1 (as stated, refuted): the endpoint [GET /users] has one query
    parameter, [limit], so that the method generated for it should
    declare one parameter; the method of the Node emitter declares
    [options] and no [limit]. *)
Lemma node_signature_ignores_parameters :
  map p_name (Emit.pathParams Examples.listUsers ++ Emit.queryParams Examples.listUsers)
  = [Some "limit"]
  /\ Emit.expectedArity Examples.listUsers = 1
  /\ JS.includes (nodeGenerator.generateEndpointMethod Examples.listUsers)
       "async listUsers(options = {}) {" = true
  /\ JS.includes (nodeGenerator.generateEndpointMethod Examples.listUsers)
       "async listUsers(limit" = false.
Proof. vm_compute. repeat split. Qed.

(** C1 (amended): every emitter writes one method for each endpoint of
    the model, in the order of the endpoints, into its client file.
    The method of the Node emitter declares the single parameter
    [options], whatever the endpoint.  The parameter list that the Go,
    Java and PHP emitters compute for the method is the path parameters
    of the endpoint in their order, then its query parameters, then one
    body parameter exactly when the endpoint has a request body and its
    verb is neither GET nor DELETE; its length is the sum of the three
    counts.  The Go and PHP emitters write that list in parentheses
    into the method; the Java emitter declares it after the name of the
    method when neither the headline, the description nor the operation
    id holds an opening parenthesis and no parameter name a dollar
    sign. *)
Theorem emitted_method_parameters (parsedData : ParsedData) (e : Endpoint) :
  let declared := Emit.pathParams e ++ Emit.queryParams e in
  let body (text : string) := if Emit.hasBody e then [text] else [] in
  (nodeGenerator.endpointMethods parsedData
   = map nodeGenerator.generateEndpointMethod (endpoints parsedData)
   /\ JS.includes (nodeGenerator.generateApiClient parsedData)
        (JS.join (JS.nl +:+ JS.nl) (nodeGenerator.endpointMethods parsedData)) = true)
  /\ (goGenerator.endpointMethods parsedData
      = map goGenerator.generateEndpointMethod (endpoints parsedData)
      /\ JS.includes (goGenerator.generateApiClient parsedData)
           (JS.join (JS.nl +:+ JS.nl) (goGenerator.endpointMethods parsedData)) = true)
  /\ (javaGenerator.endpointMethods parsedData
      = map javaGenerator.generateEndpointMethod (endpoints parsedData)
      /\ JS.includes (javaGenerator.generateApiClient parsedData)
           (JS.join (JS.nl +:+ JS.nl) (javaGenerator.endpointMethods parsedData)) = true)
  /\ (phpGenerator.endpointMethods parsedData
      = map phpGenerator.generateEndpointMethod (endpoints parsedData)
      /\ JS.includes (phpGenerator.generateApiClient parsedData)
           (JS.join (JS.nl +:+ JS.nl) (phpGenerator.endpointMethods parsedData)) = true)
  /\ JS.startsWith (nodeGenerator.generateEndpointMethod e)
       ("  /**
   * " +:+ Emit.headline e +:+ "
   * @param {Object} options - Request options
   * @returns {Promise<Object>} API response
   */
  async " +:+ operationId e +:+ "(options = {}) {") = true
  /\ (goGenerator.methodParameterList (Emit.pathParams e) (Emit.queryParams e) (Emit.hasBody e)
      = map (fun p => JS.str (p_name p) +:+ " string") declared ++ body "body interface{}"
      /\ length (goGenerator.methodParameterList
                   (Emit.pathParams e) (Emit.queryParams e) (Emit.hasBody e))
         = Emit.expectedArity e
      /\ JS.includes (goGenerator.generateEndpointMethod e)
           ("(" +:+ JS.join ", " (goGenerator.methodParameterList
                                    (Emit.pathParams e) (Emit.queryParams e) (Emit.hasBody e))
            +:+ ")") = true)
  /\ (phpGenerator.methodParameterList (Emit.pathParams e) (Emit.queryParams e) (Emit.hasBody e)
      = map (fun p => "?string $" +:+ JS.str (p_name p) +:+ " = null") declared
        ++ body "?array $body = null"
      /\ length (phpGenerator.methodParameterList
                   (Emit.pathParams e) (Emit.queryParams e) (Emit.hasBody e))
         = Emit.expectedArity e
      /\ JS.includes (phpGenerator.generateEndpointMethod e)
           ("(" +:+ JS.join ", " (phpGenerator.methodParameterList
                                    (Emit.pathParams e) (Emit.queryParams e) (Emit.hasBody e))
            +:+ ")") = true)
  /\ (javaGenerator.methodParameterList (Emit.pathParams e) (Emit.queryParams e) (Emit.hasBody e)
      = map (fun p => "String " +:+ JS.str (p_name p)) declared ++ body "Object body"
      /\ length (javaGenerator.methodParameterList
                   (Emit.pathParams e) (Emit.queryParams e) (Emit.hasBody e))
         = Emit.expectedArity e
      /\ (JS.includes (Emit.headline e) "(" = false ->
          JS.includes (description e) "(" = false ->
          JS.includes (operationId e) "(" = false ->
          Forall (fun p => JS.includes (JS.str (p_name p)) "$" = false) declared ->
          JS.includes (javaGenerator.generateEndpointMethod e)
            ("public ApiResponse " +:+ operationId e +:+ "("
             +:+ JS.join ", " (javaGenerator.methodParameterList
                                 (Emit.pathParams e) (Emit.queryParams e) (Emit.hasBody e))
             +:+ ") throws Exception {") = true)).
Proof.
  pose proof (methodParameterList_shape e) as Hshape. cbv zeta in *.
  destruct Hshape as (Hgo & Hjava & Hphp).
  assert (forall (A : Type) (f : Param -> A) (text : A),
             length (map f (Emit.pathParams e ++ Emit.queryParams e)
                     ++ (if Emit.hasBody e then [text] else []))
             = Emit.expectedArity e) as Hlength.
  { intros A f text. unfold Emit.expectedArity.
    rewrite !length_app, !length_map, !length_app.
    destruct (Emit.hasBody e); cbn [length]; lia. }
  split; [|split; [|split; [|split; [|split; [|split; [|split]]]]]].
  - split; [reflexivity|]. unfold nodeGenerator.generateApiClient. find_inside.
  - split; [reflexivity|]. unfold goGenerator.generateApiClient. find_inside.
  - split; [reflexivity|]. unfold javaGenerator.generateApiClient. find_inside.
  - split; [reflexivity|]. unfold phpGenerator.generateApiClient. find_inside.
  - exact (node_method_header e).
  - split; [exact Hgo|]. split; [rewrite Hgo; apply Hlength|].
    change (JS.join ", " (goGenerator.methodParameterList
                            (Emit.pathParams e) (Emit.queryParams e) (Emit.hasBody e)))
      with (goGenerator.generateMethodParameters
              (Emit.pathParams e) (Emit.queryParams e) (Emit.hasBody e)).
    unfold goGenerator.generateEndpointMethod. cbv zeta.
    rewrite takesArguments_cases.
    destruct (Emit.takesArguments e) eqn:Hargs.
    + apply includes_append_l. spell. find_inside.
    + destruct (no_arguments e Hargs) as (-> & -> & ->).
      apply includes_append_l. spell. cbn [goGenerator.generateMethodParameters
        goGenerator.methodParameterList map app JS.join]. spell. find_inside.
  - split; [exact Hphp|]. split; [rewrite Hphp; apply Hlength|].
    change (JS.join ", " (phpGenerator.methodParameterList
                            (Emit.pathParams e) (Emit.queryParams e) (Emit.hasBody e)))
      with (phpGenerator.generateMethodParameters
              (Emit.pathParams e) (Emit.queryParams e) (Emit.hasBody e)).
    unfold phpGenerator.generateEndpointMethod. cbv zeta.
    rewrite takesArguments_cases.
    destruct (Emit.takesArguments e) eqn:Hargs.
    + apply includes_append_l.
      destruct (negb (String.eqb (description e) "")); spell; find_inside.
    + destruct (no_arguments e Hargs) as (-> & -> & ->).
      apply includes_append_l.
      cbn [phpGenerator.generateMethodParameters
        phpGenerator.methodParameterList map app JS.join].
      destruct (negb (String.eqb (description e) "")); spell; find_inside.
  - split; [exact Hjava|]. split; [rewrite Hjava; apply Hlength|].
    intros Hh Hd Ho Hnames.
    change (JS.join ", " (javaGenerator.methodParameterList
                            (Emit.pathParams e) (Emit.queryParams e) (Emit.hasBody e)))
      with (javaGenerator.generateMethodParameters
              (Emit.pathParams e) (Emit.queryParams e) (Emit.hasBody e)).
    destruct (Emit.takesArguments e) eqn:Hargs.
    + exact (java_method_signature e Hargs Hh Hd Ho Hnames).
    + unfold javaGenerator.generateEndpointMethod. cbv zeta.
      rewrite takesArguments_cases, Hargs.
      destruct (no_arguments e Hargs) as (-> & -> & ->).
      apply includes_append_l.
      cbn [javaGenerator.generateMethodParameters
        javaGenerator.methodParameterList map app JS.join].
      destruct (negb (String.eqb (description e) "")); spell; find_inside.
Qed.

End Signatures.

(** ** The OpenAPI/Swagger normalizer: endpoints, ids and responses *)

Section SwaggerEndpoints.
Import swaggerParser.

Lemma verb_upper m : m ∈ httpMethods -> JS.toUpperCase m ∈ canonicalVerbs.
Proof.
  unfold httpMethods, canonicalVerbs. rewrite !elem_of_cons, elem_of_nil.
  intros [->|[->|[->|[->|[->|[->|[->|[]]]]]]]];
    vm_compute; auto 10.
Qed.

Lemma verb_lower_upper m : m ∈ httpMethods -> JS.toLowerCase (JS.toUpperCase m) = m.
Proof.
  unfold httpMethods. rewrite !elem_of_cons, elem_of_nil.
  intros [->|[->|[->|[->|[->|[->|[->|[]]]]]]]]; reflexivity.
Qed.

Lemma verb_is_word m : m ∈ httpMethods -> JS.allChars JS.isWord m = true.
Proof.
  unfold httpMethods. rewrite !elem_of_cons, elem_of_nil.
  intros [->|[->|[->|[->|[->|[->|[->|[]]]]]]]]; reflexivity.
Qed.

Lemma replaceNonAlnum_is_word s :
  JS.allChars JS.isWord (JS.replaceNonAlnum JS.underscore s) = true.
Proof.
  apply allChars_mapChars. intros c. unfold JS.isWord.
  destruct (JS.isAlnum c) eqn:Hc; [now rewrite Hc | reflexivity].
Qed.

(** X17: The endpoints of a document are the operations stored under one of
    the seven lower-case verb keys of a path item, one endpoint each;
    any other key of a path item ([parameters], [summary], [GET], ...)
    yields nothing. *)
Theorem swagger_endpoints_are_verb_operations (api : Api) (e : Endpoint) :
  e ∈ extractEndpoints api
  <-> exists key pathItem m op,
        (key, pathItem) ∈ default [] (api_paths api)
        /\ (m, op) ∈ pathItem
        /\ m ∈ httpMethods
        /\ e = endpointOf api key m op.
Proof.
  split; [apply swagger_endpoint_origin|].
  intros (key & pathItem & m & op & Hk & Hm & Hverb & ->).
  unfold extractEndpoints.
  apply list_elem_of_In, in_flat_map. exists (key, pathItem).
  split; [now apply list_elem_of_In|].
  apply in_flat_map. exists (m, op). split; [now apply list_elem_of_In|].
  rewrite bool_decide_eq_true_2 by exact Hverb. now left.
Qed.

(** X18: Every endpoint of the normalizer carries one of the seven verbs in
    upper case, and its path is a key of [paths]. *)
Theorem swagger_methods_are_canonical (api : Api) (e : Endpoint) :
  e ∈ extractEndpoints api ->
  method e ∈ canonicalVerbs
  /\ path e ∈ map fst (default [] (api_paths api)).
Proof.
  intros (key & pathItem & m & op & Hk & Hm & Hverb & ->)%swagger_endpoint_origin.
  split; [now apply verb_upper|].
  cbn [endpointOf path]. apply list_elem_of_In, in_map_iff.
  exists (key, pathItem). split; [reflexivity | now apply list_elem_of_In].
Qed.

Lemma swagger_methods_are_canonical_witness :
  method (endpointOf Examples.relativePathKey "pets" "get" Examples.emptyOperation)
    ∈ canonicalVerbs
  /\ path (endpointOf Examples.relativePathKey "pets" "get" Examples.emptyOperation)
    ∈ map fst (default [] (api_paths Examples.relativePathKey)).
Proof.
  apply (swagger_methods_are_canonical Examples.relativePathKey).
  apply list_elem_of_here.
Defined.

(** X19: An operation that declares no [operationId] (or an empty one) gets
    the verb, an underscore and the path with every character that is
    not a letter or digit replaced by an underscore: an identifier made
    of word characters that begins with the verb. *)
Theorem swagger_default_operationId (api : Api) (key m : string) (op : Operation) :
  m ∈ httpMethods ->
  JS.truthy_str (op_operationId op) = false ->
  let e := endpointOf api key m op in
  operationId e
    = JS.toLowerCase (method e) +:+ "_" +:+ JS.replaceNonAlnum JS.underscore (path e)
  /\ JS.allChars JS.isWord (operationId e) = true
  /\ String.length (operationId e) = String.length m + 1 + String.length key.
Proof.
  intros Hverb Hid. cbv zeta. cbn [endpointOf operationId method path].
  assert (JS.or_str (op_operationId op)
            (m +:+ "_" +:+ JS.replaceNonAlnum JS.underscore key)
          = m +:+ "_" +:+ JS.replaceNonAlnum JS.underscore key) as ->.
  { destruct (op_operationId op) as [s|]; [|reflexivity].
    cbn in Hid. apply negb_false_iff in Hid. cbn. now rewrite Hid. }
  rewrite (verb_lower_upper m Hverb). split; [reflexivity|]. split.
  - rewrite !allChars_append, (verb_is_word m Hverb), replaceNonAlnum_is_word. reflexivity.
  - rewrite !length_append. unfold JS.replaceNonAlnum. rewrite length_mapChars.
    cbn [String.length]. lia.
Qed.

Lemma swagger_default_operationId_witness :
  operationId (endpointOf Examples.relativePathKey "/pets/{id}" "get" Examples.emptyOperation)
  = "get__pets__id_".
Proof.
  pose proof (swagger_default_operationId Examples.relativePathKey "/pets/{id}" "get"
                Examples.emptyOperation) as H.
  cbv zeta in H. destruct H as (H & _).
  - unfold httpMethods. set_solver.
  - reflexivity.
  - rewrite H. reflexivity.
Defined.

Lemma addResponse_lookup extracted entry code :
  code <> "__proto__" ->
  addResponse extracted entry !! code
  = if bool_decide (entry.1 = code)
    then addResponse ∅ entry !! code
    else extracted !! code.
Proof.
  intros Hcode. destruct entry as [c r]. unfold addResponse. cbn [fst].
  case_bool_decide as Hc.
  - subst c. destruct (String.eqb_spec code "__proto__") as [Heq|_]; [contradiction|].
    now rewrite !lookup_insert_eq.
  - destruct (String.eqb c "__proto__"); [reflexivity|]. now rewrite lookup_insert_ne.
Qed.

Lemma addResponse_prototype responses :
  forall extracted,
    foldl addResponse extracted responses !! "__proto__" = extracted !! "__proto__".
Proof.
  induction responses as [|[c r] responses IH]; intros extracted; [reflexivity|].
  cbn [foldl]. rewrite IH. unfold addResponse.
  destruct (String.eqb_spec c "__proto__") as [Heq|Hne]; [reflexivity|].
  now rewrite lookup_insert_ne.
Qed.

Lemma find_append {A} (f : A -> bool) (l l' : list A) :
  List.find f (l ++ l')
  = match List.find f l with Some x => Some x | None => List.find f l' end.
Proof.
  induction l as [|x l IH]; [reflexivity|].
  cbn [app List.find]. now destruct (f x).
Qed.

Lemma extractResponses_lookup_aux responses extracted code :
  code <> "__proto__" ->
  foldl addResponse extracted responses !! code
  = match List.find (fun entry => bool_decide (entry.1 = code)) (rev responses) with
    | Some entry => addResponse ∅ entry !! code
    | None => extracted !! code
    end.
Proof.
  intros Hcode.
  revert extracted. induction responses as [|entry responses IH]; intros extracted.
  - reflexivity.
  - cbn [foldl rev]. rewrite IH, find_append.
    destruct (List.find _ (rev responses)) as [found|]; [reflexivity|].
    cbn [List.find]. rewrite addResponse_lookup by exact Hcode.
    now destruct (bool_decide (entry.1 = code)).
Qed.

(** X20: The response map has an entry for a status code exactly when
    the operation declares that code and the code is not [__proto__],
    a name whose assignment changes the prototype of the map instead;
    the entry carries the declared description (or the empty string)
    and a media type that is never empty. *)
Theorem swagger_responses_by_code (responses : list (string * ResponseObject))
  (code : string) :
  (extractResponses responses !! code = None
   <-> code ∉ map fst responses \/ code = "__proto__")
  /\ (forall d, extractResponses responses !! code = Some d ->
        r_mediaType d <> ""
        /\ exists response,
             (code, response) ∈ responses
             /\ r_description d = JS.or_str (ro_description response) "").
Proof.
  unfold extractResponses.
  destruct (String.eqb_spec code "__proto__") as [->|Hcode].
  { rewrite addResponse_prototype, lookup_empty. split; [|discriminate].
    split; auto. }
  rewrite extractResponses_lookup_aux by exact Hcode.
  destruct (List.find _ (rev responses)) as [[c r]|] eqn:Hfind.
  - apply find_some in Hfind as [Hin Hc]. apply bool_decide_eq_true_1 in Hc.
    cbn [fst] in Hc. subst c. apply in_rev, list_elem_of_In in Hin.
    unfold addResponse.
    destruct (String.eqb_spec code "__proto__") as [Heq|_]; [contradiction|].
    rewrite lookup_insert_eq. split.
    + split; [discriminate|]. intros [Hnot|Heq]; [|contradiction]. exfalso. apply Hnot.
      apply list_elem_of_In, in_map_iff. exists (code, r).
      split; [reflexivity | now apply list_elem_of_In].
    + intros d [= <-]. cbn [r_mediaType r_description]. split; [|eauto].
      unfold firstMediaType, JS.or_str.
      destruct (fst <$> head _) as [k|]; [|discriminate].
      destruct (String.eqb k "") eqn:Hk; [discriminate|].
      now apply String.eqb_neq in Hk.
  - rewrite lookup_empty. split; [|discriminate].
    split; [|reflexivity]. intros _. left. intros Hin.
    apply list_elem_of_In, in_map_iff in Hin as ([c r] & Hc & Hin).
    cbn [fst] in Hc. subst c.
    apply in_rev in Hin.
    apply (find_none _ _ Hfind) in Hin. cbn [fst] in Hin.
    now rewrite bool_decide_eq_true_2 in Hin.
Qed.

End SwaggerEndpoints.

(** ** The three normalizers: authentication, verbs and operation ids *)

Section AuthTypes.

Lemma scanSchemes_type entries :
  am_type (swaggerParser.scanSchemes entries) ∈ authTypes.
Proof.
  induction entries as [|[k s] entries IH]; cbn [swaggerParser.scanSchemes].
  - unfold authTypes. repeat constructor.
  - rewrite switchScheme_by_type.
    destruct (swaggerParser.ss_type s) as [t|]; [|exact IH].
    repeat match goal with
           | |- context [if ?b then _ else _] => destruct b
           end; try exact IH; cbn [am_type]; unfold authTypes; repeat constructor.
Qed.

(** The [switch] of the Postman [extractAuthMethod] with its cases told
    apart by string comparison. *)
Lemma postman_extractAuthMethod_by_type collection :
  postmanParser.extractAuthMethod collection
  = match postmanParser.c_auth collection with
    | None => authNone
    | Some auth =>
        match postmanParser.a_type auth with
        | Some t =>
            if String.eqb t "bearer" then
              mkAuthMethod "bearer" (Some "Authorization") None
                (Some "Bearer token authentication")
            else if String.eqb t "apikey" then
              mkAuthMethod "apiKey" (Some (postmanParser.apikeyName auth)) (Some "header")
                (Some "API Key authentication")
            else if String.eqb t "basic" then
              mkAuthMethod "basic" (Some "Authorization") None (Some "Basic authentication")
            else if String.eqb t "oauth2" then
              mkAuthMethod "oauth2" (Some "Authorization") None
                (Some "OAuth 2.0 authentication")
            else authNone
        | None => authNone
        end
    end.
Proof.
  unfold postmanParser.extractAuthMethod.
  destruct (postmanParser.c_auth collection) as [auth|]; [|reflexivity].
  destruct (postmanParser.a_type auth) as [t|]; [|reflexivity].
  repeat split_character t.
Qed.

Lemma or_str_nonempty s d : d <> "" -> JS.or_str s d <> "".
Proof.
  intros Hd. unfold JS.or_str. destruct s as [v|]; [|exact Hd].
  destruct (String.eqb_spec v ""); [exact Hd | assumption].
Qed.

(** X22: Whatever the input, each normalizer tags the authentication with
    one of [none], [bearer], [apiKey], [basic], [oauth2]; an [apiKey]
    found by the Postman or the HTML normalizer is located in the header
    and has a name that is not empty. *)
Theorem normalizers_auth_type_closed :
  (forall api, am_type (swaggerParser.extractAuthMethod api) ∈ authTypes)
  /\ (forall collection,
        let a := postmanParser.extractAuthMethod collection in
        am_type a ∈ authTypes
        /\ (am_type a = "apiKey" ->
            am_in a = Some "header" /\ exists name, am_name a = Some name /\ name <> ""))
  /\ (forall doc,
        let a := htmlParser.extractAuthMethod doc in
        am_type a ∈ authTypes
        /\ (am_type a = "apiKey" ->
            am_in a = Some "header" /\ exists name, am_name a = Some name /\ name <> "")).
Proof.
  split; [|split].
  - intros api. apply scanSchemes_type.
  - intros collection. cbv zeta. rewrite postman_extractAuthMethod_by_type.
    destruct (postmanParser.c_auth collection) as [auth|];
      [|split; [unfold authTypes; repeat constructor | discriminate]].
    destruct (postmanParser.a_type auth) as [t|];
      [|split; [unfold authTypes; repeat constructor | discriminate]].
    repeat match goal with
           | |- context [if ?b then _ else _] => destruct b
           end; cbn [am_type am_in am_name authNone];
      (split; [unfold authTypes; repeat constructor|]); try discriminate.
    intros _. split; [reflexivity|]. eexists. split; [reflexivity|].
    apply or_str_nonempty. discriminate.
  - intros doc. cbv zeta. unfold htmlParser.extractAuthMethod.
    repeat match goal with
           | |- context [if ?b then _ else _] => destruct b
           end; cbn [am_type am_in am_name authNone];
      (split; [unfold authTypes; repeat constructor|]); try discriminate.
    intros _. split; [reflexivity|]. eexists. split; [reflexivity | discriminate].
Qed.

End AuthTypes.

Section PostmanRequests.
Import postmanParser.
Variable newURL : string -> option URL.

Lemma upperChar_not_lower c : JS.isLower (JS.upperChar c) = false.
Proof. destruct c as [[] [] [] [] [] [] [] []]; reflexivity. Qed.

Lemma toUpperCase_no_lower s :
  JS.allChars (fun c => negb (JS.isLower c)) (JS.toUpperCase s) = true.
Proof.
  apply allChars_mapChars. intros c. now rewrite upperChar_not_lower.
Qed.

Lemma toUpperCase_nonempty s : s <> "" -> JS.toUpperCase s <> "".
Proof. destruct s; [congruence | discriminate]. Qed.

(** X23: What becomes of a request item is decided by a few of its
    parts.  It yields no endpoint, without error, exactly when its
    request is a string or is missing, or has no [url], an empty string
    as [url], or a [url] object without [raw].  The extraction throws
    exactly when the request says where it goes and the [path] of its
    [url] object is a string, or its [header] is a string that is not
    empty, or the [header] of one of the saved responses is a string.
    In every other case there is an endpoint. *)
Theorem postman_request_outcome (item : Item) (parentPath : string) :
  (forall request,
      it_request item = Some (RequestObject request) ->
      extractEndpointFromRequest newURL item parentPath = Ok None
      <-> rq_url request = None
          \/ rq_url request = Some (UrlString "")
          \/ exists u, rq_url request = Some (UrlObj u) /\ JS.truthy_str (u_raw u) = false)
  /\ ((exists request, it_request item = Some (RequestObject request)) \/
      extractEndpointFromRequest newURL item parentPath = Ok None)
  /\ ((exists message, extractEndpointFromRequest newURL item parentPath = Throw message)
      <-> hasLocation item = true
          /\ (pathIsString item = true \/ headerIsString item = true
              \/ responseHeaderIsString item = true))
  /\ ((exists e, extractEndpointFromRequest newURL item parentPath = Ok (Some e))
      <-> hasLocation item = true
          /\ pathIsString item = false /\ headerIsString item = false
          /\ responseHeaderIsString item = false).
Proof.
  pose proof (extractEndpointFromRequest_cases newURL item parentPath) as Hcases.
  split; [|split; [|split]].
  - intros request Hreq.
    assert (hasLocation item = false
            <-> rq_url request = None
                \/ rq_url request = Some (UrlString "")
                \/ exists u, rq_url request = Some (UrlObj u)
                             /\ JS.truthy_str (u_raw u) = false) as <-.
    { unfold hasLocation. rewrite Hreq.
      destruct (rq_url request) as [[s|u]|].
      - destruct (String.eqb_spec s "") as [->|Hs]; cbn [negb].
        + split; auto.
        + split; [discriminate|]. intros [H|[H|(u & H & _)]]; congruence.
      - split.
        + intros Hraw. right. right. eauto.
        + intros [H|[H|(u' & H & Hu')]]; congruence.
      - split; auto. }
    destruct (extractEndpointFromRequest newURL item parentPath) as [[e|]|m].
    + destruct Hcases as (Hloc & _). split; [discriminate | congruence].
    + split; auto.
    + destruct Hcases as (Hloc & _). split; [discriminate | congruence].
  - unfold extractEndpointFromRequest.
    destruct (it_request item) as [[request|s]|]; eauto.
  - destruct (extractEndpointFromRequest newURL item parentPath) as [[e|]|m].
    + destruct Hcases as (Hloc & Hp & Hh & Hr). split.
      * intros [m Hm]. discriminate Hm.
      * intros (_ & [H|[H|H]]); congruence.
    + split.
      * intros [m Hm]. discriminate Hm.
      * intros (H & _). congruence.
    + split; [auto | eauto].
  - destruct (extractEndpointFromRequest newURL item parentPath) as [[e|]|m].
    + split; [auto | eauto].
    + split.
      * intros [e He]. discriminate He.
      * intros (H & _). congruence.
    + destruct Hcases as (Hloc & Hshape). split.
      * intros [e He]. discriminate He.
      * intros (_ & Hp & Hh & Hr). destruct Hshape as [H|[H|H]]; congruence.
Qed.

End PostmanRequests.

Lemma postman_request_outcome_witness :
  postmanParser.extractEndpointFromRequest Examples.httpURL Examples.itemWithoutRaw "users"
  = Ok None
  /\ (exists message,
        postmanParser.extractEndpointFromRequest Examples.httpURL Examples.itemWithStringPath ""
        = Throw message)
  /\ (exists e,
        postmanParser.extractEndpointFromRequest Examples.httpURL (Examples.itemsRequest []) ""
        = Ok (Some e)).
Proof.
  split; [|split].
  - apply (proj1 (postman_request_outcome Examples.httpURL Examples.itemWithoutRaw "users")
             Examples.requestWithoutRaw eq_refl).
    right. right. eexists. split; reflexivity.
  - apply (proj1 (proj2 (proj2
             (postman_request_outcome Examples.httpURL Examples.itemWithStringPath "")))).
    split; [reflexivity | left; reflexivity].
  - apply (proj2 (proj2 (proj2
             (postman_request_outcome Examples.httpURL (Examples.itemsRequest []) "")))).
    repeat split.
Defined.

Section PostmanFolders.
Import postmanParser.
Variable newURL : string -> option URL.

Lemma join_cons_cons sep (x y : string) l :
  JS.join sep (x :: y :: l) = x +:+ sep +:+ JS.join sep (y :: l).
Proof. reflexivity. Qed.

Lemma join_nonempty (folders : list string) :
  Forall (fun f => f <> "") folders -> folders <> [] -> JS.join "/" folders <> "".
Proof.
  intros Hall Hne. destruct Hall as [|x l Hx _]; [congruence|].
  destruct l as [|y l]; [exact Hx|].
  rewrite join_cons_cons. destruct x; [congruence | discriminate].
Qed.

Lemma join_snoc (folders : list string) (name : string) :
  Forall (fun f => f <> "") folders ->
  JS.join "/" (folders ++ [name]) = folderPathOf (JS.join "/" folders) (Some name)
  \/ name = "".
Proof.
  destruct (String.eqb_spec name "") as [->|Hname]; [now right|]. left.
  unfold folderPathOf.
  assert (JS.or_str (Some name) "unnamed" = name) as ->.
  { unfold JS.or_str. now destruct (String.eqb_spec name ""). }
  induction H as [|x l Hx Hl IH]; [reflexivity|].
  destruct (String.eqb_spec (JS.join "/" (x :: l)) "") as [He|_].
  { exfalso. revert He. apply join_nonempty; [now constructor | discriminate]. }
  destruct l as [|y l].
  - reflexivity.
  - cbn [app]. rewrite !join_cons_cons. cbn [app] in IH. rewrite IH.
    destruct (String.eqb_spec (JS.join "/" (y :: l)) "") as [He|_].
    { exfalso. revert He. apply join_nonempty; [exact Hl | discriminate]. }
    now rewrite !append_assoc.
Qed.

Lemma folderPathOf_join (folders : list string) (name : option string) :
  Forall (fun f => f <> "") folders ->
  folderPathOf (JS.join "/" folders) name
  = JS.join "/" (folders ++ [JS.or_str name "unnamed"]).
Proof.
  intros Hall.
  destruct (join_snoc folders (JS.or_str name "unnamed") Hall) as [->|He].
  - unfold folderPathOf.
    assert (JS.or_str (Some (JS.or_str name "unnamed")) "unnamed" = JS.or_str name "unnamed")
      as ->; [|reflexivity].
    unfold JS.or_str at 1.
    destruct (String.eqb_spec (JS.or_str name "unnamed") "") as [He|_]; [|reflexivity].
    exfalso. revert He. apply or_str_nonempty. discriminate.
  - exfalso. revert He. apply or_str_nonempty. discriminate.
Qed.

Lemma leavesOfItem_folders item :
  forall folders,
    Forall (fun f => f <> "") folders ->
    leavesOfItem (JS.join "/" folders) item
    = map (fun leaf => (leaf.1, JS.join "/" leaf.2)) (foldersAbove folders item)
    /\ Forall (fun leaf => Forall (fun f => f <> "") leaf.2) (foldersAbove folders item).
Proof.
  induction item as [name description request sub response IH] using Item_nested_ind.
  intros folders Hall. cbn [leavesOfItem foldersAbove].
  destruct (hasRequest request).
  - cbn. split; [reflexivity | repeat constructor; exact Hall].
  - destruct sub as [items|]; [|cbn; split; [reflexivity | constructor]].
    cbn [leavesOfItem foldersAbove].
    rewrite (folderPathOf_join folders name Hall).
    assert (Forall (fun f => f <> "") (folders ++ [JS.or_str name "unnamed"])) as Hall'.
    { apply Forall_app. split; [exact Hall|]. repeat constructor.
      apply or_str_nonempty. discriminate. }
    specialize (IH items eq_refl).
    induction IH as [|o items Ho _ IHitems]; [split; [reflexivity | constructor]|].
    cbn [flat_map]. destruct IHitems as [-> Hrest]. rewrite map_app.
    destruct o as [i|].
    + destruct (Ho i eq_refl _ Hall') as [-> Hi].
      split; [reflexivity | now apply Forall_app].
    + split; [reflexivity | exact Hrest].
Qed.

(** Every endpoint returned stems from a leaf request of the
    collection, extracted under the path of the folders above it. *)
Lemma endpoint_of_leaf_folders (collection : Collection) (e : Endpoint) :
  e ∈ produced (extractEndpoints newURL collection) ->
  exists item folders,
    (item, folders) ∈ leafFolders (default [] (c_item collection))
    /\ extractEndpointFromRequest newURL item (JS.join "/" folders) = Ok (Some e)
    /\ Forall (fun f => f <> "") folders.
Proof.
  intros (item & pp & Hleaf & He)%endpoint_of_some_leaf.
  unfold leafRequests in Hleaf.
  apply list_elem_of_In, in_flat_map in Hleaf as (o & Ho & Hleaf).
  destruct o as [i|]; [|destruct Hleaf].
  destruct (leavesOfItem_folders i [] (List.Forall_nil _)) as [Heq Hall].
  change (JS.join "/" []) with "" in Heq. rewrite Heq in Hleaf.
  apply in_map_iff in Hleaf as ([item' folders] & [= <- <-] & Hin).
  exists item', folders.
  pose proof (proj1 (List.Forall_forall _ _) Hall _ Hin) as Hfolders.
  cbn [snd fst] in *.
  split; [|split; [exact He | exact Hfolders]].
  unfold leafFolders. apply list_elem_of_In, in_flat_map.
  exists (Some i). split; [exact Ho | exact Hin].
Qed.

(** X24: The method of a Postman endpoint is the upper-cased method of
    the request of the collection it stems from, [GET] when that
    request names none: it is never empty and holds no lower-case
    letter, but need not be one of the seven verbs.  The summary of the
    endpoint is the name of the item that holds the request, or the
    empty string. *)
Theorem postman_method_upper_case (collection : Collection) (e : Endpoint) :
  e ∈ produced (extractEndpoints newURL collection) ->
  method e <> ""
  /\ JS.allChars (fun c => negb (JS.isLower c)) (method e) = true
  /\ exists item folders request,
       (item, folders) ∈ leafFolders (default [] (c_item collection))
       /\ it_request item = Some (RequestObject request)
       /\ extractEndpointFromRequest newURL item (JS.join "/" folders) = Ok (Some e)
       /\ method e = JS.toUpperCase (JS.or_str (rq_method request) "GET")
       /\ summary e = JS.or_str (it_name item) "".
Proof.
  intros (item & folders & Hleaf & He & _)%endpoint_of_leaf_folders.
  destruct (extractEndpointFromRequest_shape newURL _ _ _ He)
    as (_ & _ & request & url & fullUrl & path0 & query & headers
        & Hreq & _ & _ & _ & Hm & Hs & _).
  rewrite Hm. split; [|split].
  - apply toUpperCase_nonempty, or_str_nonempty. discriminate.
  - apply toUpperCase_no_lower.
  - exists item, folders, request. rewrite <- Hm. auto.
Qed.

(** X25: The tag of a Postman endpoint is the path of the folders above its
    request: their names from the outermost inwards joined by [/], a
    folder without a name counting as [unnamed].  A request at the top
    of the collection has no tag, every other request has exactly
    one. *)
Theorem postman_tag_is_folder_path (collection : Collection) (e : Endpoint) :
  e ∈ produced (extractEndpoints newURL collection) ->
  exists item folders,
    (item, folders) ∈ leafFolders (default [] (c_item collection))
    /\ extractEndpointFromRequest newURL item (JS.join "/" folders) = Ok (Some e)
    /\ Forall (fun f => f <> "") folders
    /\ tags e = match folders with [] => [] | _ => [JS.join "/" folders] end.
Proof.
  intros (item & folders & Hleaf & He & Hfolders)%endpoint_of_leaf_folders.
  exists item, folders. split; [exact Hleaf|]. split; [exact He|]. split; [exact Hfolders|].
  destruct (extractEndpointFromRequest_shape newURL _ _ _ He) as (_ & -> & _).
  destruct folders as [|f folders]; [reflexivity|].
  destruct (String.eqb_spec (JS.join "/" (f :: folders)) "") as [Hempty|_]; [|reflexivity].
  exfalso. revert Hempty. apply join_nonempty; [exact Hfolders | discriminate].
Qed.

End PostmanFolders.

Lemma postman_method_upper_case_witness :
  exists e,
    e ∈ produced (postmanParser.extractEndpoints Examples.httpURL Examples.twoFolders)
    /\ method e = "GET"
    /\ summary e = "List items"
    /\ method e <> ""
    /\ JS.allChars (fun c => negb (JS.isLower c)) (method e) = true.
Proof.
  let l := eval vm_compute in
      (produced (postmanParser.extractEndpoints Examples.httpURL Examples.twoFolders)) in
  match l with
  | [?e; _] =>
      assert (He : e ∈ produced (postmanParser.extractEndpoints Examples.httpURL
                                   Examples.twoFolders))
        by (apply (list_elem_of_lookup_2 _ 0); vm_compute; reflexivity);
      exists e;
      destruct (postman_method_upper_case Examples.httpURL Examples.twoFolders e He)
        as (Hne & Hupper & _)
  end.
  split; [exact He|]. split; [reflexivity|]. split; [reflexivity|].
  split; [exact Hne | exact Hupper].
Defined.

Lemma postman_tag_is_folder_path_witness :
  exists e,
    e ∈ produced (postmanParser.extractEndpoints Examples.httpURL Examples.twoFolders)
    /\ tags e = ["admin"]
    /\ exists item folders,
         (item, folders) ∈ leafFolders (default [] (postmanParser.c_item Examples.twoFolders))
         /\ postmanParser.extractEndpointFromRequest Examples.httpURL item (JS.join "/" folders)
            = Ok (Some e)
         /\ Forall (fun f => f <> "") folders
         /\ tags e = match folders with [] => [] | _ => [JS.join "/" folders] end.
Proof.
  let l := eval vm_compute in
      (produced (postmanParser.extractEndpoints Examples.httpURL Examples.twoFolders)) in
  match l with
  | [_; ?e] =>
      assert (He : e ∈ produced (postmanParser.extractEndpoints Examples.httpURL
                                   Examples.twoFolders))
        by (apply (list_elem_of_lookup_2 _ 1); vm_compute; reflexivity);
      exists e;
      pose proof (postman_tag_is_folder_path Examples.httpURL Examples.twoFolders e He)
        as Htag
  end.
  split; [exact He|]. split; [reflexivity | exact Htag].
Defined.

(** ** The HTML normalizer: failure, verbs, paths and parameters *)

Section HtmlFailure.
Import htmlParser.
Variable newURL : string -> option URL.

Lemma baseUrlFromCodeBlocks_throws_inv codeBlocks message :
  baseUrlFromCodeBlocks newURL codeBlocks = Throw message ->
  message = "Invalid URL"
  /\ exists pre text post urlMatch,
       codeBlocks = pre ++ text :: post
       /\ Forall (fun t => matchUrl t = None) pre
       /\ matchUrl text = Some urlMatch
       /\ newURL urlMatch = None.
Proof.
  induction codeBlocks as [|text rest IH]; cbn [baseUrlFromCodeBlocks]; [discriminate|].
  destruct (matchUrl text) as [urlMatch|] eqn:Hm.
  - destruct (newURL urlMatch) as [url|] eqn:Hu; [discriminate|].
    intros [= <-]. split; [reflexivity|].
    exists [], text, rest, urlMatch. repeat split; auto.
  - intros (-> & pre & text' & post & urlMatch & -> & Hpre & Hm' & Hu)%IH.
    split; [reflexivity|].
    exists (text :: pre), text', post, urlMatch. repeat split; auto.
Qed.

(** X27: The normalizer fails in one situation only: no element mentions a
    base URL next to a URL, and the first code block that shows a URL
    shows one that [new URL] rejects.  The message is then always the
    same.  In every other case a model is returned. *)
Theorem parseHtmlDocs_fails_only_on_invalid_code_url (doc : Document) :
  (forall message,
      parseHtmlDocs newURL doc = Throw message
      <-> message = "Failed to parse HTML documentation: Invalid URL"
          /\ baseUrlFromPatterns doc baseUrlPatterns = None
          /\ exists pre text post urlMatch,
               d_codeBlocks doc = pre ++ text :: post
               /\ Forall (fun t => matchUrl t = None) pre
               /\ matchUrl text = Some urlMatch
               /\ newURL urlMatch = None)
  /\ ((forall message, parseHtmlDocs newURL doc <> Throw message) ->
      exists parsed,
        parseHtmlDocs newURL doc = Ok parsed
        /\ endpoints parsed = extractEndpoints newURL doc
        /\ authMethod parsed = extractAuthMethod doc
        /\ version parsed = "1.0.0"
        /\ title parsed <> "").
Proof.
  split.
  - intros message. rewrite parseHtmlDocs_throws_iff. split.
    + intros (m & Hm & ->). unfold extractBaseUrl in Hm.
      destruct (baseUrlFromPatterns doc baseUrlPatterns) as [found|]; [discriminate|].
      apply baseUrlFromCodeBlocks_throws_inv in Hm as (-> & Hblocks).
      auto.
    + intros (-> & Hpat & pre & text & post & urlMatch & Hblocks & Hpre & Hm & Hu).
      exists "Invalid URL". split; [|reflexivity].
      unfold extractBaseUrl. rewrite Hpat, Hblocks.
      now apply (baseUrlFromCodeBlocks_throws newURL pre text post urlMatch).
  - intros Hreturns. unfold parseHtmlDocs in *.
    destruct (extractBaseUrl newURL doc) as [baseUrl|m]; cbn [bindResult] in *.
    + eexists. split; [reflexivity|]. cbn [endpoints authMethod version title].
      repeat split. apply or_str_nonempty. discriminate.
    + exfalso. eapply Hreturns. reflexivity.
Qed.

End HtmlFailure.

Section HtmlPatterns.
Import htmlParser.
Variable newURL : string -> option URL.

Lemma leftmost_some {A} (at_ : string -> option A) (s : string) (r : A) :
  leftmost at_ s = Some r -> exists suffix, at_ suffix = Some r.
Proof.
  induction s as [|c s IH]; cbn [leftmost].
  - destruct (at_ "") eqn:H; [|discriminate]. intros [= <-]. eauto.
  - destruct (at_ (String c s)) eqn:H; [intros [= <-]; eauto | exact IH].
Qed.

Lemma upper_of_lower_char c : JS.upperChar (JS.lowerChar c) = JS.upperChar c.
Proof. destruct c as [[] [] [] [] [] [] [] []]; reflexivity. Qed.

Lemma upper_of_lower s : JS.toUpperCase (JS.toLowerCase s) = JS.toUpperCase s.
Proof.
  induction s as [|c s IH]; [reflexivity|].
  cbn. rewrite upper_of_lower_char. f_equal. exact IH.
Qed.

Lemma firstPrefixCI_some ws s m r :
  firstPrefixCI ws s = Some (m, r) -> JS.toLowerCase m ∈ ws.
Proof.
  induction ws as [|w ws IH]; cbn [firstPrefixCI]; [discriminate|].
  unfold prefixCI.
  destruct (String.eqb_spec (JS.toLowerCase (JS.takeChars (String.length w) s)) w) as [He|_].
  - intros [= <- _]. rewrite He. apply list_elem_of_here.
  - intros H. apply list_elem_of_further, IH, H.
Qed.

Lemma methodAt_verb s m r :
  methodAt s = Some (m, r) -> JS.toUpperCase m ∈ canonicalVerbs.
Proof.
  intros H%firstPrefixCI_some. rewrite <- upper_of_lower.
  now apply verb_upper.
Qed.

Lemma letter_is_path_char c :
  JS.isLower (JS.lowerChar c) = true -> isPathChar c = true /\ c <> "/"%char.
Proof.
  destruct c as [[] [] [] [] [] [] [] []]; intros H;
    first [discriminate H | split; [reflexivity | discriminate]].
Qed.

Lemma verb_letters w :
  w ∈ ["get"; "post"; "put"; "delete"; "patch"; "head"; "options"] ->
  JS.allChars JS.isLower w = true /\ w <> "".
Proof.
  rewrite !elem_of_cons, elem_of_nil.
  intros [->|[->|[->|[->|[->|[->|[->|[]]]]]]]]; split; (reflexivity || discriminate).
Qed.

Lemma cleanPath_letters m :
  JS.allChars JS.isLower (JS.toLowerCase m) = true ->
  cleanPath m = m /\ (m <> "" -> JS.startsWith m "/" = false).
Proof.
  intros H. split.
  - induction m as [|c m IH]; [reflexivity|].
    cbn in H. apply andb_true_iff in H as [Hc Hm].
    unfold cleanPath. cbn [JS.filterChars].
    destruct (letter_is_path_char c Hc) as [-> _]. f_equal. apply IH, Hm.
  - destruct m as [|c m]; [congruence|]. intros _.
    cbn in H. apply andb_true_iff in H as [Hc _].
    destruct (letter_is_path_char c Hc) as [_ Hne].
    unfold JS.startsWith. cbn [String.prefix].
    destruct (ascii_dec "/" c) as [He|_]; [congruence | reflexivity].
Qed.

Lemma inferMethodFromContext_verb text : inferMethodFromContext text ∈ canonicalVerbs.
Proof.
  unfold inferMethodFromContext, canonicalVerbs.
  repeat match goal with
         | |- context [if ?b then _ else _] => destruct b
         end; repeat constructor.
Qed.

(** X28: The method of an HTML endpoint is one of the seven verbs in upper
    case, except when only the second pattern ([path verb], the verb
    last) matches the text: the code reads the groups of that pattern
    in the order of the first, so the endpoint gets the upper-cased text
    before the verb as its method and the verb as its path. *)
Theorem html_method_is_verb_or_swapped (text : string) (element : Element) (e : Endpoint) :
  parseEndpointFromText newURL text element = Some e ->
  method e ∈ canonicalVerbs
  \/ (leftmost methodPathAt text = None
      /\ exists before verb,
           leftmost pathMethodAt text = Some (before, verb)
           /\ JS.toUpperCase verb ∈ canonicalVerbs
           /\ method e = JS.toUpperCase before
           /\ path e = "/" +:+ verb).
Proof.
  unfold parseEndpointFromText, methodPatterns. cbn [firstPattern].
  destruct (leftmost methodPathAt text) as [[g1 g2]|] eqn:H1.
  { intros [= <-]. left. cbn [method].
    apply leftmost_some in H1 as (s & H1). unfold methodPathAt in H1.
    destruct (methodAt s) as [[m r1]|] eqn:Hm; [|discriminate].
    destruct (String.eqb r1 _); [discriminate|].
    destruct (String.eqb _ ""); [discriminate|].
    injection H1 as <- _. eapply methodAt_verb, Hm. }
  destruct (leftmost pathMethodAt text) as [[g1 g2]|] eqn:H2.
  { intros [= <-]. right. split; [reflexivity|]. exists g1, g2.
    apply leftmost_some in H2 as (s & H2). unfold pathMethodAt in H2.
    destruct (String.eqb _ ""); [discriminate|].
    destruct (String.eqb _ _); [discriminate|].
    destruct (methodAt _) as [[m r]|] eqn:Hm; [|discriminate].
    injection H2 as _ <-.
    split; [reflexivity|]. split; [eapply methodAt_verb, Hm|].
    split; [reflexivity|]. cbn [path].
    apply firstPrefixCI_some in Hm. apply verb_letters in Hm as [Hletters Hne].
    destruct (cleanPath_letters m Hletters) as [-> Hslash].
    rewrite Hslash; [reflexivity|].
    intros ->. now apply Hne. }
  destruct (leftmost methodColonPathAt text) as [[g1 g2]|] eqn:H3.
  { intros [= <-]. left. cbn [method].
    apply leftmost_some in H3 as (s & H3). unfold methodColonPathAt in H3.
    destruct (methodAt s) as [[m r1]|] eqn:Hm; [|discriminate].
    destruct (JS.dropWhileChars JS.isSpace r1) as [|c r2]; [discriminate|].
    destruct (Ascii.eqb c ":"); [|discriminate].
    destruct (String.eqb _ ""); [discriminate|].
    injection H3 as <- _. eapply methodAt_verb, Hm. }
  destruct (matchUrl text) as [urlMatch|]; [|discriminate].
  destruct (newURL urlMatch) as [url|]; [|discriminate].
  intros [= <-]. left. apply inferMethodFromContext_verb.
Qed.

(** X29: When one of the three method patterns matches, the path of the
    endpoint begins with [/] and holds only word characters, [/], [-],
    [{] and [}]; its [fullUrl] is that path, not a URL. *)
Theorem html_pattern_path_characters (text : string) (element : Element) (e : Endpoint) :
  parseEndpointFromText newURL text element = Some e ->
  firstPattern methodPatterns text <> None ->
  JS.allChars isPathChar (path e) = true
  /\ JS.startsWith (path e) "/" = true
  /\ fullUrl e = path e.
Proof.
  unfold parseEndpointFromText.
  destruct (firstPattern methodPatterns text) as [[g1 g2]|]; [|congruence].
  intros [= <-] _. cbn [path fullUrl].
  split; [|split; [apply startsWith_slash_fix | reflexivity]].
  destruct (JS.startsWith (cleanPath g2) "/").
  - apply allChars_filterChars.
  - rewrite allChars_append. cbn [JS.allChars andb].
    unfold cleanPath. rewrite allChars_filterChars. reflexivity.
Qed.

End HtmlPatterns.

Lemma html_method_is_verb_or_swapped_witness :
  exists e,
    htmlParser.parseEndpointFromText Examples.httpURL "/users GET" Examples.verbLast = Some e
    /\ method e = "/USERS"
    /\ path e = "/GET"
    /\ (method e ∈ canonicalVerbs
        \/ (htmlParser.leftmost htmlParser.methodPathAt "/users GET" = None
            /\ exists before verb,
                 htmlParser.leftmost htmlParser.pathMethodAt "/users GET" = Some (before, verb)
                 /\ JS.toUpperCase verb ∈ canonicalVerbs
                 /\ method e = JS.toUpperCase before
                 /\ path e = "/" +:+ verb)).
Proof.
  let r := eval vm_compute in (htmlParser.parseEndpointFromText Examples.httpURL "/users GET" Examples.verbLast) in
  match r with
  | Some ?e =>
      exists e;
      pose proof (html_method_is_verb_or_swapped Examples.httpURL "/users GET" Examples.verbLast e eq_refl)
        as Hmethod
  end.
  split; [reflexivity|]. split; [reflexivity|]. split; [reflexivity | exact Hmethod].
Defined.

Lemma html_pattern_path_characters_witness :
  exists e,
    htmlParser.parseEndpointFromText Examples.httpURL "GET /items/{i.d}" Examples.verbLast = Some e
    /\ path e = "/items/{id}"
    /\ JS.allChars htmlParser.isPathChar (path e) = true
    /\ JS.startsWith (path e) "/" = true
    /\ fullUrl e = path e.
Proof.
  let r := eval vm_compute in
      (htmlParser.parseEndpointFromText Examples.httpURL "GET /items/{i.d}" Examples.verbLast) in
  match r with
  | Some ?e =>
      exists e;
      pose proof (html_pattern_path_characters Examples.httpURL "GET /items/{i.d}" Examples.verbLast e eq_refl)
        as Hpath
  end.
  split; [reflexivity|]. split; [reflexivity|]. apply Hpath. discriminate.
Defined.

Section HtmlParameters.
Import htmlParser.

Lemma pushParameters_distinct location names parameters :
  location = "path" \/ location = "query" ->
  NoDup (map p_name parameters) ->
  Forall foundParameter parameters ->
  NoDup (map p_name (pushParameters location names parameters))
  /\ Forall foundParameter (pushParameters location names parameters)
  /\ parameters `prefix_of` pushParameters location names parameters.
Proof.
  intros Hloc. revert parameters.
  induction names as [|paramName names IH]; intros parameters Hnodup Hall;
    cbn [pushParameters]; [repeat split; auto|].
  destruct (existsb _ parameters) eqn:Hseen; [now apply IH|].
  destruct (IH (parameters
                ++ [mkParam (Some paramName) (Some location) false "string" ""
                      (Some (JStr "")) None None])) as (H1 & H2 & H3).
  - rewrite map_app. apply NoDup_app. split; [exact Hnodup|]. split.
    + intros n Hn Hn'. cbn in Hn'. apply list_elem_of_singleton in Hn'. subst n.
      apply list_elem_of_In, in_map_iff in Hn as (p & Hp & Hin).
      assert (existsb (fun p => bool_decide (p_name p = Some paramName)) parameters = true)
        as Hyes; [|congruence].
      apply existsb_exists. exists p. split; [exact Hin | now apply bool_decide_eq_true_2].
    + cbn. apply NoDup_singleton.
  - apply Forall_app. split; [exact Hall|]. constructor; [|constructor].
    unfold foundParameter. cbn [p_name p_in p_required p_type].
    split; [eauto|]. split; [|split; reflexivity].
    destruct Hloc as [-> | ->]; auto.
  - repeat split; auto. etrans; [|exact H3]. now apply prefix_app_r.
Qed.

(** X30: The parameters the HTML normalizer reads off a text bear pairwise
    different names: a name found by an earlier pattern (in braces,
    then in a query string, then before a colon) is not added again.
    Each is optional, of type string, and located in the path or in the
    query. *)
Theorem html_parameters_distinct_names (text : string) :
  NoDup (map p_name (extractParametersFromText text))
  /\ Forall foundParameter (extractParametersFromText text)
  /\ Forall (fun p => p_in p = Some "path")
       (pushParameters "path" (execAll bracedAt 0 text) []).
Proof.
  unfold extractParametersFromText.
  destruct (pushParameters_distinct "path" (execAll bracedAt 0 text) [])
    as (H1 & H2 & _); [auto | constructor | constructor |].
  destruct (pushParameters_distinct "query" (execAll queryAt 0 text)
              (pushParameters "path" (execAll bracedAt 0 text) []))
    as (H3 & H4 & _); [auto | exact H1 | exact H2 |].
  destruct (pushParameters_distinct "query" (execAll keyValueAt 0 text)
              (pushParameters "query" (execAll queryAt 0 text)
                 (pushParameters "path" (execAll bracedAt 0 text) [])))
    as (H5 & H6 & _); [auto | exact H3 | exact H4 |].
  split; [exact H5|]. split; [exact H6|].
  generalize (execAll bracedAt 0 text). intros names.
  assert (forall parameters,
             Forall (fun p => p_in p = Some "path") parameters ->
             Forall (fun p => p_in p = Some "path") (pushParameters "path" names parameters))
    as Hpath; [|apply Hpath; constructor].
  induction names as [|n names IH]; intros parameters Hall; cbn [pushParameters]; [exact Hall|].
  apply IH. destruct (existsb _ parameters); [exact Hall|].
  apply Forall_app. split; [exact Hall | repeat constructor].
Qed.

End HtmlParameters.

(** ** From the normalizers to the emitters *)

Section Manifests.

Lemma slug_char c :
  let c' := if JS.isLower c || JS.isDigit c then c else JS.hyphen in
  JS.isLower c' || JS.isDigit c' || Ascii.eqb c' "-" = true.
Proof.
  cbv zeta. destruct (JS.isLower c || JS.isDigit c) eqn:Hc; [now rewrite Hc | reflexivity].
Qed.

(** X16: The replacement that follows the lower-casing of a title
    leaves only lower-case letters, digits and hyphens, whatever text
    it is applied to; so the package name derived from a title holds
    only such characters, whatever the title.  That name is what the Go
    module line and the name in [package.json] are built from. *)
Theorem slug_characters (title : string) :
  (forall lowered,
      JS.allChars (fun c => JS.isLower c || JS.isDigit c || Ascii.eqb c "-")
        (JS.replaceNonSlug lowered) = true)
  /\ JS.slug title = JS.replaceNonSlug (JS.toLowerCase title)
  /\ JS.allChars (fun c => JS.isLower c || JS.isDigit c || Ascii.eqb c "-") (JS.slug title)
     = true
  /\ JS.startsWith (goGenerator.generateGoMod title) ("module " +:+ JS.slug title) = true
  /\ JS.includes (nodeGenerator.generatePackageJson title)
       (JS.dq +:+ "name" +:+ JS.dq +:+ ": " +:+ JS.dq +:+ JS.slug title
        +:+ "-integration" +:+ JS.dq) = true.
Proof.
  assert (forall lowered,
             JS.allChars (fun c => JS.isLower c || JS.isDigit c || Ascii.eqb c "-")
               (JS.replaceNonSlug lowered) = true) as Hchars.
  { intros lowered. unfold JS.replaceNonSlug. apply allChars_mapChars. exact slug_char. }
  split; [exact Hchars|]. split; [reflexivity|]. split; [apply Hchars|]. split.
  - unfold JS.startsWith, goGenerator.generateGoMod.
    rewrite <- append_assoc. apply prefix_append.
  - unfold nodeGenerator.generatePackageJson.
    rewrite ?append_assoc. find_inside.
Qed.

End Manifests.

Section PostmanToEmitters.
Import postmanParser.
Variable newURL : string -> option URL.

Lemma filter_query_parameters (queryParams : list QueryParam) (headers : list Header) :
  List.filter (fun p => bool_decide (p_in p = Some "query"))
    (map queryParameter queryParams ++ map headerParameter headers)
  = map queryParameter queryParams
  /\ List.filter (fun p => bool_decide (p_in p = Some "path"))
       (map queryParameter queryParams ++ map headerParameter headers)
     = [].
Proof.
  rewrite !List.filter_app. split.
  - replace (List.filter _ (map headerParameter headers)) with (@nil Param).
    + rewrite app_nil_r. induction queryParams as [|q l IH]; [reflexivity|].
      cbn. now rewrite IH.
    + induction headers as [|h l IH]; [reflexivity|]. cbn. exact IH.
  - replace (List.filter _ (map headerParameter headers)) with (@nil Param).
    + rewrite app_nil_r. induction queryParams as [|q l IH]; [reflexivity|]. cbn. exact IH.
    + induction headers as [|h l IH]; [reflexivity|]. cbn. exact IH.
Qed.

Lemma locate_query (request : Request) url fullUrl path query :
  rq_url request = Some url ->
  locate newURL url = Ok (Some (fullUrl, path, query)) ->
  query = queryEntries request.
Proof.
  intros Hurl. unfold queryEntries. rewrite Hurl. destruct url as [s|u]; cbn [locate].
  - destruct (String.eqb s ""); [discriminate|]. now intros [= _ _ <-].
  - destruct (JS.truthy_str (u_raw u)); [|discriminate].
    destruct (joinPath (u_path u)) as [p|m]; cbn [bindResult]; [|discriminate].
    now intros [= _ _ <-].
Qed.

(** X26: A client method generated for an endpoint of a Postman
    collection declares the query entries of the [url] object of the
    request the endpoint stems from, in their order and under their
    keys, and a body parameter when one applies, and nothing else: no
    header becomes a parameter of the method and, the normalizer
    finding no path parameter, no placeholder of the path is ever
    filled in. *)
Theorem postman_methods_declare_query_entries (collection : Collection) (e : Endpoint) :
  e ∈ produced (extractEndpoints newURL collection) ->
  exists item folders request,
    (item, folders) ∈ leafFolders (default [] (c_item collection))
    /\ it_request item = Some (RequestObject request)
    /\ extractEndpointFromRequest newURL item (JS.join "/" folders) = Ok (Some e)
    /\ Emit.pathParams e = []
    /\ Emit.queryParams e = map queryParameter (extractQueryParams (queryEntries request))
    /\ map p_name (Emit.queryParams e) = map kv_key (queryEntries request)
    /\ Emit.expectedArity e
       = length (queryEntries request) + (if Emit.hasBody e then 1 else 0)
    /\ javaGenerator.methodParameterList
         (Emit.pathParams e) (Emit.queryParams e) (Emit.hasBody e)
       = map (fun entry => "String " +:+ JS.str (kv_key entry)) (queryEntries request)
         ++ (if Emit.hasBody e then ["Object body"] else []).
Proof.
  intros (item & folders & Hleaf & He & _)%endpoint_of_leaf_folders.
  destruct (extractEndpointFromRequest_shape newURL _ _ _ He)
    as (_ & _ & request & url & fullUrl & path0 & query & headers
        & Hreq & Hurl & Hloc & _ & _ & _ & Hparams).
  rewrite (locate_query request url fullUrl path0 query Hurl Hloc) in Hparams.
  destruct (filter_query_parameters (extractQueryParams (queryEntries request))
              (List.filter keepHeader headers)) as [Hquery Hpath].
  assert (Emit.pathParams e = []) as Hp.
  { unfold Emit.pathParams. now rewrite Hparams. }
  assert (Emit.queryParams e
          = map queryParameter (extractQueryParams (queryEntries request))) as Hq.
  { unfold Emit.queryParams. now rewrite Hparams. }
  exists item, folders, request.
  split; [exact Hleaf|]. split; [exact Hreq|]. split; [exact He|].
  split; [exact Hp|]. split; [exact Hq|]. split; [|split].
  - rewrite Hq. unfold extractQueryParams. rewrite !map_map. reflexivity.
  - unfold Emit.expectedArity. rewrite Hp, Hq. unfold extractQueryParams.
    now rewrite !length_map.
  - pose proof (methodParameterList_shape e) as Hshape. cbv zeta in Hshape.
    destruct Hshape as (_ & -> & _). rewrite Hp, Hq. unfold extractQueryParams.
    cbn [map app]. f_equal. clear.
    induction (queryEntries request) as [|entry entries IH]; [reflexivity|].
    cbn [map]. rewrite IH. reflexivity.
Qed.

End PostmanToEmitters.

Lemma postman_methods_declare_query_entries_witness :
  exists e,
    e ∈ produced (postmanParser.extractEndpoints Examples.httpURL Examples.searchUsers)
    /\ map p_name (parameters e) = [Some "role"; Some "page"; Some "X-Trace"]
    /\ map p_name (Emit.queryParams e) = [Some "role"; Some "page"]
    /\ Emit.pathParams e = []
    /\ Emit.expectedArity e = 2.
Proof.
  let l := eval vm_compute in
      (produced (postmanParser.extractEndpoints Examples.httpURL Examples.searchUsers)) in
  match l with
  | [?e] =>
      assert (He : e ∈ produced (postmanParser.extractEndpoints Examples.httpURL
                                   Examples.searchUsers))
        by (apply (list_elem_of_lookup_2 _ 0); vm_compute; reflexivity);
      exists e;
      destruct (postman_methods_declare_query_entries Examples.httpURL Examples.searchUsers
                  e He)
        as (item & folders & request & _ & _ & _ & Hpath & _ & _ & _ & _)
  end.
  split; [exact He|]. split; [reflexivity|]. split; [reflexivity|].
  split; [exact Hpath | reflexivity].
Defined.

Section SwaggerToEmitters.
Import swaggerParser.

Lemma filter_extractParameters (location : string) (ps : list ParameterObject) :
  List.filter (fun p => bool_decide (p_in p = Some location)) (extractParameters ps)
  = extractParameters
      (List.filter (fun p => bool_decide (po_in p = Some location)) ps).
Proof.
  induction ps as [|p ps IH]; [reflexivity|].
  cbn [extractParameters map List.filter p_in].
  destruct (bool_decide (po_in p = Some location)); cbn [map]; now f_equal.
Qed.

Lemma verb_takes_body m :
  m ∈ httpMethods ->
  negb (String.eqb (JS.toUpperCase m) "GET") && negb (String.eqb (JS.toUpperCase m) "DELETE")
  = negb (String.eqb m "get") && negb (String.eqb m "delete").
Proof.
  unfold httpMethods. rewrite !elem_of_cons, elem_of_nil.
  intros [->|[->|[->|[->|[->|[->|[->|[]]]]]]]]; reflexivity.
Qed.

(** X21: A client method generated for an operation of an OpenAPI document
    declares the parameters the operation itself locates in the path
    and in the query, in their order; parameters located in a header or
    a cookie are not declared, and a body parameter is declared exactly
    when the first media type of the request body has a schema and the
    verb is neither [get] nor [delete]. *)
Theorem swagger_methods_declare_operation_parameters
  (api : Api) (key m : string) (op : Operation) :
  m ∈ httpMethods ->
  let e := endpointOf api key m op in
  let declared := default [] (op_parameters op) in
  Emit.pathParams e
    = extractParameters (List.filter (fun p => bool_decide (po_in p = Some "path")) declared)
  /\ Emit.queryParams e
    = extractParameters (List.filter (fun p => bool_decide (po_in p = Some "query")) declared)
  /\ Emit.hasBody e
    = bool_decide (is_Some (extractRequestBody (op_requestBody op)))
      && negb (String.eqb m "get") && negb (String.eqb m "delete")
  /\ Emit.expectedArity e
    = length (List.filter (fun p => bool_decide (po_in p = Some "path")) declared)
      + length (List.filter (fun p => bool_decide (po_in p = Some "query")) declared)
      + (if Emit.hasBody e then 1 else 0).
Proof.
  intros Hverb. cbv zeta.
  assert (Emit.pathParams (endpointOf api key m op)
          = extractParameters
              (List.filter (fun p => bool_decide (po_in p = Some "path"))
                 (default [] (op_parameters op)))) as Hp.
  { apply filter_extractParameters. }
  assert (Emit.queryParams (endpointOf api key m op)
          = extractParameters
              (List.filter (fun p => bool_decide (po_in p = Some "query"))
                 (default [] (op_parameters op)))) as Hq.
  { apply filter_extractParameters. }
  split; [exact Hp|]. split; [exact Hq|]. split.
  - unfold Emit.hasBody. cbn [endpointOf requestBody method].
    rewrite <- !andb_assoc. now rewrite (verb_takes_body m Hverb).
  - unfold Emit.expectedArity. rewrite Hp, Hq.
    unfold extractParameters. now rewrite !length_map.
Qed.

Lemma swagger_methods_declare_operation_parameters_witness :
  map p_name
    (Emit.pathParams (endpointOf Examples.relativePathKey "/pets/{id}" "put" Examples.updatePet))
  = [Some "id"]
  /\ map p_name
       (Emit.queryParams
          (endpointOf Examples.relativePathKey "/pets/{id}" "put" Examples.updatePet))
     = [Some "notify"]
  /\ Emit.expectedArity
       (endpointOf Examples.relativePathKey "/pets/{id}" "put" Examples.updatePet) = 3.
Proof.
  pose proof (swagger_methods_declare_operation_parameters Examples.relativePathKey
                "/pets/{id}" "put" Examples.updatePet) as H.
  cbv zeta in H. destruct H as (Hp & Hq & Hb & Harity).
  - unfold httpMethods. set_solver.
  - rewrite Hp, Hq, Harity, Hb. repeat split.
Defined.

End SwaggerToEmitters.

